(** * Git report generator: commit selection, configuration and PDF layout

    A shallow embedding of the Go packages [internal/git], [internal/config]
    and [internal/generator], and the properties of the specification that
    concern them.

    Conventions.
    - A Go [string] is a byte string, modelled by [string] (a list of [ascii]
      bytes); a multi-byte UTF-8 rune is the sequence of its bytes.
    - A Go [error] is a [string] message; a function returning [(T, error)]
      returns a [result T], a function returning [error] returns an
      [option string] with [None] for [nil].
    - Calls into libraries (go-git, gofpdf, the file system) are modelled by
      what the package observes of them: the values they return and the
      sequence of calls made on them. *)

From Stdlib Require Import ZArith String Ascii List Bool Lia PrimFloat Uint63 Sorted.
From stdpp Require Import base list gmap strings.
Import ListNotations.

Local Open Scope string_scope.
Local Open Scope Z_scope.

(** ** Results *)

Inductive result (A : Type) : Type :=
| Ok (a : A)
| Err (msg : string).
Arguments Ok {A} a.
Arguments Err {A} msg.

(** ** Package [strings] (Go standard library) *)

Module Strings.

(** Bytes as numbers. *)
Definition byte (c : ascii) : N := N_of_ascii c.

Definition newline : ascii := "010"%char.

(** [strings.Split(s, sep)] for a one-byte separator (the source only splits
    at ["\n"]): the substrings between the separators, always at least one. *)
Fixpoint splitBytes (sep : ascii) (s : list ascii) : list (list ascii) :=
  match s with
  | [] => [[]]
  | c :: r =>
      if Ascii.eqb c sep then [] :: splitBytes sep r
      else match splitBytes sep r with
           | h :: t => (c :: h) :: t
           | [] => [[c]]
           end
  end.

Definition Split (s : string) (sep : ascii) : list string :=
  map string_of_list_ascii (splitBytes sep (list_ascii_of_string s)).

(** [strings.Join(elems, sep)]. *)
Fixpoint Join (elems : list string) (sep : string) : string :=
  match elems with
  | [] => ""
  | [e] => e
  | e :: rest => e ++ sep ++ Join rest sep
  end.

(** White space as [unicode.IsSpace] has it, on the UTF-8 encoding:
    the six ASCII bytes of [asciiSpace] ... *)
Definition asciiSpace (c : ascii) : bool :=
  let n := byte c in
  ((9 <=? n) && (n <=? 13) || (n =? 32))%N.

(** ... U+0085 and U+00A0 (two bytes) ... *)
Definition space2 (c d : ascii) : bool :=
  ((byte c =? 194) && ((byte d =? 133) || (byte d =? 160)))%N.

(** ... and U+1680, U+2000..U+200A, U+2028, U+2029, U+202F, U+205F and
    U+3000 (three bytes). *)
Definition space3 (c d e : ascii) : bool :=
  let '(c, d, e) := (byte c, byte d, byte e) in
  ((c =? 225) && (d =? 154) && (e =? 128)
   || (c =? 226) && (d =? 128)
        && ((128 <=? e) && (e <=? 138) || (e =? 168) || (e =? 169) || (e =? 175))
   || (c =? 226) && (d =? 129) && (e =? 159)
   || (c =? 227) && (d =? 128) && (e =? 128))%N.

(** Removal of the white-space runes at the head of a byte sequence; [two]
    and [three] recognise the multi-byte ones.  [strings.TrimLeftFunc]
    decodes forwards from the first byte, [strings.TrimRightFunc] backwards
    from the last one with [utf8.DecodeLastRuneInString]: a rune is removed
    exactly when the bytes at that end are its encoding. *)
Fixpoint trimHead (two : ascii -> ascii -> bool)
    (three : ascii -> ascii -> ascii -> bool) (s : list ascii) : list ascii :=
  match s with
  | [] => []
  | c :: r =>
      if asciiSpace c then trimHead two three r
      else match r with
           | [] => s
           | d :: r2 =>
               if two c d then trimHead two three r2
               else match r2 with
                    | [] => s
                    | e :: r3 =>
                        if three c d e then trimHead two three r3 else s
                    end
           end
  end.

Definition trimLeftBytes (s : list ascii) : list ascii :=
  trimHead space2 space3 s.

(** The multi-byte white-space runes read from the last byte backwards. *)
Definition space2r (c d : ascii) : bool := space2 d c.
Definition space3r (c d e : ascii) : bool := space3 e d c.

Definition trimRightBytes (s : list ascii) : list ascii :=
  rev (trimHead space2r space3r (rev s)).

Definition trimBytes (s : list ascii) : list ascii :=
  trimRightBytes (trimLeftBytes s).

(** [strings.TrimSpace(s)]: the ASCII fast path and the [unicode.IsSpace]
    fallback together remove every leading and every trailing white-space
    rune. *)
Definition TrimSpace (s : string) : string :=
  string_of_list_ascii (trimBytes (list_ascii_of_string s)).

(** [strings.HasPrefix(s, prefix)] and [strings.Contains(s, substr)]. *)
Fixpoint HasPrefix (s prefix : string) : bool :=
  match prefix, s with
  | EmptyString, _ => true
  | String p prefix', String c s' => Ascii.eqb c p && HasPrefix s' prefix'
  | String _ _, EmptyString => false
  end.

Fixpoint Contains (s substr : string) : bool :=
  HasPrefix s substr
  || match s with
     | EmptyString => false
     | String _ s' => Contains s' substr
     end.

Section EqualFold.

(** [strings.EqualFold] compares byte by byte while both bytes are ASCII
    and jumps to its Unicode loop (label [hasUnicode]) on the two suffixes
    at the first position where either byte is not.  That loop needs the
    tables of [unicode.SimpleFold]: it is a parameter. *)
Variable hasUnicode : string -> string -> bool.

Definition isUpper (n : N) : bool := ((65 <=? n) && (n <=? 90))%N.

Fixpoint EqualFold (s t : string) : bool :=
  match s, t with
  | String sc s', String tc t' =>
      let sr := byte sc in
      let tr := byte tc in
      if ((128 <=? sr) || (128 <=? tr))%N then hasUnicode s t
      else if (tr =? sr)%N then EqualFold s' t'
      else
        let lo := N.min sr tr in
        let hi := N.max sr tr in
        if isUpper lo && (hi =? lo + 32)%N then EqualFold s' t' else false
  | EmptyString, EmptyString => true
  | _, _ => false
  end.

End EqualFold.

End Strings.

(** ** Package [time] (Go standard library) *)

Module Time.

(** A [time.Time]: an instant, in nanoseconds since the Unix epoch, and the
    offset in seconds east of UTC that its location has at that instant.
    [time.Duration] is a number of nanoseconds. *)
Record Time := mkTime { unixNano : Z; zoneOffset : Z }.

Definition Nanosecond : Z := 1.
Definition Second : Z := 1000000000 * Nanosecond.
Definition Hour : Z := 3600 * Second.

(** [t.Before(u)] and [t.After(u)] compare the instants only. *)
Definition Before (t u : Time) : bool := unixNano t <? unixNano u.
Definition After (t u : Time) : bool := unixNano u <? unixNano t.

(** [t.Add(d)]. *)
Definition Add (t : Time) (d : Z) : Time :=
  {| unixNano := unixNano t + d; zoneOffset := zoneOffset t |}.

(** Civil date of a day number (days since 1970-01-01), proleptic Gregorian
    calendar. *)
Definition civil (days : Z) : Z * Z * Z :=
  let z := days + 719468 in
  let era := z / 146097 in
  let doe := z mod 146097 in
  let yoe := (doe - doe / 1460 + doe / 36524 - doe / 146096) / 365 in
  let doy := doe - (365 * yoe + yoe / 4 - yoe / 100) in
  let mp := (5 * doy + 2) / 153 in
  let d := doy - (153 * mp + 2) / 5 + 1 in
  let m := if mp <? 10 then mp + 3 else mp - 9 in
  let y := yoe + era * 400 + (if m <=? 2 then 1 else 0) in
  (y, m, d).

Definition digit (n : Z) : string :=
  String (ascii_of_N (48 + Z.to_N (n mod 10))) "".

(** [appendInt(b, x, width)] of package [time]: decimal, zero-padded to
    [width] digits, with a minus sign for a negative number. *)
Fixpoint digits (fuel : nat) (n : Z) : string :=
  match fuel with
  | O => ""
  | S fuel' => if n <? 10 then digit n else digits fuel' (n / 10) ++ digit n
  end.

Fixpoint zeros (n : nat) : string :=
  match n with O => "" | S n' => "0" ++ zeros n' end.

Definition appendInt (x : Z) (width : nat) : string :=
  let u := Z.abs x in
  let ds := digits (S (Z.to_nat (Z.log2 u))) u in
  (if x <? 0 then "-" else "") ++ zeros (width - String.length ds) ++ ds.

(** [t.Format("2006-01-02")]. *)
Definition FormatDate (t : Time) : string :=
  let secs := unixNano t / Second + zoneOffset t in
  let '(y, m, d) := civil (secs / 86400) in
  appendInt y 4 ++ "-" ++ appendInt m 2 ++ "-" ++ appendInt d 2.

(** [t.Format("2006-01-02 15:04:05")]. *)
Definition FormatDateTime (t : Time) : string :=
  let secs := unixNano t / Second + zoneOffset t in
  let sod := secs mod 86400 in
  FormatDate t ++ " " ++ appendInt (sod / 3600) 2 ++ ":"
    ++ appendInt (sod / 60 mod 60) 2 ++ ":" ++ appendInt (sod mod 60) 2.

(** Midnight UTC of a civil date, as [time.Parse("2006-01-02", s)] returns
    it; the inverse of [civil]. *)
Definition daysFromCivil (y m d : Z) : Z :=
  let y' := if m <=? 2 then y - 1 else y in
  let era := y' / 400 in
  let yoe := y' mod 400 in
  let doy := (153 * (if m <=? 2 then m + 9 else m - 3) + 2) / 5 + d - 1 in
  let doe := yoe * 365 + yoe / 4 - yoe / 100 + doy in
  era * 146097 + doe - 719468.

Definition Date (y m d hh mm ss : Z) : Time :=
  {| unixNano := (daysFromCivil y m d * 86400 + hh * 3600 + mm * 60 + ss) * Second;
     zoneOffset := 0 |}.

End Time.

(** ** Package [internal/git] *)

Module Git.

Import Strings Time.

(** [Commit] represents a Git commit with relevant information. *)
Record Commit := mkCommit {
  SHA : string;
  Date : Time;
  Message : string;
  Description : string;
  Author : string;
  AuthorEmail : string
}.

(** What the source reads of go-git's [object.Commit]: the hash in
    hexadecimal ([c.Hash.String()], 40 characters), the author signature and
    the raw message. *)
Record Signature := mkSignature {
  Name : string;
  Email : string;
  When : Time
}.

Record ObjectCommit := mkObjectCommit {
  Hash : string;
  AuthorSig : Signature;
  RawMessage : string
}.

(** A commit iterator: the commits that [ForEach] hands to its callback, in
    the order of the walk, and the error that ends the walk, if any. *)
Record CommitIter := mkCommitIter {
  yielded : list ObjectCommit;
  failure : option string
}.

(** What the source uses of go-git's [Repository]: [Reference(name, true)],
    which returns the hash a reference resolves to, and [Log] from a hash. *)
Record Repository := mkRepository {
  Reference : string -> result string;
  Log : string -> result CommitIter
}.

Record Service := mkService {
  repo : Repository;
  repoPath : string
}.

(** [parseCommitMessage] separates the commit message into title and
    description. *)
Definition parseCommitMessage (fullMessage : string) : string * string :=
  let lines := Split (TrimSpace fullMessage) newline in
  match lines with
  | [] => ("", "")
  | line0 :: others =>
      let message := TrimSpace line0 in
      let description :=
        match others with
        | [] => ""
        | _ =>
            (* Join remaining lines as description, skipping empty lines *)
            let descLines :=
              filter (fun line => line <> "") (map TrimSpace others) in
            Join descLines " "
        end in
      (message, description)
  end.

(** The exchange sort at the end of [GetCommits]:
    [if commits[i].Date.Before(commits[j].Date) { swap }] ... *)
Definition exchange (commits : list Commit) (i j : nat) : list Commit :=
  match commits !! i, commits !! j with
  | Some ci, Some cj =>
      if Before (Date ci) (Date cj) then <[j:=ci]> (<[i:=cj]> commits)
      else commits
  | _, _ => commits
  end.

(** ... for [j] from the given one, [n] times ... *)
Fixpoint innerLoop (n : nat) (i j : nat) (commits : list Commit) : list Commit :=
  match n with
  | O => commits
  | S n' => innerLoop n' i (S j) (exchange commits i j)
  end.

(** ... for [i] from the given one, [n] times, [j] running from [i + 1] to
    [len(commits) - 1]. *)
Fixpoint outerLoop (n : nat) (i : nat) (commits : list Commit) : list Commit :=
  match n with
  | O => commits
  | S n' =>
      outerLoop n' (S i) (innerLoop (length commits - S i) i (S i) commits)
  end.

Definition sortNewestFirst (commits : list Commit) : list Commit :=
  outerLoop (length commits - 1) 0 commits.

Section GetCommits.

Variable hasUnicode : string -> string -> bool.

(** The two tests of the [ForEach] callback: a commit is kept when neither
    returns early. *)
Definition inDateRange (fromDate toDate : Time) (c : ObjectCommit) : bool :=
  negb (Before (When (AuthorSig c)) fromDate
        || After (When (AuthorSig c)) (Add toDate (24 * Hour))).

Definition byAuthor (authorEmail : string) (c : ObjectCommit) : bool :=
  EqualFold hasUnicode (Email (AuthorSig c)) authorEmail.

Definition toCommit (c : ObjectCommit) : Commit :=
  let '(message, description) := parseCommitMessage (RawMessage c) in
  {| SHA := substring 0 8 (Hash c);
     Date := When (AuthorSig c);
     Message := message;
     Description := description;
     Author := Name (AuthorSig c);
     AuthorEmail := Email (AuthorSig c) |}.

(** The callback, applied to the commits of the walk in order. *)
Fixpoint forEach (fromDate toDate : Time) (authorEmail : string)
    (walk : list ObjectCommit) (commits : list Commit) : list Commit :=
  match walk with
  | [] => commits
  | c :: walk' =>
      if negb (inDateRange fromDate toDate c) then
        forEach fromDate toDate authorEmail walk' commits
      else if negb (byAuthor authorEmail c) then
        forEach fromDate toDate authorEmail walk' commits
      else
        forEach fromDate toDate authorEmail walk' (commits ++ [toCommit c])
  end.

(** [GetCommits] retrieves commits for the specified author, date range,
    and branch. *)
Definition GetCommits (s : Service) (fromDate toDate : Time)
    (authorEmail branchName : string) : result (list Commit) :=
  match Reference (repo s) ("refs/heads/" ++ branchName) with
  | Err err =>
      Err ("failed to get branch reference for " ++ branchName ++ ": " ++ err)
  | Ok branchRef =>
      match Log (repo s) branchRef with
      | Err err => Err ("failed to get commit log: " ++ err)
      | Ok commitIter =>
          let commits :=
            forEach fromDate toDate authorEmail (yielded commitIter) [] in
          match failure commitIter with
          | Some err => Err ("failed to iterate through commits: " ++ err)
          | None => Ok (sortNewestFirst commits)
          end
      end
  end.

End GetCommits.

End Git.

(** ** Package [unicode/utf8] (Go standard library) *)

Module Utf8.

Import Strings.

Definition inRange (lo hi : N) (c : ascii) : bool :=
  ((lo <=? byte c) && (byte c <=? hi))%N.

Definition cont (c : ascii) : bool := inRange 128 191 c.

(** Width of the encoding at the head of [s] when it is a valid one
    ([utf8.DecodeRuneInString] returns that rune and width), 0 when it is
    not ([RuneError] with width 1). *)
Definition runeWidth (s : list ascii) : nat :=
  match s with
  | [] => 0
  | c0 :: r =>
      if (byte c0 <? 128)%N then 1
      else match r with
      | [] => 0
      | c1 :: r1 =>
          if inRange 194 223 c0 then (if cont c1 then 2 else 0)
          else match r1 with
          | [] => 0
          | c2 :: r2 =>
              let second3 :=
                if (byte c0 =? 224)%N then inRange 160 191 c1
                else if (byte c0 =? 237)%N then inRange 128 159 c1
                else cont c1 in
              if inRange 224 239 c0 then (if second3 && cont c2 then 3 else 0)
              else match r2 with
              | [] => 0
              | c3 :: _ =>
                  let second4 :=
                    if (byte c0 =? 240)%N then inRange 144 191 c1
                    else if (byte c0 =? 244)%N then inRange 128 143 c1
                    else cont c1 in
                  if inRange 240 244 c0 && second4 && cont c2 && cont c3
                  then 4 else 0
              end
          end
      end
  end.

(** The encoding of U+FFFD. *)
Definition replacement : list ascii :=
  [ascii_of_N 239; ascii_of_N 191; ascii_of_N 189].

(** Every byte that does not start a valid encoding replaced by U+FFFD:
    what a string becomes when [encoding/json] writes it (as an escape) and
    reads it back. *)
Fixpoint coerceBytes (fuel : nat) (s : list ascii) : list ascii :=
  match fuel, s with
  | S fuel', c :: r =>
      match runeWidth s with
      | O => (replacement ++ coerceBytes fuel' r)%list
      | w => (take w s ++ coerceBytes fuel' (drop w s))%list
      end
  | _, _ => []
  end.

Definition coerce (s : string) : string :=
  let bytes := list_ascii_of_string s in
  string_of_list_ascii (coerceBytes (length bytes) bytes).

(** [utf8.ValidString]. *)
Definition ValidString (s : string) : bool := String.eqb (coerce s) s.

End Utf8.

(** ** Package [internal/config] *)

Module Config.

Import Strings.

(** [HeaderConfig] contains the configurable header template. *)
Record HeaderConfig := mkHeaderConfig {
  Template : string;
  ExecutorName : string;
  ExecutorEmail : string;
  RecipientName : string;
  Location : string
}.

(** [PDFConfig] contains PDF styling options; a [float64] is a binary64
    float, an [int] an integer, a [[3]int] a triple. *)
Record PDFConfig := mkPDFConfig {
  MarginTop : float;
  MarginBottom : float;
  MarginLeft : float;
  MarginRight : float;
  FontFamily : string;
  FontSize : float;
  HeaderColor : Z * Z * Z;
  ContentColor : Z * Z * Z
}.

(** [Config] holds the configuration for the report generator. *)
Record Config := mkConfig {
  Header : HeaderConfig;
  PDF : PDFConfig
}.

Definition lf : string := String newline "".

(** [DefaultConfig] returns the default configuration. *)
Definition DefaultConfig : Config :=
  {| Header :=
       {| Template :=
            "Some City, {{.date_from}} - {{.date_to}}" ++ lf ++
            "Protokół odbioru prac programistycznych" ++ lf ++
            lf ++
            "Wykonawca: {{.executor_name}} ({{.executor_email}})" ++ lf ++
            "Odbiorca: {{.recipient_name}}" ++ lf ++
            lf ++
            "Repozytorium: {{.repository_name}}" ++ lf ++
            "- Branch {{.branch_name}}" ++ lf ++
            lf ++
            "Lista commitów:";
          ExecutorName := "Some Programmer";
          ExecutorEmail := "jan.kowalski@comany.com";
          RecipientName := "CIA";
          Location := "Warsaw" |};
     PDF :=
       {| MarginTop := 20;
          MarginBottom := 20;
          MarginLeft := 20;
          MarginRight := 20;
          FontFamily := "Arial";
          FontSize := 10;
          HeaderColor := (0, 0, 0);
          ContentColor := (50, 50, 50) |} |}.

(** The zero value of [Config], what [var config Config] declares. *)
Definition zeroHeader : HeaderConfig :=
  {| Template := ""; ExecutorName := ""; ExecutorEmail := "";
     RecipientName := ""; Location := "" |}.

Definition zeroPDF : PDFConfig :=
  {| MarginTop := 0; MarginBottom := 0; MarginLeft := 0; MarginRight := 0;
     FontFamily := ""; FontSize := 0;
     HeaderColor := (0, 0, 0); ContentColor := (0, 0, 0) |}.

Definition zeroConfig : Config := {| Header := zeroHeader; PDF := zeroPDF |}.

(** [Validate] validates the configuration. *)
Definition Validate (c : Config) : option string :=
  if String.eqb (Template (Header c)) "" then
    Some "header template cannot be empty"
  else if (FontSize (PDF c) <=? 0)%float then
    Some "font size must be positive"
  else if ((MarginTop (PDF c) <? 0) || (MarginBottom (PDF c) <? 0)
           || (MarginLeft (PDF c) <? 0) || (MarginRight (PDF c) <? 0))%float then
    Some "margins cannot be negative"
  else None.

Section Json.

(** Package [encoding/json], on parsed documents.  A number is kept as
    its literal, of a type [Number] that package [strconv] reads and
    writes; [hasUnicode] is the parameter of [EqualFold]. *)
Variable hasUnicode : string -> string -> bool.
Variable Number : Type.
(** [strconv.ParseFloat(lit, 64)] and [strconv.ParseInt(lit, 10, 64)],
    [None] for a syntax or range error. *)
Variable ParseFloat : Number -> option float.
Variable ParseInt : Number -> option Z.
(** The literals that [encoding/json] writes for a finite [float64] and
    for an [int]. *)
Variable FormatFloat : float -> Number.
Variable FormatInt : Z -> Number.

#[local] Unset Elimination Schemes.
Inductive JSON : Type :=
| JNull
| JBool (b : bool)
| JNumber (n : Number)
| JString (s : string)
| JArray (elems : list JSON)
| JObject (members : list (string * JSON)).
#[local] Set Elimination Schemes.

Definition typeError : string := "json: cannot unmarshal value into Go value".

(** [json.Unmarshal] into a field of each type of the structure: [null]
    leaves the field as it is, a value of another kind is an
    [UnmarshalTypeError].  The decoder goes on after such an error and
    returns the first one at the end; [Load] drops the configuration on any
    error, so the first error ends the decoding here. *)
Definition unmarshalString (v : JSON) (old : string) : result string :=
  match v with
  | JNull => Ok old
  | JString s => Ok s
  | _ => Err typeError
  end.

Definition unmarshalFloat64 (v : JSON) (old : float) : result float :=
  match v with
  | JNull => Ok old
  | JNumber n =>
      match ParseFloat n with Some f => Ok f | None => Err typeError end
  | _ => Err typeError
  end.

Definition unmarshalInt (v : JSON) (old : Z) : result Z :=
  match v with
  | JNull => Ok old
  | JNumber n =>
      match ParseInt n with Some z => Ok z | None => Err typeError end
  | _ => Err typeError
  end.

(** Into a [[3]int]: element by element, elements past the third are
    skipped and elements that the document lacks are set to zero. *)
Definition unmarshalElem (elems : list JSON) (i : nat) (old : Z) : result Z :=
  match elems !! i with
  | Some e => unmarshalInt e old
  | None => Ok 0
  end.

Definition unmarshalColor (v : JSON) (old : Z * Z * Z) : result (Z * Z * Z) :=
  match v with
  | JNull => Ok old
  | JArray elems =>
      let '(r, g, b) := old in
      match unmarshalElem elems 0 r with
      | Err e => Err e
      | Ok r' =>
          match unmarshalElem elems 1 g with
          | Err e => Err e
          | Ok g' =>
              match unmarshalElem elems 2 b with
              | Err e => Err e
              | Ok b' => Ok (r', g', b')
              end
          end
      end
  | _ => Err typeError
  end.

(** The field that a key of the document names: the one whose JSON name
    is the key, or else the first one whose name equals it under
    [EqualFold]; a key that names no field is skipped. *)
Definition lookupField {F : Type} (fields : list (string * F)) (key : string)
    : option F :=
  match find (fun f => String.eqb (fst f) key) fields with
  | Some f => Some (snd f)
  | None =>
      match find (fun f => EqualFold hasUnicode (fst f) key) fields with
      | Some f => Some (snd f)
      | None => None
      end
  end.

Inductive HeaderField :=
| FTemplate | FExecutorName | FExecutorEmail | FRecipientName | FLocation.

Definition headerFields : list (string * HeaderField) :=
  [("template", FTemplate); ("executor_name", FExecutorName);
   ("executor_email", FExecutorEmail); ("recipient_name", FRecipientName);
   ("location", FLocation)].

Definition setHeaderField (f : HeaderField) (v : JSON) (h : HeaderConfig)
    : result HeaderConfig :=
  let set (old : string) (mk : string -> HeaderConfig) :=
    match unmarshalString v old with
    | Ok s => Ok (mk s)
    | Err e => Err e
    end in
  match f with
  | FTemplate =>
      set (Template h) (fun s =>
        mkHeaderConfig s (ExecutorName h) (ExecutorEmail h) (RecipientName h) (Location h))
  | FExecutorName =>
      set (ExecutorName h) (fun s =>
        mkHeaderConfig (Template h) s (ExecutorEmail h) (RecipientName h) (Location h))
  | FExecutorEmail =>
      set (ExecutorEmail h) (fun s =>
        mkHeaderConfig (Template h) (ExecutorName h) s (RecipientName h) (Location h))
  | FRecipientName =>
      set (RecipientName h) (fun s =>
        mkHeaderConfig (Template h) (ExecutorName h) (ExecutorEmail h) s (Location h))
  | FLocation =>
      set (Location h) (fun s =>
        mkHeaderConfig (Template h) (ExecutorName h) (ExecutorEmail h) (RecipientName h) s)
  end.

Inductive PDFField :=
| FMarginTop | FMarginBottom | FMarginLeft | FMarginRight
| FFontFamily | FFontSize | FHeaderColor | FContentColor.

Definition pdfFields : list (string * PDFField) :=
  [("margin_top", FMarginTop); ("margin_bottom", FMarginBottom);
   ("margin_left", FMarginLeft); ("margin_right", FMarginRight);
   ("font_family", FFontFamily); ("font_size", FFontSize);
   ("header_color", FHeaderColor); ("content_color", FContentColor)].

Definition setPDFField (f : PDFField) (v : JSON) (p : PDFConfig)
    : result PDFConfig :=
  let setFloat (old : float) (mk : float -> PDFConfig) :=
    match unmarshalFloat64 v old with
    | Ok x => Ok (mk x)
    | Err e => Err e
    end in
  let setColor (old : Z * Z * Z) (mk : Z * Z * Z -> PDFConfig) :=
    match unmarshalColor v old with
    | Ok x => Ok (mk x)
    | Err e => Err e
    end in
  match f with
  | FMarginTop =>
      setFloat (MarginTop p) (fun x =>
        mkPDFConfig x (MarginBottom p) (MarginLeft p) (MarginRight p)
          (FontFamily p) (FontSize p) (HeaderColor p) (ContentColor p))
  | FMarginBottom =>
      setFloat (MarginBottom p) (fun x =>
        mkPDFConfig (MarginTop p) x (MarginLeft p) (MarginRight p)
          (FontFamily p) (FontSize p) (HeaderColor p) (ContentColor p))
  | FMarginLeft =>
      setFloat (MarginLeft p) (fun x =>
        mkPDFConfig (MarginTop p) (MarginBottom p) x (MarginRight p)
          (FontFamily p) (FontSize p) (HeaderColor p) (ContentColor p))
  | FMarginRight =>
      setFloat (MarginRight p) (fun x =>
        mkPDFConfig (MarginTop p) (MarginBottom p) (MarginLeft p) x
          (FontFamily p) (FontSize p) (HeaderColor p) (ContentColor p))
  | FFontFamily =>
      match unmarshalString v (FontFamily p) with
      | Ok s =>
          Ok (mkPDFConfig (MarginTop p) (MarginBottom p) (MarginLeft p)
                (MarginRight p) s (FontSize p) (HeaderColor p) (ContentColor p))
      | Err e => Err e
      end
  | FFontSize =>
      setFloat (FontSize p) (fun x =>
        mkPDFConfig (MarginTop p) (MarginBottom p) (MarginLeft p) (MarginRight p)
          (FontFamily p) x (HeaderColor p) (ContentColor p))
  | FHeaderColor =>
      setColor (HeaderColor p) (fun x =>
        mkPDFConfig (MarginTop p) (MarginBottom p) (MarginLeft p) (MarginRight p)
          (FontFamily p) (FontSize p) x (ContentColor p))
  | FContentColor =>
      setColor (ContentColor p) (fun x =>
        mkPDFConfig (MarginTop p) (MarginBottom p) (MarginLeft p) (MarginRight p)
          (FontFamily p) (FontSize p) (HeaderColor p) x)
  end.

(** Into a structure: the members of the object in order, each into the
    field that its key names; a key that occurs twice is decoded twice. *)
Fixpoint unmarshalMembers {F S : Type} (fields : list (string * F))
    (setField : F -> JSON -> S -> result S)
    (members : list (string * JSON)) (s : S) : result S :=
  match members with
  | [] => Ok s
  | (key, v) :: rest =>
      match lookupField fields key with
      | None => unmarshalMembers fields setField rest s
      | Some f =>
          match setField f v s with
          | Err e => Err e
          | Ok s' => unmarshalMembers fields setField rest s'
          end
      end
  end.

Definition unmarshalStruct {F S : Type} (fields : list (string * F))
    (setField : F -> JSON -> S -> result S) (v : JSON) (s : S) : result S :=
  match v with
  | JNull => Ok s
  | JObject members => unmarshalMembers fields setField members s
  | _ => Err typeError
  end.

Inductive ConfigField := FHeader | FPDF.

Definition configFields : list (string * ConfigField) :=
  [("header", FHeader); ("pdf", FPDF)].

Definition setConfigField (f : ConfigField) (v : JSON) (c : Config)
    : result Config :=
  match f with
  | FHeader =>
      match unmarshalStruct headerFields setHeaderField v (Header c) with
      | Ok h => Ok (mkConfig h (PDF c))
      | Err e => Err e
      end
  | FPDF =>
      match unmarshalStruct pdfFields setPDFField v (PDF c) with
      | Ok p => Ok (mkConfig (Header c) p)
      | Err e => Err e
      end
  end.

(** [json.Unmarshal(data, &config)]; [data] is [None] when the bytes are
    not a JSON document. *)
Definition Unmarshal (data : option JSON) (config : Config) : result Config :=
  match data with
  | None => Err "invalid character looking for beginning of value"
  | Some v => unmarshalStruct configFields setConfigField v config
  end.

(** [json.MarshalIndent(c, "", "  ")]: the fields in order, under their
    JSON names; a [float64] that is not finite is an
    [UnsupportedValueError]. *)
Definition marshalString (s : string) : JSON := JString (Utf8.coerce s).

Definition marshalFloat64 (f : float) : result JSON :=
  if is_nan f then Err "json: unsupported value: NaN"
  else if is_infinity f then
    Err (if (f <? 0)%float then "json: unsupported value: -Inf"
         else "json: unsupported value: +Inf")
  else Ok (JNumber (FormatFloat f)).

Definition marshalColor (c : Z * Z * Z) : JSON :=
  let '(r, g, b) := c in
  JArray [JNumber (FormatInt r); JNumber (FormatInt g); JNumber (FormatInt b)].

Definition marshalHeader (h : HeaderConfig) : JSON :=
  JObject
    [("template", marshalString (Template h));
     ("executor_name", marshalString (ExecutorName h));
     ("executor_email", marshalString (ExecutorEmail h));
     ("recipient_name", marshalString (RecipientName h));
     ("location", marshalString (Location h))].

Definition marshalPDF (p : PDFConfig) : result JSON :=
  match marshalFloat64 (MarginTop p) with Err e => Err e | Ok top =>
  match marshalFloat64 (MarginBottom p) with Err e => Err e | Ok bottom =>
  match marshalFloat64 (MarginLeft p) with Err e => Err e | Ok mleft =>
  match marshalFloat64 (MarginRight p) with Err e => Err e | Ok mright =>
  match marshalFloat64 (FontSize p) with Err e => Err e | Ok size =>
    Ok (JObject
          [("margin_top", top); ("margin_bottom", bottom);
           ("margin_left", mleft); ("margin_right", mright);
           ("font_family", marshalString (FontFamily p));
           ("font_size", size);
           ("header_color", marshalColor (HeaderColor p));
           ("content_color", marshalColor (ContentColor p))])
  end end end end end.

Definition Marshal (c : Config) : result JSON :=
  match marshalPDF (PDF c) with
  | Err e => Err e
  | Ok pdf => Ok (JObject [("header", marshalHeader (Header c)); ("pdf", pdf)])
  end.

(** The file system, as far as this package uses it: the files by path
    (the paths of which [os.Stat] does not say that they do not exist),
    each with the document that its bytes are ([None] when they are not
    JSON), and the errors, if any, with which
    [os.MkdirAll(filepath.Dir(path), 0755)], [os.WriteFile(path, ...)] and
    [os.ReadFile(path)] answer for a path; a file that exists need not be
    readable. *)
Record FileSystem := mkFileSystem {
  files : gmap string (option JSON);
  mkdirAllError : string -> option string;
  writeFileError : string -> option string;
  readFileError : string -> option string
}.

(** [Load] loads configuration from file or returns default if file
    doesn't exist. *)
Definition Load (fs : FileSystem) (configPath : string) : result Config :=
  if String.eqb configPath "" then Ok DefaultConfig
  else
    match files fs !! configPath with
    | None => Err ("configuration file not found: " ++ configPath)
    | Some data =>
        match readFileError fs configPath with
        | Some err => Err ("failed to read configuration file: " ++ err)
        | None =>
            match Unmarshal data zeroConfig with
            | Err err => Err ("failed to parse configuration file: " ++ err)
            | Ok config =>
                match Validate config with
                | Some err => Err ("invalid configuration: " ++ err)
                | None => Ok config
                end
            end
        end
    end.

(** [Save] saves the configuration to a file: the error, if any, and the
    file system afterwards. *)
Definition Save (c : Config) (configPath : string) (fs : FileSystem)
    : option string * FileSystem :=
  match mkdirAllError fs configPath with
  | Some err => (Some ("failed to create config directory: " ++ err), fs)
  | None =>
      match Marshal c with
      | Err err => (Some ("failed to marshal configuration: " ++ err), fs)
      | Ok data =>
          match writeFileError fs configPath with
          | Some err =>
              (Some ("failed to write configuration file: " ++ err), fs)
          | None =>
              (None,
               mkFileSystem (<[configPath := Some data]> (files fs))
                 (mkdirAllError fs) (writeFileError fs) (readFileError fs))
          end
      end
  end.

End Json.

End Config.


(** ** Package [text/template] (Go standard library)

    The templates that consist of text and of actions [{{.name}}], a field
    of the data, with optional blanks inside the delimiters; [name] is made
    of ASCII letters, digits and underscores and does not start with a
    digit.  A template with any other action is [Unsupported]. *)

Module Template.

Import Strings.

Inductive Item :=
| ItemText (text : string)
| ItemAction (body : string).

Definition isChar (c : ascii) (n : N) : bool := (byte c =? n)%N.

(** The lexer: text up to the next ["{{"], then an action up to the next
    ["}}"]; [None] when an action is not closed. *)
Fixpoint lex (inAction : bool) (cur : string) (s : string) : option (list Item) :=
  match s with
  | EmptyString => if inAction then None else Some [ItemText cur]
  | String c r =>
      match r with
      | String d r' =>
          if negb inAction && isChar c 123 && isChar d 123 then
            option_map (cons (ItemText cur)) (lex true "" r')
          else if inAction && isChar c 125 && isChar d 125 then
            option_map (cons (ItemAction cur)) (lex false "" r')
          else lex inAction (cur ++ String c "") r
      | EmptyString => lex inAction (cur ++ String c "") r
      end
  end.

(** The blanks of the lexer inside an action. *)
Definition isBlank (c : ascii) : bool :=
  isChar c 32 || isChar c 9 || isChar c 13 || isChar c 10.

Fixpoint dropBlanks (s : list ascii) : list ascii :=
  match s with
  | c :: r => if isBlank c then dropBlanks r else s
  | [] => []
  end.

Definition isLetter (c : ascii) : bool :=
  let n := byte c in
  ((65 <=? n) && (n <=? 90) || (97 <=? n) && (n <=? 122) || (n =? 95))%N.

Definition isDigit (c : ascii) : bool :=
  ((48 <=? byte c) && (byte c <=? 57))%N.

(** The name of the field when the body of an action is [.name]. *)
Definition fieldName (body : string) : option string :=
  match rev (dropBlanks (rev (dropBlanks (list_ascii_of_string body)))) with
  | dot :: c :: name =>
      if isChar dot 46 && isLetter c
         && forallb (fun x => isLetter x || isDigit x) name
      then Some (string_of_list_ascii (c :: name))
      else None
  | _ => None
  end.

Inductive Node :=
| TextNode (text : string)
| FieldNode (name : string).

Fixpoint nodes (items : list Item) : option (list Node) :=
  match items with
  | [] => Some []
  | ItemText text :: rest => option_map (cons (TextNode text)) (nodes rest)
  | ItemAction body :: rest =>
      match fieldName body with
      | Some name => option_map (cons (FieldNode name)) (nodes rest)
      | None => None
      end
  end.

Inductive Parsed :=
| Tree (t : list Node)
| ParseError (err : string)
| Unsupported.

(** [template.New(name).Option("missingkey=zero").Parse(text)]. *)
Definition Parse (text : string) : Parsed :=
  match lex false "" text with
  | None => ParseError "template: unclosed action"
  | Some items =>
      match nodes items with
      | Some t => Tree t
      | None => Unsupported
      end
  end.

(** Evaluation of a field on data of type [map[string]interface{}] under
    [missingkey=zero]: the value of the key; for a key that the map lacks,
    the zero value of the element type [interface{}], which is [nil] and is
    printed as ["<no value>"]. *)
Definition evalField (data : gmap string string) (name : string) : string :=
  match data !! name with
  | Some v => v
  | None => "<no value>"
  end.

(** [tmpl.Execute(&buf, data)] followed by [buf.String()]; on a tree of
    text and field nodes it returns no error. *)
Fixpoint Execute (t : list Node) (data : gmap string string) : string :=
  match t with
  | [] => ""
  | TextNode text :: rest => text ++ Execute rest data
  | FieldNode name :: rest => evalField data name ++ Execute rest data
  end.

End Template.

(** ** Package [internal/generator] *)

Module Generator.

Import Strings Time.

Definition fontDir : string := "fonts".
Definition fontName : string := "DejaVu".
Definition fontFile : string := "DejaVuSans.ttf".
Definition fontBold : string := "DejaVuSans-Bold.ttf".

(** [ReportData] contains all the data needed to generate a report. *)
Record ReportData := mkReportData {
  Config : Config.Config;
  RepositoryName : string;
  RepositoryPath : string;
  BranchName : string;
  AuthorEmail : string;
  DateFrom : Time;
  DateTo : Time;
  Commits : list Git.Commit
}.

(** The calls on [gofpdf]'s document that the source makes, with their
    arguments; a [float64] argument is written with the integer that the
    source has there. *)
Inductive PdfCall :=
| New (orientationStr unitStr sizeStr fontDirStr : string)
| AddUTF8Font (familyStr styleStr fileStr : string)
| SetFont (familyStr styleStr : string) (size : Z)
| AddPage
| SetMargins (left top right : Z)
| SetAutoPageBreak (auto : bool) (margin : Z)
| Cell (w h : Z) (txtStr : string)
| Ln (h : Z)
| MultiCell (w h : Z) (txtStr borderStr alignStr : string) (fill : bool)
| CellFormat (w h : Z) (txtStr borderStr : string) (ln : Z) (alignStr : string)
    (fill : bool) (link : Z) (linkStr : string)
| SetFillColor (r g b : Z)
| SetTextColor (r g b : Z)
| OutputFileAndClose (fileStr : string).

(** What a run leaves behind: the calls made on [g.pdf], in order, and the
    lines printed on the standard output. *)
Record World := mkWorld {
  pdf : list PdfCall;
  stdout : list string
}.

(** How a method ends: with [nil], with an error, or outside the templates
    that [Template] covers. *)
Inductive Outcome :=
| Nil
| Error (err : string)
| Beyond.

(** Computations on the world. *)
Definition M (A : Type) : Type := World -> A * World.

Definition ret {A : Type} (a : A) : M A := fun w => (a, w).

Definition bind {A B : Type} (m : M A) (k : A -> M B) : M B :=
  fun w => let '(a, w') := m w in k a w'.

Notation "x <- m ;; k" := (bind m (fun x => k))
  (at level 100, m at next level, right associativity).
Notation "m ;;; k" := (bind m (fun _ => k))
  (at level 100, right associativity).

Definition call (c : PdfCall) : M unit :=
  fun w => (tt, {| pdf := pdf w ++ [c]; stdout := stdout w |}).

Definition println (line : string) : M unit :=
  fun w => (tt, {| pdf := pdf w; stdout := stdout w ++ [line] |}).

(** [fmt.Sprintf("%d", n)]. *)
Definition Itoa (n : Z) : string := appendInt n 0.

Section Generate.

(** The surroundings of a run: the answer of [os.Executable()], the
    functions of [path/filepath], the clock, and the error, if any, with
    which [gofpdf] writes the document that the calls so far describe. *)
Variable Executable : result string.
Variable Dir : string -> string.
Variable Join : string -> string -> string.
Variable Abs : string -> result string.
Variable Now : Time.
Variable outputError : list PdfCall -> string -> option string.

Definition getAbsFontPath (fontFileName : string) : M (result string) :=
  match Executable with
  | Err err => ret (Err ("failed to get executable path: " ++ err))
  | Ok executablePath =>
      println ("Executable path: " ++ executablePath) ;;;
      let executableDir := Dir executablePath in
      println ("Executable dir: " ++ executableDir) ;;;
      (* Construct path relative to executable dir first *)
      let relPath := Join fontDir fontFileName in
      match Abs (Join executableDir relPath) with
      | Err err =>
          ret (Err ("failed to get absolute font path for " ++ relPath ++ ": " ++ err))
      | Ok absPath =>
          println ("Constructed absolute font path: " ++ absPath) ;;;
          ret (Ok absPath)
      end
  end.

(** The data that the header templates are executed on. *)
Definition templateData (data : ReportData) : gmap string string :=
  <["executor_name" := Config.ExecutorName (Config.Header (Config data))]>
  (<["executor_email" := Config.ExecutorEmail (Config.Header (Config data))]>
  (<["recipient_name" := Config.RecipientName (Config.Header (Config data))]>
  (<["repository_name" := RepositoryName data]>
  (<["repository_path" := RepositoryPath data]>
  (<["branch_name" := BranchName data]>
  (<["date_from" := FormatDate (DateFrom data)]>
  (<["date_to" := FormatDate (DateTo data)]> ∅))))))).

(** [generateHeader] creates the header section of the PDF.  The width of
    the title, the page size and the margins that the source asks the
    document for only enter [xPos], which is not used. *)
Definition generateHeader (data : ReportData) : M Outcome :=
  (* Parse template to extract components *)
  let lines := Split (Config.Template (Config.Header (Config data))) newline in
  match lines with
  | dateLocLine :: titleLine :: rest =>
      (* Rest of the template (excluding first two lines) *)
      let restOfTemplate := Strings.Join rest Config.lf in
      println ("DEBUG: Date line: " ++ dateLocLine) ;;;
      println ("DEBUG: Title line: " ++ titleLine) ;;;
      println ("DEBUG: Rest of template: " ++ restOfTemplate) ;;;
      (* Render date line *)
      match Template.Parse dateLocLine with
      | Template.ParseError err =>
          ret (Error ("failed to parse date template: " ++ err))
      | Template.Unsupported => ret Beyond
      | Template.Tree dateTmpl =>
          let dateText := Template.Execute dateTmpl (templateData data) in
          (* Render rest of template *)
          match Template.Parse restOfTemplate with
          | Template.ParseError err =>
              ret (Error ("failed to parse rest of template: " ++ err))
          | Template.Unsupported => ret Beyond
          | Template.Tree restTmpl =>
              let restText := Template.Execute restTmpl (templateData data) in
              println ("DEBUG: Rendered date: " ++ dateText) ;;;
              (* Title doesn't need rendering, no variables *)
              println ("DEBUG: Title (not rendered): " ++ titleLine) ;;;
              println ("DEBUG: Rendered rest: " ++ restText) ;;;
              (* 1. Date line at normal size *)
              call (SetFont fontName "" 11) ;;;
              call (Cell 0 10 dateText) ;;;
              call (Ln 12) ;;;
              (* 2. Title line larger, bold, and centered *)
              call (SetFont fontName "B" 16) ;;;
              call (Cell 0 8 titleLine) ;;;
              call (Ln 15) ;;;
              (* 3. Rest of the template *)
              call (SetFont fontName "" 11) ;;;
              call (MultiCell 0 7 restText "" "L" false) ;;;
              call (Ln 5) ;;;
              ret Nil
          end
      end
  | _ => ret (Error "invalid template format: not enough lines")
  end.

(** The rows of the table: [for i, commit := range data.Commits]. *)
Fixpoint commitRows (i : nat) (commits : list Git.Commit) : M unit :=
  match commits with
  | [] => ret tt
  | commit :: rest =>
      (if (i mod 2 =? 1)%nat then call (SetFillColor 245 245 245)
       else call (SetFillColor 255 255 255)) ;;;
      call (CellFormat 30 7 (FormatDate (Git.Date commit)) "1" 0 "C" true 0 "") ;;;
      call (CellFormat 25 7 (Git.SHA commit) "1" 0 "C" true 0 "") ;;;
      call (MultiCell 0 7
              (Git.Message commit ++ Config.lf ++ Git.Description commit)
              "1" "L" false) ;;;
      commitRows (S i) rest
  end.

(** [generateCommits] creates the commits section of the PDF. *)
Definition generateCommits (data : ReportData) : M Outcome :=
  match Commits data with
  | [] =>
      call (SetFont fontName "I" 11) ;;;
      call (Cell 0 6 "Brak commitów w podanym okresie.") ;;;
      ret Nil
  | _ =>
      (* Table header *)
      call (SetFont fontName "B" 10) ;;;
      call (SetFillColor 220 220 220) ;;;
      call (CellFormat 30 8 "Data" "1" 0 "C" true 0 "") ;;;
      call (CellFormat 25 8 "SHA" "1" 0 "C" true 0 "") ;;;
      call (CellFormat 0 8 "Opis" "1" 1 "C" true 0 "") ;;;
      call (SetFont fontName "" 10) ;;;
      commitRows 0 (Commits data) ;;;
      call (Ln 8) ;;;
      call (SetFont fontName "B" 11) ;;;
      call (Cell 0 8 "Podsumowanie:") ;;;
      call (Ln 8) ;;;
      call (SetFont fontName "" 10) ;;;
      call (Cell 0 6 ("Łączna liczba commitów: "
                        ++ Itoa (Z.of_nat (length (Commits data))))) ;;;
      call (Ln 6) ;;;
      call (Cell 0 6 ("Autor: " ++ AuthorEmail data)) ;;;
      call (Ln 6) ;;;
      call (Cell 0 6 ("Okres: " ++ FormatDate (DateFrom data) ++ " - "
                        ++ FormatDate (DateTo data))) ;;;
      call (Ln 10) ;;;
      call (SetFont fontName "I" 8) ;;;
      call (SetTextColor 120 120 120) ;;;
      call (Cell 0 4 ("Raport wygenerowany: " ++ FormatDateTime Now)) ;;;
      ret Nil
  end.

(** [Generate] creates a PDF report based on the provided data. *)
Definition Generate (data : ReportData) (outputPath : string) : M Outcome :=
  let executablePath := match Executable with Ok p => p | Err _ => "" end in
  let executableDir := Dir executablePath in
  let absFontDir := Join executableDir fontDir in
  println ("Absolute font directory for gofpdf.New: " ++ absFontDir) ;;;
  regular <- getAbsFontPath fontFile ;;
  match regular with
  | Err err => ret (Error ("failed to get font path: " ++ err))
  | Ok regularFontPath =>
  bold <- getAbsFontPath fontBold ;;
  match bold with
  | Err err => ret (Error ("failed to get bold font path: " ++ err))
  | Ok boldFontPath =>
  call (New "P" "mm" "A4" absFontDir) ;;;
  println ("Passing to AddUTF8Font (Regular): '" ++ regularFontPath ++ "'") ;;;
  call (AddUTF8Font fontName "" fontFile) ;;;
  println ("Passing to AddUTF8Font (Bold): '" ++ boldFontPath ++ "'") ;;;
  call (AddUTF8Font fontName "B" fontBold) ;;;
  (* Register italic font *)
  let italicFontFile := "DejaVuSans-Oblique.ttf" in
  italic <- getAbsFontPath italicFontFile ;;
  match italic with
  | Err err => ret (Error ("failed to get italic font path: " ++ err))
  | Ok italicFontPath =>
  println ("Passing to AddUTF8Font (Italic): '" ++ italicFontPath ++ "'") ;;;
  call (AddUTF8Font fontName "I" italicFontFile) ;;;
  call (SetFont fontName "" 11) ;;;
  call AddPage ;;;
  call (SetMargins 20 20 20) ;;;
  call (SetAutoPageBreak true 20) ;;;
  header <- generateHeader data ;;
  match header with
  | Nil =>
      commits <- generateCommits data ;;
      match commits with
      | Nil =>
          call (OutputFileAndClose outputPath) ;;;
          fun w =>
            match outputError (pdf w) outputPath with
            | Some err => (Error ("failed to save PDF: " ++ err), w)
            | None => (Nil, w)
            end
      | err => ret err
      end
  | err => ret err
  end
  end end end.

End Generate.

(** The world before a run. *)
Definition emptyWorld : World := {| pdf := []; stdout := [] |}.

End Generator.

(** ** What a run has put on the page *)

Module Page.

Import Generator.

(** The texts of the cells of a width and a height that [CellFormat] has
    drawn, in order; the rows of the table have the height 7, its header
    the height 8. *)
Definition cellTexts (w h : Z) (calls : list PdfCall) : list string :=
  omap (fun c => match c with
                 | CellFormat w' h' txt _ _ _ _ _ _ =>
                     if (w' =? w) && (h' =? h) then Some txt else None
                 | _ => None
                 end) calls.

(** The texts of the framed cells that [MultiCell] has drawn. *)
Definition multiCellTexts (calls : list PdfCall) : list string :=
  omap (fun c => match c with
                 | MultiCell _ _ txt border _ _ =>
                     if String.eqb border "1" then Some txt else None
                 | _ => None
                 end) calls.

(** The fill colors that have been set. *)
Definition fillColors (calls : list PdfCall) : list (Z * Z * Z) :=
  omap (fun c => match c with
                 | SetFillColor r g b => Some (r, g, b)
                 | _ => None
                 end) calls.

(** The files that the document has been written to. *)
Definition outputFiles (calls : list PdfCall) : list string :=
  omap (fun c => match c with
                 | OutputFileAndClose file => Some file
                 | _ => None
                 end) calls.

End Page.

(** ** The properties of the specification, as definitions *)

Module Spec.

Import Strings Time.

(** A list of commits is ordered newest first when no element is before
    the one that follows it. *)
Definition newestFirst (commits : list Git.Commit) : Prop :=
  forall (i : nat) (a b : Git.Commit),
    commits !! i = Some a -> commits !! S i = Some b ->
    Before (Git.Date a) (Git.Date b) = false.

(** [b] is not newer than [a]. *)
Definition notNewer (a b : Git.Commit) : Prop :=
  unixNano (Git.Date b) <= unixNano (Git.Date a).

(** What the source computes, on byte sequences, for the proofs. *)
Fixpoint dropWhile {A : Type} (p : A -> bool) (l : list A) : list A :=
  match l with
  | x :: l' => if p x then dropWhile p l' else l
  | [] => []
  end.

Definition lines (s : list ascii) : list (list ascii) := splitBytes newline s.

Definition content (ls : list (list ascii)) : list (list ascii) :=
  filter (fun l => l <> []) (map trimBytes ls).

Definition isNil (l : list ascii) : bool :=
  match l with [] => true | _ => false end.

(** The byte sequences that consist of white-space runes, as [trimHead]
    reads them. *)
Inductive spaces (two : ascii -> ascii -> bool)
    (three : ascii -> ascii -> ascii -> bool) : list ascii -> Prop :=
| spaces_nil : spaces two three []
| spaces_one c r :
    asciiSpace c = true -> spaces two three r -> spaces two three (c :: r)
| spaces_two c d r :
    asciiSpace c = false -> two c d = true ->
    spaces two three r -> spaces two three (c :: d :: r)
| spaces_three c d e r :
    asciiSpace c = false -> two c d = false -> three c d e = true ->
    spaces two three r -> spaces two three (c :: d :: e :: r).

(** Lines joined by line feeds, the inverse of [lines]. *)
Fixpoint unlines (ls : list (list ascii)) : list ascii :=
  match ls with
  | [] => []
  | [l] => l
  | l :: ls' => l ++ newline :: unlines ls'
  end.

(** Lines joined by single spaces, as the description is. *)
Fixpoint spaced (ls : list (list ascii)) : list ascii :=
  match ls with
  | [] => []
  | [l] => l
  | l :: ls' => l ++ " "%char :: spaced ls'
  end.

(** The splitting of a commit message in the words of the specification,
    on the bytes of the strings.  White space is a run of the characters
    that Unicode gives the property White_Space (the tab, the line feed,
    the vertical tab, the form feed, the carriage return, the space,
    U+0085, U+00A0, U+1680, U+2000 to U+200A, U+2028, U+2029, U+202F,
    U+205F and U+3000), each in UTF-8. *)
Definition whiteSpace : list N :=
  [9; 10; 11; 12; 13; 32; 133; 160; 5760; 8192; 8193; 8194; 8195; 8196;
   8197; 8198; 8199; 8200; 8201; 8202; 8232; 8233; 8239; 8287; 12288]%N.

(** The bytes of a character below U+10000 in UTF-8. *)
Definition encode (rune : N) : list ascii :=
  if (rune <? 128)%N then [ascii_of_N rune]
  else if (rune <? 2048)%N then
    [ascii_of_N (192 + rune / 64); ascii_of_N (128 + rune mod 64)]
  else
    [ascii_of_N (224 + rune / 4096); ascii_of_N (128 + rune / 64 mod 64);
     ascii_of_N (128 + rune mod 64)].

Inductive blank : list ascii -> Prop :=
| blank_nil : blank []
| blank_rune rune s :
    rune ∈ whiteSpace -> blank s -> blank (encode rune ++ s)%list.

Definition startsWithSpace (s : list ascii) : Prop :=
  exists rune x, rune ∈ whiteSpace /\ s = (encode rune ++ x)%list.

Definition endsWithSpace (s : list ascii) : Prop :=
  exists rune x, rune ∈ whiteSpace /\ s = (x ++ encode rune)%list.

(** [t] is [s] trimmed: [s] without the white space at its two ends. *)
Definition trimmedTo (s t : list ascii) : Prop :=
  (exists a b, s = (a ++ t ++ b)%list /\ blank a /\ blank b)
  /\ ~ startsWithSpace t /\ ~ endsWithSpace t.

(** The lines of a message: the strings between its line feeds. *)
Definition isLines (message : list ascii) (ls : list (list ascii)) : Prop :=
  unlines ls = message /\ ls <> [] /\ Forall (fun l => newline ∉ l) ls.

(** C3, amended: a message whose lines are white space only has an empty
    title and an empty description; otherwise the title is the first line
    that is not white space only, trimmed, and the description is the
    lines after it, each trimmed, those that are then empty left out,
    joined with single spaces. *)
Definition splitting (message title description : list ascii) : Prop :=
  exists ls : list (list ascii),
    isLines message ls
    /\ ((Forall blank ls /\ title = [] /\ description = [])
        \/ exists (before : list (list ascii)) (line : list ascii)
                  (after trims : list (list ascii)),
             ls = (before ++ line :: after)%list
             /\ Forall blank before /\ ~ blank line
             /\ trimmedTo line title
             /\ Forall2 trimmedTo after trims
             /\ description = spaced (filter (fun l => l <> []) trims)).

(** C3 as the specification states it, for a message: the title is the
    first line that is not empty, as it stands on that line (a line is
    empty when only white space is on it, as the specification says of the
    empty message), and the description is the lines after it that are not
    empty, each trimmed, joined with single spaces. *)
Definition splitClaim (fullMessage : string) : Prop :=
  forall (ls before after : list (list ascii)) (line : list ascii),
    isLines (list_ascii_of_string fullMessage) ls ->
    ls = (before ++ line :: after)%list ->
    Forall blank before -> ~ blank line ->
    list_ascii_of_string (fst (Git.parseCommitMessage fullMessage)) = line
    /\ exists trims : list (list ascii),
         Forall2 trimmedTo after trims
         /\ list_ascii_of_string (snd (Git.parseCommitMessage fullMessage))
            = spaced (filter (fun l => l <> []) trims).

(** The line that stands for an empty table, and the line of the summary
    block that shows the total commit count. *)
Definition placeholder : Generator.PdfCall :=
  Generator.Cell 0 6 "Brak commitów w podanym okresie.".

Definition summaryCount (n : Z) : Generator.PdfCall :=
  Generator.Cell 0 6 ("Łączna liczba commitów: " ++ Generator.Itoa n).

(** C4 as the specification states it, for a run of [generateCommits]: on
    an empty commit list no error, the placeholder line, and the summary
    with a count of 0. *)
Definition emptyListClaim (Now : Time) (data : Generator.ReportData)
    (w : Generator.World) : Prop :=
  Generator.Commits data = [] ->
  fst (Generator.generateCommits Now data w) = Generator.Nil
  /\ placeholder ∈ Generator.pdf (snd (Generator.generateCommits Now data w))
  /\ summaryCount 0 ∈ Generator.pdf (snd (Generator.generateCommits Now data w)).

(** C5 as the specification states it, for a run of [generateHeader]: the
    title line is placed on the page expanded. *)
Definition titleExpandedClaim (data : Generator.ReportData)
    (w : Generator.World) : Prop :=
  forall (dateLocLine titleLine : string) (rest : list string)
         (titleTmpl : list Template.Node),
    Split (Config.Template (Config.Header (Generator.Config data))) newline
      = dateLocLine :: titleLine :: rest ->
    Template.Parse titleLine = Template.Tree titleTmpl ->
    fst (Generator.generateHeader data w) = Generator.Nil ->
    Generator.Cell 0 8
      (Template.Execute titleTmpl (Generator.templateData data))
    ∈ Generator.pdf (snd (Generator.generateHeader data w)).

(** The keys of the data of the header templates. *)
Definition fixedKeys : list string :=
  ["executor_name"; "executor_email"; "recipient_name"; "repository_name";
   "repository_path"; "branch_name"; "date_from"; "date_to"].

(** The rules of [Validate] that a configuration violates, by the message
    of each, in the order in which [Validate] checks them. *)
Definition violations (c : Config.Config) : list string :=
  ((if String.eqb (Config.Template (Config.Header c)) ""
    then ["header template cannot be empty"] else [])
   ++ (if (Config.FontSize (Config.PDF c) <=? 0)%float
       then ["font size must be positive"] else [])
   ++ (if ((Config.MarginTop (Config.PDF c) <? 0)
           || (Config.MarginBottom (Config.PDF c) <? 0)
           || (Config.MarginLeft (Config.PDF c) <? 0)
           || (Config.MarginRight (Config.PDF c) <? 0))%float
       then ["margins cannot be negative"] else []))%list.

(** C9 as the specification states it: the error of [Validate] covers
    every violation. *)
Definition coversAll (c : Config.Config) : Prop :=
  forall v : string, v ∈ violations c ->
    exists err : string, Config.Validate c = Some err /\ Contains err v = true.

(** The values that a configuration can hold and a JSON document can
    carry: finite numbers, strings that are valid UTF-8, and [int]s of 64
    bits. *)
Definition isInt64 (z : Z) : Prop := - 2 ^ 63 <= z < 2 ^ 63.

Definition colorInt64 (c : Z * Z * Z) : Prop :=
  let '(r, g, b) := c in isInt64 r /\ isInt64 g /\ isInt64 b.

Record representable (c : Config.Config) : Prop := mkRepresentable {
  template_utf8 : Utf8.ValidString (Config.Template (Config.Header c)) = true;
  executor_name_utf8 : Utf8.ValidString (Config.ExecutorName (Config.Header c)) = true;
  executor_email_utf8 : Utf8.ValidString (Config.ExecutorEmail (Config.Header c)) = true;
  recipient_name_utf8 : Utf8.ValidString (Config.RecipientName (Config.Header c)) = true;
  location_utf8 : Utf8.ValidString (Config.Location (Config.Header c)) = true;
  font_family_utf8 : Utf8.ValidString (Config.FontFamily (Config.PDF c)) = true;
  margin_top_finite : is_finite (Config.MarginTop (Config.PDF c)) = true;
  margin_bottom_finite : is_finite (Config.MarginBottom (Config.PDF c)) = true;
  margin_left_finite : is_finite (Config.MarginLeft (Config.PDF c)) = true;
  margin_right_finite : is_finite (Config.MarginRight (Config.PDF c)) = true;
  font_size_finite : is_finite (Config.FontSize (Config.PDF c)) = true;
  header_color_int64 : colorInt64 (Config.HeaderColor (Config.PDF c));
  content_color_int64 : colorInt64 (Config.ContentColor (Config.PDF c))
}.

(** Two report inputs that differ at most in the PDF styling and in the
    location of the header. *)
Definition sameButStyle (a b : Generator.ReportData) : Prop :=
  Config.Template (Config.Header (Generator.Config a))
    = Config.Template (Config.Header (Generator.Config b))
  /\ Config.ExecutorName (Config.Header (Generator.Config a))
     = Config.ExecutorName (Config.Header (Generator.Config b))
  /\ Config.ExecutorEmail (Config.Header (Generator.Config a))
     = Config.ExecutorEmail (Config.Header (Generator.Config b))
  /\ Config.RecipientName (Config.Header (Generator.Config a))
     = Config.RecipientName (Config.Header (Generator.Config b))
  /\ Generator.RepositoryName a = Generator.RepositoryName b
  /\ Generator.RepositoryPath a = Generator.RepositoryPath b
  /\ Generator.BranchName a = Generator.BranchName b
  /\ Generator.AuthorEmail a = Generator.AuthorEmail b
  /\ Generator.DateFrom a = Generator.DateFrom b
  /\ Generator.DateTo a = Generator.DateTo b
  /\ Generator.Commits a = Generator.Commits b.

Section RoundTrip.

Variable hasUnicode : string -> string -> bool.
Variable Number : Type.
Variable ParseFloat : Number -> option float.
Variable ParseInt : Number -> option Z.
Variable FormatFloat : float -> Number.
Variable FormatInt : Z -> Number.

(** C8 as the specification states it, for a configuration, a path and a
    file system: when the configuration passes [Validate], [Save] succeeds
    and [Load] then returns the configuration. *)
Definition roundTripClaim (c : Config.Config) (configPath : string)
    (fs : Config.FileSystem Number) : Prop :=
  Config.Validate c = None ->
  fst (Config.Save Number FormatFloat FormatInt c configPath fs) = None
  /\ Config.Load hasUnicode Number ParseFloat ParseInt
       (snd (Config.Save Number FormatFloat FormatInt c configPath fs))
       configPath
     = Ok c.

End RoundTrip.

End Spec.

(** ** Concrete inputs *)

Module Example.

Import Strings Time.

(** An instance of the Unicode loop of [EqualFold] for inputs that are
    ASCII, on which it is not reached. *)
Definition asciiOnly (s t : string) : bool := false.

(** A report for January 2024. *)
Definition fromDate : Time := Date 2024 1 1 0 0 0.
Definition toDate : Time := Date 2024 1 31 0 0 0.

(** A walk of four commits: one at midnight of the day after [toDate], one
    in the last minute of [toDate] whose author writes the address in other
    letter case, one a second after that midnight, and one by someone else. *)
Definition atMidnight : Git.ObjectCommit :=
  {| Git.Hash := "1f0e3dad99908345f7439f8ffabdffc4a53d1c2b";
     Git.AuthorSig :=
       {| Git.Name := "Dev"; Git.Email := "dev@example.com";
          Git.When := Date 2024 2 1 0 0 0 |};
     Git.RawMessage := "Close the month" |}.

Definition lastMinute : Git.ObjectCommit :=
  {| Git.Hash := "8c7d2f1a5b6e4c3d2a1f0e9d8c7b6a5f4e3d2c1b";
     Git.AuthorSig :=
       {| Git.Name := "Dev"; Git.Email := "Dev@Example.COM";
          Git.When := Date 2024 1 31 23 59 0 |};
     Git.RawMessage := "Fix totals" ++ Config.lf ++ Config.lf ++ "Round half up." |}.

Definition afterMidnight : Git.ObjectCommit :=
  {| Git.Hash := "0a1b2c3d4e5f60718293a4b5c6d7e8f901234567";
     Git.AuthorSig :=
       {| Git.Name := "Dev"; Git.Email := "dev@example.com";
          Git.When := Date 2024 2 1 0 0 1 |};
     Git.RawMessage := "Start the month" |}.

Definition bySomeoneElse : Git.ObjectCommit :=
  {| Git.Hash := "fedcba9876543210fedcba9876543210fedcba98";
     Git.AuthorSig :=
       {| Git.Name := "Other"; Git.Email := "other@example.com";
          Git.When := Date 2024 1 15 12 0 0 |};
     Git.RawMessage := "Unrelated" |}.

Definition walk : list Git.ObjectCommit :=
  [lastMinute; afterMidnight; bySomeoneElse; atMidnight].

Definition service : Git.Service :=
  {| Git.repo :=
       {| Git.Reference := fun name =>
            if String.eqb name "refs/heads/main"
            then Ok "1f0e3dad99908345f7439f8ffabdffc4a53d1c2b"
            else Err "reference not found";
          Git.Log := fun _ =>
            Ok {| Git.yielded := walk; Git.failure := None |} |};
     Git.repoPath := "/src/project" |}.

Definition kept : list Git.Commit :=
  [ {| Git.SHA := "1f0e3dad"; Git.Date := Date 2024 2 1 0 0 0;
       Git.Message := "Close the month"; Git.Description := "";
       Git.Author := "Dev"; Git.AuthorEmail := "dev@example.com" |};
    {| Git.SHA := "8c7d2f1a"; Git.Date := Date 2024 1 31 23 59 0;
       Git.Message := "Fix totals"; Git.Description := "Round half up.";
       Git.Author := "Dev"; Git.AuthorEmail := "Dev@Example.COM" |} ].

(** The message of the specification's example. *)
Definition titleBody : string :=
  "Title" ++ Config.lf ++ Config.lf ++ "Body line 1" ++ Config.lf ++ Config.lf
    ++ "Body line 2".

(** A message whose title line ends with white space, and one with white
    space of several kinds around its lines: tabs, a no-break space
    (U+00A0), an em space (U+2003) and a line of spaces. *)
Definition trailing : string := "Title  " ++ Config.lf ++ "Body".

Definition tab : string := String "009"%char "".
Definition noBreakSpace : string :=
  String (ascii_of_N 194) (String (ascii_of_N 160) "").
Definition emSpace : string :=
  String (ascii_of_N 226) (String (ascii_of_N 128) (String (ascii_of_N 131) "")).

Definition untidy : string :=
  "  Title " ++ tab ++ Config.lf ++ Config.lf
    ++ noBreakSpace ++ "Body line 1  " ++ Config.lf
    ++ " " ++ emSpace ++ Config.lf
    ++ tab ++ "Body line 2" ++ emSpace ++ Config.lf.

(** The clock of a run. *)
Definition now : Time := Date 2024 2 5 9 30 0.

(** A report with the default configuration and no commits. *)
Definition emptyReport : Generator.ReportData :=
  {| Generator.Config := Config.DefaultConfig;
     Generator.RepositoryName := "project";
     Generator.RepositoryPath := "/src/project";
     Generator.BranchName := "main";
     Generator.AuthorEmail := "dev@example.com";
     Generator.DateFrom := fromDate;
     Generator.DateTo := toDate;
     Generator.Commits := [] |}.

Definition withTemplate (template : string) : Generator.ReportData :=
  {| Generator.Config :=
       {| Config.Header :=
            {| Config.Template := template;
               Config.ExecutorName := "Dev";
               Config.ExecutorEmail := "dev@example.com";
               Config.RecipientName := "Client";
               Config.Location := "Warsaw" |};
          Config.PDF := Config.PDF Config.DefaultConfig |};
     Generator.RepositoryName := "project";
     Generator.RepositoryPath := "/src/project";
     Generator.BranchName := "main";
     Generator.AuthorEmail := "dev@example.com";
     Generator.DateFrom := fromDate;
     Generator.DateTo := toDate;
     Generator.Commits := kept |}.

(** A header whose title line has a placeholder. *)
Definition titleReport : Generator.ReportData :=
  withTemplate ("Report {{.date_from}} - {{.date_to}}" ++ Config.lf
                ++ "Branch {{.branch_name}}" ++ Config.lf
                ++ "By {{.executor_name}}").

(** A header with a placeholder whose key, [current_date], the data lacks. *)
Definition missingKeyReport : Generator.ReportData :=
  withTemplate ("Warsaw, {{.current_date}}" ++ Config.lf
                ++ "Development Report" ++ Config.lf
                ++ "Developer: {{.executor_name}} {{.nickname}}").

(** The same report as [titleReport] under another styling and location. *)
Definition restyledReport : Generator.ReportData :=
  {| Generator.Config :=
       {| Config.Header :=
            {| Config.Template :=
                 Config.Template (Config.Header (Generator.Config titleReport));
               Config.ExecutorName := "Dev";
               Config.ExecutorEmail := "dev@example.com";
               Config.RecipientName := "Client";
               Config.Location := "Gdansk" |};
          Config.PDF :=
            {| Config.MarginTop := 5; Config.MarginBottom := 6;
               Config.MarginLeft := 7; Config.MarginRight := 8;
               Config.FontFamily := "Courier"; Config.FontSize := 14;
               Config.HeaderColor := (255, 0, 0);
               Config.ContentColor := (0, 0, 255) |} |};
     Generator.RepositoryName := "project";
     Generator.RepositoryPath := "/src/project";
     Generator.BranchName := "main";
     Generator.AuthorEmail := "dev@example.com";
     Generator.DateFrom := fromDate;
     Generator.DateTo := toDate;
     Generator.Commits := kept |}.

(** Surroundings of a run of [Generate]. *)
Definition executable : result string := Ok "/opt/report/git-report-generator".
Definition dir (path : string) : string := "/opt/report".
Definition join (a b : string) : string := a ++ "/" ++ b.
Definition abs (path : string) : result string := Ok path.
Definition noOutputError (calls : list Generator.PdfCall) (path : string)
  : option string := None.

(** A configuration that violates every rule of [Validate]. *)
Definition manyViolations : Config.Config :=
  {| Config.Header := Config.zeroHeader;
     Config.PDF :=
       {| Config.MarginTop := (-1)%float; Config.MarginBottom := 0;
          Config.MarginLeft := 0; Config.MarginRight := 0;
          Config.FontFamily := "Arial"; Config.FontSize := 0;
          Config.HeaderColor := (0, 0, 0); Config.ContentColor := (0, 0, 0) |} |}.

(** The default configuration with an infinite font size. *)
Definition infiniteFont : Config.Config :=
  {| Config.Header := Config.Header Config.DefaultConfig;
     Config.PDF :=
       {| Config.MarginTop := 20; Config.MarginBottom := 20;
          Config.MarginLeft := 20; Config.MarginRight := 20;
          Config.FontFamily := "Arial"; Config.FontSize := infinity;
          Config.HeaderColor := (0, 0, 0);
          Config.ContentColor := (50, 50, 50) |} |}.

(** An instance of number literals and of [strconv]: a literal is an
    integer literal or the literal of a [float64]. *)
Definition Number : Type := (float + Z)%type.

Definition floatOfZ (z : Z) : float :=
  if z <? 0 then (- of_uint63 (Uint63.of_Z (- z)))%float
  else of_uint63 (Uint63.of_Z z).

Definition ParseFloat (n : Number) : option float :=
  match n with
  | inl f => Some f
  | inr z => Some (floatOfZ z)
  end.

Definition ParseInt (n : Number) : option Z :=
  match n with
  | inl _ => None
  | inr z => if (- 2 ^ 63 <=? z) && (z <? 2 ^ 63) then Some z else None
  end.

Definition FormatFloat (f : float) : Number := inl f.
Definition FormatInt (z : Z) : Number := inr z.

(** The configuration file of the README's section on custom
    configuration, which sets the header only. *)
Definition readmeConfig (N : Type) : Config.JSON N :=
  Config.JObject N
    [("header",
      Config.JObject N
        [("template",
          Config.JString N
            ("{{current_date}}" ++ Config.lf ++ "Development Report"
             ++ Config.lf ++ Config.lf ++ "Developer: {{executor_name}}"
             ++ Config.lf ++ "Project: {{repository_name}}" ++ Config.lf
             ++ "Branch: {{branch_name}}" ++ Config.lf ++ Config.lf
             ++ "Commits:"));
         ("executor_name", Config.JString N "Your Name");
         ("executor_email", Config.JString N "your.email@company.com");
         ("recipient_name", Config.JString N "Your Company Ltd.")])].

(** A file system that holds that file, accepts every write and lets
    every file be read. *)
Definition fileSystem (N : Type) : Config.FileSystem N :=
  {| Config.files := {[ "my-config.json" := Some (readmeConfig N) ]};
     Config.mkdirAllError := fun _ => None;
     Config.writeFileError := fun _ => None;
     Config.readFileError := fun _ => None |}.

(** The file system after the default configuration has been saved. *)
Definition savedFileSystem : Config.FileSystem Number :=
  snd (Config.Save Number FormatFloat FormatInt
         Config.DefaultConfig "config.json"
         (fileSystem Number)).

(** A header without placeholders, and a template of one line. *)
Definition plainReport : Generator.ReportData :=
  withTemplate ("Warsaw, January 2024" ++ Config.lf
                        ++ "Development Report" ++ Config.lf
                        ++ "Developer: Dev" ++ Config.lf ++ "Commits:").

Definition oneLineReport : Generator.ReportData :=
  withTemplate "Development Report".

End Example.

(** * Theorems *)

Local Open Scope list_scope.

(** ** The sort of [GetCommits] *)

Section Sorting.

Import Time Git Spec.

Lemma exchange_at (pre done todo : list Commit) (x y : Commit) :
  exchange (pre ++ x :: done ++ y :: todo) (length pre) (length pre + 1 + length done)
  = if Before (Date x) (Date y) then pre ++ y :: done ++ x :: todo
    else pre ++ x :: done ++ y :: todo.
Proof.
  unfold exchange.
  rewrite list_lookup_middle by reflexivity.
  replace (pre ++ x :: done ++ y :: todo) with ((pre ++ x :: done) ++ y :: todo)
    by (rewrite <- app_assoc; reflexivity).
  rewrite (list_lookup_middle (pre ++ x :: done) todo y)
    by (rewrite length_app; simpl; lia).
  destruct (Before (Date x) (Date y)); [| reflexivity].
  rewrite <- app_assoc. simpl.
  rewrite (insert_app_r_alt pre) by lia.
  replace (length pre - length pre)%nat with 0%nat by lia. simpl.
  rewrite (insert_app_r_alt pre) by lia.
  replace (length pre + 1 + length done - length pre)%nat
    with (S (length done)) by lia.
  simpl. f_equal. f_equal.
  rewrite (insert_app_r_alt done) by lia.
  replace (length done - length done)%nat with 0%nat by lia. reflexivity.
Qed.

(** One run of the inner loop brings a newest commit of the part from [i]
    on to position [i]. *)
Lemma innerLoop_selects (todo pre done : list Commit) (x : Commit) :
  Forall (notNewer x) done ->
  exists (m : Commit) (done' : list Commit),
    innerLoop (length todo) (length pre) (length pre + 1 + length done)
      (pre ++ x :: done ++ todo) = pre ++ m :: done'
    /\ Forall (notNewer m) done'
    /\ length done' = (length done + length todo)%nat
    /\ m :: done' ≡ₚ x :: done ++ todo.
Proof.
  revert done x. induction todo as [| y todo IH]; intros done x Hdone.
  - exists x, done. simpl. rewrite app_nil_r.
    split; [reflexivity |]. split; [assumption |]. split; [lia | reflexivity].
  - simpl innerLoop. rewrite exchange_at.
    replace (S (length pre + 1 + length done))
      with (length pre + 1 + length (done ++ [y]))%nat
      by (rewrite length_app; simpl; lia).
    destruct (Before (Date x) (Date y)) eqn:Hxy; unfold Before in Hxy.
    + apply Z.ltb_lt in Hxy.
      replace (length (done ++ [y])) with (length (done ++ [x]))
        by (rewrite !length_app; reflexivity).
      replace (pre ++ y :: done ++ x :: todo)
        with (pre ++ y :: (done ++ [x]) ++ todo)
        by (rewrite <- app_assoc; reflexivity).
      destruct (IH (done ++ [x]) y) as (m & done' & Hrun & Hmax & Hlen & Hperm).
      { apply Forall_app. split.
        - eapply Forall_impl; [exact Hdone |].
          unfold notNewer. intros c Hc. lia.
        - constructor; [unfold notNewer; lia | constructor]. }
      exists m, done'.
      split; [assumption |]. split; [assumption |]. split.
      * rewrite Hlen, length_app. simpl. lia.
      * rewrite Hperm. rewrite <- app_assoc. simpl.
        rewrite <- (Permutation_middle done todo x).
        rewrite <- (Permutation_middle done todo y).
        apply perm_swap.
    + apply Z.ltb_ge in Hxy.
      replace (pre ++ x :: done ++ y :: todo)
        with (pre ++ x :: (done ++ [y]) ++ todo)
        by (rewrite <- app_assoc; reflexivity).
      destruct (IH (done ++ [y]) x) as (m & done' & Hrun & Hmax & Hlen & Hperm).
      { apply Forall_app. split; [assumption |].
        constructor; [unfold notNewer; lia | constructor]. }
      exists m, done'.
      split; [assumption |]. split; [assumption |]. split.
      * rewrite Hlen, length_app. simpl. lia.
      * rewrite Hperm. rewrite <- app_assoc. reflexivity.
Qed.

(** A list that decreases all along has no element before its successor. *)
Lemma sorted_newestFirst (l : list Commit) :
  StronglySorted notNewer l -> newestFirst l.
Proof.
  induction 1 as [| a l Hsorted IH Hall]; intros i x y Hx Hy.
  - rewrite lookup_nil in Hx. discriminate.
  - destruct i as [| i].
    + simpl in Hx. injection Hx as <-. simpl in Hy.
      rewrite Forall_forall in Hall.
      assert (Hin : y ∈ l).
      { apply list_elem_of_lookup. eauto. }
      specialize (Hall y Hin). unfold notNewer in Hall.
      unfold Before. apply Z.ltb_ge. exact Hall.
    + simpl in Hx, Hy. exact (IH i x y Hx Hy).
Qed.

Lemma sorted_snoc (pre : list Commit) (m : Commit) :
  StronglySorted notNewer pre ->
  Forall (fun p => notNewer p m) pre ->
  StronglySorted notNewer (pre ++ [m]).
Proof.
  induction 1 as [| a l Hsorted IH Hall]; intros Hpre.
  - simpl. constructor; constructor.
  - inversion Hpre as [| ? ? Ha Hl]; subst. simpl. constructor.
    + apply IH. assumption.
    + apply Forall_app. split; [assumption | constructor; [assumption | constructor]].
Qed.

(** The outer loop, started at [i] with the first [i] positions final. *)
Lemma outerLoop_sorts (n : nat) (pre rest : list Commit) :
  n = (length rest - 1)%nat ->
  StronglySorted notNewer pre ->
  Forall (fun p => Forall (notNewer p) rest) pre ->
  StronglySorted notNewer (outerLoop n (length pre) (pre ++ rest)).
Proof.
  revert pre rest. induction n as [| n IH]; intros pre rest Hn Hpre Hbound.
  - simpl. destruct rest as [| x [| y rest]]; [| | simpl in Hn; lia].
    + rewrite app_nil_r. assumption.
    + apply sorted_snoc; [assumption |].
      eapply Forall_impl; [exact Hbound |].
      intros p Hp. inversion Hp; assumption.
  - destruct rest as [| x rest]; [simpl in Hn; lia |].
    simpl outerLoop.
    replace (length (pre ++ x :: rest) - S (length pre))%nat with (length rest)
      by (rewrite length_app; simpl; lia).
    destruct (innerLoop_selects rest pre [] x (Forall_nil_2 _))
      as (m & done' & Hrun & Hmax & Hlen & Hperm).
    simpl in Hrun, Hlen, Hperm.
    replace (length pre + 1 + 0)%nat with (S (length pre)) in Hrun by lia.
    rewrite Hrun.
    replace (S (length pre)) with (length (pre ++ [m]))
      by (rewrite length_app; simpl; lia).
    replace (pre ++ m :: done') with ((pre ++ [m]) ++ done')
      by (rewrite <- app_assoc; reflexivity).
    assert (Hall : Forall (fun p => Forall (notNewer p) (m :: done')) pre).
    { eapply Forall_impl; [exact Hbound |].
      intros p Hp. rewrite Hperm. exact Hp. }
    apply IH.
    + simpl in Hn. lia.
    + apply sorted_snoc; [assumption |].
      eapply Forall_impl; [exact Hall |].
      intros p Hp. inversion Hp; assumption.
    + apply Forall_app. split.
      * eapply Forall_impl; [exact Hall |].
        intros p Hp. inversion Hp; assumption.
      * constructor; [assumption | constructor].
Qed.

(** The outer loop only moves the commits. *)
Lemma outerLoop_permutation (n : nat) (pre rest : list Commit) :
  n = (length rest - 1)%nat ->
  outerLoop n (length pre) (pre ++ rest) ≡ₚ pre ++ rest.
Proof.
  revert pre rest. induction n as [| n IH]; intros pre rest Hn; [reflexivity |].
  destruct rest as [| x rest]; [simpl in Hn; lia |].
  simpl outerLoop.
  replace (length (pre ++ x :: rest) - S (length pre))%nat with (length rest)
    by (rewrite length_app; simpl; lia).
  destruct (innerLoop_selects rest pre [] x (Forall_nil_2 _))
    as (m & done' & Hrun & _ & Hlen & Hperm).
  simpl in Hrun, Hlen, Hperm.
  replace (length pre + 1 + 0)%nat with (S (length pre)) in Hrun by lia.
  rewrite Hrun.
  replace (S (length pre)) with (length (pre ++ [m]))
    by (rewrite length_app; simpl; lia).
  replace (pre ++ m :: done') with ((pre ++ [m]) ++ done')
    by (rewrite <- app_assoc; reflexivity).
  rewrite IH by (simpl in Hn; lia).
  rewrite <- app_assoc. simpl. rewrite Hperm. reflexivity.
Qed.

Lemma sortNewestFirst_permutation (commits : list Commit) :
  sortNewestFirst commits ≡ₚ commits.
Proof.
  unfold sortNewestFirst.
  apply (outerLoop_permutation (length commits - 1) [] commits). reflexivity.
Qed.

Lemma sortNewestFirst_sorted (commits : list Commit) :
  StronglySorted notNewer (sortNewestFirst commits).
Proof.
  unfold sortNewestFirst.
  apply (outerLoop_sorts (length commits - 1) [] commits);
    [reflexivity | constructor | constructor].
Qed.

End Sorting.

(** ** White space at the ends of a byte sequence *)

Section TrimHead.

Import Strings Spec.

Variable two : ascii -> ascii -> bool.
Variable three : ascii -> ascii -> ascii -> bool.

Local Notation "'T'" := (trimHead two three).
Local Notation "'Sp'" := (spaces two three).

(** Induction along the cases of [trimHead]. *)
Lemma trimHead_cases (P : list ascii -> Prop) :
  P [] ->
  (forall c r, asciiSpace c = true -> P r -> P (c :: r)) ->
  (forall c, asciiSpace c = false -> P [c]) ->
  (forall c d r, asciiSpace c = false -> two c d = true -> P r -> P (c :: d :: r)) ->
  (forall c d, asciiSpace c = false -> two c d = false -> P [c; d]) ->
  (forall c d e r, asciiSpace c = false -> two c d = false ->
     three c d e = true -> P r -> P (c :: d :: e :: r)) ->
  (forall c d e r, asciiSpace c = false -> two c d = false ->
     three c d e = false -> P (c :: d :: e :: r)) ->
  forall s, P s.
Proof.
  intros Hnil H1 Hc1 H2 Hc2 H3 Hc3 s.
  remember (length s) as n eqn:Hn. revert s Hn.
  induction n as [n IH] using lt_wf_ind. intros s Hn.
  destruct s as [| c r]; [exact Hnil |].
  destruct (asciiSpace c) eqn:Ec.
  { apply H1; [assumption |]. apply (IH (length r)); simpl in Hn; [lia | reflexivity]. }
  destruct r as [| d r]; [apply Hc1; assumption |].
  destruct (two c d) eqn:E2.
  { apply H2; try assumption. apply (IH (length r)); simpl in Hn; [lia | reflexivity]. }
  destruct r as [| e r]; [apply Hc2; assumption |].
  destruct (three c d e) eqn:E3.
  { apply H3; try assumption. apply (IH (length r)); simpl in Hn; [lia | reflexivity]. }
  apply Hc3; assumption.
Qed.

Ltac trim_cases s :=
  induction s as [| c r Ec IH | c Ec | c d r Ec E2 IH | c d Ec E2
                  | c d e r Ec E2 E3 IH | c d e r Ec E2 E3] using trimHead_cases;
  simpl; rewrite ?Ec, ?E2, ?E3.

Lemma trimHead_one (c : ascii) (r : list ascii) :
  asciiSpace c = true -> T (c :: r) = T r.
Proof. intros Ec. simpl. rewrite Ec. reflexivity. Qed.

Lemma trimHead_two (c d : ascii) (r : list ascii) :
  asciiSpace c = false -> two c d = true -> T (c :: d :: r) = T r.
Proof. intros Ec E2. simpl. rewrite Ec, E2. reflexivity. Qed.

Lemma trimHead_three (c d e : ascii) (r : list ascii) :
  asciiSpace c = false -> two c d = false -> three c d e = true ->
  T (c :: d :: e :: r) = T r.
Proof. intros Ec E2 E3. simpl. rewrite Ec, E2, E3. reflexivity. Qed.

Lemma trimHead_length (s : list ascii) : (length (T s) <= length s)%nat.
Proof. trim_cases s; simpl; lia. Qed.

Lemma trimHead_idempotent (s : list ascii) : T (T s) = T s.
Proof.
  trim_cases s; try assumption; try reflexivity;
    simpl; rewrite ?Ec, ?E2, ?E3; reflexivity.
Qed.

(** What [trimHead] removes consists of white space. *)
Lemma trimHead_split (s : list ascii) : exists a, s = a ++ T s /\ Sp a.
Proof.
  trim_cases s; try (exists []; split; [reflexivity | constructor]).
  - destruct IH as (a & Ha & Hsp). exists (c :: a). split.
    + simpl. rewrite <- Ha. reflexivity.
    + constructor; assumption.
  - destruct IH as (a & Ha & Hsp). exists (c :: d :: a). split.
    + simpl. rewrite <- Ha. reflexivity.
    + apply spaces_two; assumption.
  - destruct IH as (a & Ha & Hsp). exists (c :: d :: e :: a). split.
    + simpl. rewrite <- Ha. reflexivity.
    + apply spaces_three; assumption.
Qed.

Lemma trimHead_spaces_app (a y : list ascii) : Sp a -> T (a ++ y) = T y.
Proof.
  induction 1 as [| c r Hc _ IH | c d r Hc H2 _ IH | c d e r Hc H2 H3 _ IH];
    simpl; rewrite ?Hc, ?H2, ?H3; auto.
Qed.

Lemma trimHead_spaces (s : list ascii) : Sp s -> T s = [].
Proof.
  intros Hs. rewrite <- (app_nil_r s), trimHead_spaces_app by assumption.
  reflexivity.
Qed.

Lemma trimHead_nil_spaces (s : list ascii) : T s = [] -> Sp s.
Proof.
  intros Hnil. destruct (trimHead_split s) as (a & Ha & Hsp).
  rewrite Hnil, app_nil_r in Ha. subst a. assumption.
Qed.

Lemma spaces_app (a b : list ascii) : Sp a -> Sp b -> Sp (a ++ b).
Proof.
  induction 1; intros Hb; simpl; try assumption;
    [apply spaces_one | apply spaces_two | apply spaces_three]; auto.
Qed.

(** A sequence that [trimHead] leaves alone starts with no white space,
    and neither does any of its prefixes. *)
Lemma trimHead_clean_prefix (x b : list ascii) :
  T (x ++ b) = x ++ b -> x <> [] -> T x = x.
Proof.
  intros Hclean Hx.
  assert (Hlen : forall r, (length (T r) <= length r)%nat) by apply trimHead_length.
  destruct x as [| c x]; [congruence |]. simpl in Hclean |- *.
  destruct (asciiSpace c) eqn:Ec.
  { specialize (Hlen (x ++ b)). rewrite Hclean in Hlen. simpl in Hlen. lia. }
  destruct x as [| d x]; [reflexivity |]. simpl in Hclean |- *.
  destruct (two c d) eqn:E2.
  { specialize (Hlen (x ++ b)). rewrite Hclean in Hlen. simpl in Hlen. lia. }
  destruct x as [| e x]; [reflexivity |]. simpl in Hclean |- *.
  destruct (three c d e) eqn:E3; [| reflexivity].
  specialize (Hlen (x ++ b)). rewrite Hclean in Hlen. simpl in Hlen. lia.
Qed.

End TrimHead.

(** ** The lines of a byte sequence *)

Section Lines.

Import Strings Spec.

Lemma lines_newline (r : list ascii) : lines (newline :: r) = [] :: lines r.
Proof. reflexivity. Qed.

Lemma lines_cons (c : ascii) (r : list ascii) :
  c <> newline ->
  lines (c :: r) = (c :: hd [] (lines r)) :: tl (lines r).
Proof.
  intros Hc. unfold lines. simpl.
  destruct (Ascii.eqb_spec c newline) as [-> | _]; [congruence |].
  destruct (splitBytes newline r); reflexivity.
Qed.

Lemma lines_not_nil (s : list ascii) : lines s <> [].
Proof.
  destruct s as [| c r]; [discriminate |].
  destruct (Ascii.eqb_spec c newline) as [-> | Hc].
  - rewrite lines_newline. discriminate.
  - rewrite lines_cons by assumption. discriminate.
Qed.

Lemma lines_hd_tl (s : list ascii) : lines s = hd [] (lines s) :: tl (lines s).
Proof. pose proof (lines_not_nil s). destruct (lines s); [congruence | reflexivity]. Qed.

Lemma unlines_cons (l : list ascii) (ls : list (list ascii)) :
  ls <> [] -> unlines (l :: ls) = l ++ newline :: unlines ls.
Proof. destruct ls; [congruence | reflexivity]. Qed.

Lemma unlines_lines (s : list ascii) : unlines (lines s) = s.
Proof.
  induction s as [| c r IH]; [reflexivity |].
  destruct (Ascii.eqb_spec c newline) as [-> | Hc].
  - rewrite lines_newline, unlines_cons by apply lines_not_nil.
    rewrite IH. reflexivity.
  - rewrite lines_cons by assumption.
    rewrite (lines_hd_tl r) in IH.
    remember (hd [] (lines r)) as h. remember (tl (lines r)) as t.
    clear Heqh Heqt. subst r.
    destruct t as [| l ls]; [reflexivity |].
    rewrite !unlines_cons by discriminate. reflexivity.
Qed.

(** The head line is a prefix of the sequence. *)
Lemma lines_hd_prefix (s : list ascii) : exists b, s = hd [] (lines s) ++ b.
Proof.
  pose proof (unlines_lines s) as Hs.
  destruct (lines s) as [| h [| l ls]]; simpl in Hs |- *.
  - exists []. rewrite <- Hs. reflexivity.
  - exists []. rewrite app_nil_r. symmetry. assumption.
  - eexists. symmetry. exact Hs.
Qed.

Lemma lines_no_newline (s : list ascii) :
  Forall (fun l => newline ∉ l) (lines s).
Proof.
  induction s as [| c r IH].
  - constructor; [apply not_elem_of_nil | constructor].
  - destruct (Ascii.eqb_spec c newline) as [-> | Hc].
    + rewrite lines_newline. constructor; [apply not_elem_of_nil | assumption].
    + rewrite lines_cons by assumption. rewrite (lines_hd_tl r) in IH.
      inversion IH as [| ? ? Hhd Htl]; subst. constructor; [| assumption].
      rewrite elem_of_cons. intros [Heq | Hin]; [congruence | contradiction].
Qed.

Lemma lines_app_line (l r : list ascii) :
  newline ∉ l -> lines (l ++ newline :: r) = l :: lines r.
Proof.
  induction l as [| c l IH]; intros Hl; [reflexivity |].
  rewrite not_elem_of_cons in Hl. destruct Hl as [Hc Hl].
  simpl app. rewrite lines_cons by congruence. rewrite IH by assumption.
  reflexivity.
Qed.

Lemma lines_single (l : list ascii) : newline ∉ l -> lines l = [l].
Proof.
  induction l as [| c l IH]; intros Hl; [reflexivity |].
  rewrite not_elem_of_cons in Hl. destruct Hl as [Hc Hl].
  rewrite lines_cons by congruence. rewrite IH by assumption. reflexivity.
Qed.

Lemma lines_unlines (ls : list (list ascii)) :
  ls <> [] -> Forall (fun l => newline ∉ l) ls -> lines (unlines ls) = ls.
Proof.
  induction ls as [| l ls IH]; intros Hne Hall; [congruence |].
  inversion Hall as [| ? ? Hl Hls]; subst.
  destruct ls as [| l' ls].
  - simpl. apply lines_single. assumption.
  - rewrite unlines_cons by discriminate.
    rewrite lines_app_line by assumption. rewrite IH; [reflexivity | discriminate | assumption].
Qed.

Lemma unlines_snoc (ls : list (list ascii)) (l : list ascii) :
  ls <> [] -> unlines (ls ++ [l]) = unlines ls ++ newline :: l.
Proof.
  induction ls as [| l0 ls IH]; intros Hne; [congruence |].
  destruct ls as [| l1 ls]; [reflexivity |].
  change ((l0 :: l1 :: ls) ++ [l]) with (l0 :: ((l1 :: ls) ++ [l])).
  rewrite !unlines_cons by (try discriminate; destruct ls; discriminate).
  rewrite IH by discriminate. rewrite <- app_assoc. reflexivity.
Qed.

Lemma rev_unlines (ls : list (list ascii)) :
  rev (unlines ls) = unlines (rev (map (@rev ascii) ls)).
Proof.
  induction ls as [| l ls IH]; [reflexivity |].
  destruct ls as [| l' ls]; [reflexivity |].
  rewrite unlines_cons by discriminate.
  rewrite rev_app_distr.
  change (rev (newline :: unlines (l' :: ls)))
    with (rev (unlines (l' :: ls)) ++ [newline]).
  rewrite IH.
  change (rev (map (@rev ascii) (l :: l' :: ls)))
    with (rev (map (@rev ascii) (l' :: ls)) ++ [rev l]).
  rewrite unlines_snoc.
  - rewrite <- !app_assoc. reflexivity.
  - simpl. destruct (rev (map (@rev ascii) ls)); discriminate.
Qed.

(** The lines of the reversed sequence. *)
Lemma lines_rev (s : list ascii) : lines (rev s) = rev (map (@rev ascii) (lines s)).
Proof.
  pose proof (unlines_lines s) as Hs. apply (f_equal (@rev ascii)) in Hs.
  rewrite <- Hs, rev_unlines.
  apply lines_unlines.
  - pose proof (lines_not_nil s) as Hne.
    destruct (lines s); [congruence |]. simpl.
    destruct (rev (map (@rev ascii) l0)); discriminate.
  - rewrite Forall_forall. intros l Hl.
    rewrite list_elem_of_In, <- in_rev, in_map_iff in Hl.
    destruct Hl as (l' & <- & Hl').
    pose proof (lines_no_newline s) as Hall. rewrite Forall_forall in Hall.
    rewrite list_elem_of_In, <- in_rev, <- list_elem_of_In.
    apply Hall. apply list_elem_of_In. assumption.
Qed.

End Lines.

(** ** Trimming a sequence and trimming its lines *)

Section TrimLines.

Import Strings Spec.

Variable two : ascii -> ascii -> bool.
Variable three : ascii -> ascii -> ascii -> bool.

(** A line feed is no part of a rune of several bytes. *)
Hypothesis two_newline : forall c d, two c d = true -> d <> newline.
Hypothesis three_newline :
  forall c d e, three c d e = true -> d <> newline /\ e <> newline.

Local Notation "'T'" := (trimHead two three).

Lemma asciiSpace_false_newline (c : ascii) : asciiSpace c = false -> c <> newline.
Proof. intros Hc ->. discriminate Hc. Qed.

Lemma clean_head_line (c : ascii) (r : list ascii) :
  T (c :: r) = c :: r -> c <> newline ->
  exists h t, lines (c :: r) = h :: t /\ T h = h /\ h <> [].
Proof.
  intros Hclean Hc.
  destruct (lines_hd_prefix (c :: r)) as (b & Hb).
  rewrite lines_cons in Hb |- * by assumption.
  simpl hd in Hb. eexists. eexists. split; [reflexivity |].
  split; [| discriminate].
  apply (trimHead_clean_prefix two three _ b); [| discriminate].
  rewrite <- Hb. assumption.
Qed.

Lemma lines_clean (c : ascii) (r : list ascii) :
  T (c :: r) = c :: r -> c <> newline ->
  lines (c :: r)
  = match dropWhile (fun l => isNil (T l)) (lines (c :: r)) with
    | [] => [[]]
    | t :: rest => T t :: rest
    end.
Proof.
  intros Hclean Hc.
  destruct (clean_head_line c r Hclean Hc) as (h & t & -> & Hh & Hne).
  cbn [dropWhile]. rewrite Hh. destruct h; [congruence |].
  cbn [isNil]. rewrite Hh. reflexivity.
Qed.

(** The lines of the trimmed sequence: the lines from the first one on
    that is not white space only, that one trimmed. *)
Lemma trimHead_lines (s : list ascii) :
  lines (T s)
  = match dropWhile (fun l => isNil (T l)) (lines s) with
    | [] => [[]]
    | t :: rest => T t :: rest
    end.
Proof.
  induction s as [| c r Ec IH | c Ec | c d r Ec E2 IH | c d Ec E2
                  | c d e r Ec E2 E3 IH | c d e r Ec E2 E3]
    using (trimHead_cases two three).
  - reflexivity.
  - rewrite trimHead_one, IH by assumption.
    destruct (Ascii.eqb_spec c newline) as [-> | Hc].
    + rewrite lines_newline. reflexivity.
    + rewrite lines_cons by assumption. rewrite (lines_hd_tl r) at 1.
      cbn [dropWhile]. rewrite !(trimHead_one two three c) by assumption.
      destruct (isNil (T (hd [] (lines r)))); [reflexivity |].
      cbv match beta. rewrite trimHead_one by assumption. reflexivity.
  - assert (Hclean : T [c] = [c]) by (simpl; rewrite Ec; reflexivity).
    rewrite Hclean at 1.
    apply lines_clean; [assumption | apply asciiSpace_false_newline; assumption].
  - rewrite trimHead_two, IH by assumption.
    rewrite (lines_cons c) by (apply asciiSpace_false_newline; assumption).
    rewrite (lines_cons d) by (eapply two_newline; eassumption).
    rewrite (lines_hd_tl r) at 1.
    cbn [dropWhile hd tl]. rewrite !(trimHead_two two three c d) by assumption.
    destruct (isNil (T (hd [] (lines r)))); [reflexivity |].
    cbv match beta. rewrite trimHead_two by assumption. reflexivity.
  - assert (Hclean : T [c; d] = [c; d]) by (simpl; rewrite Ec, E2; reflexivity).
    rewrite Hclean at 1.
    apply lines_clean; [assumption | apply asciiSpace_false_newline; assumption].
  - rewrite trimHead_three, IH by assumption.
    destruct (three_newline c d e E3) as [Hd He].
    rewrite (lines_cons c) by (apply asciiSpace_false_newline; assumption).
    rewrite (lines_cons d), (lines_cons e) by assumption.
    rewrite (lines_hd_tl r) at 1.
    cbn [dropWhile hd tl].
    rewrite !(trimHead_three two three c d e) by assumption.
    destruct (isNil (T (hd [] (lines r)))); [reflexivity |].
    cbv match beta. rewrite trimHead_three by assumption. reflexivity.
  - assert (Hclean : T (c :: d :: e :: r) = c :: d :: e :: r)
      by (simpl; rewrite Ec, E2, E3; reflexivity).
    rewrite Hclean at 1.
    apply lines_clean; [assumption | apply asciiSpace_false_newline; assumption].
Qed.

(** What the lines hold is the same before and after, for a reading [f]
    of a line that does not see the white space that [trimHead] removes. *)
Lemma trimHead_content (f : list ascii -> list ascii) (ls : list (list ascii)) :
  (forall l, T l = [] -> f l = []) ->
  (forall l, f (T l) = f l) ->
  filter (fun l => l <> []) (map f
    match dropWhile (fun l => isNil (T l)) ls with
    | [] => [[]]
    | t :: rest => T t :: rest
    end)
  = filter (fun l => l <> []) (map f ls).
Proof.
  intros Hblank Hf. induction ls as [| l ls IH].
  - simpl. rewrite (Hblank []) by reflexivity. reflexivity.
  - cbn [dropWhile map]. destruct (T l) as [| a l'] eqn:El; cbn [isNil].
    + rewrite IH. rewrite (Hblank l El).
      rewrite filter_cons_False by congruence. reflexivity.
    + cbn [map]. rewrite El, <- El, Hf. reflexivity.
Qed.

End TrimLines.

(** ** The white space of [TrimSpace], forwards and backwards *)

Section WhiteSpace.

Import Strings Spec.

Local Notation "'Tf'" := (trimHead space2 space3).
Local Notation "'Tb'" := (trimHead space2r space3r).

Ltac bytes :=
  cbv beta iota zeta delta [space2 space3 space2r space3r asciiSpace] in *;
  change (byte newline) with 10%N in *;
  repeat (progress rewrite ?andb_true_iff, ?orb_true_iff, ?andb_false_iff,
            ?orb_false_iff, ?N.eqb_eq, ?N.eqb_neq, ?N.leb_le, ?N.leb_gt in * );
  try lia.

Lemma space2_lead (c d : ascii) :
  space2 c d = true -> asciiSpace c = false /\ asciiSpace d = false.
Proof. intros H. split; bytes. Qed.

Lemma space3_lead (c d e : ascii) :
  space3 c d e = true ->
  asciiSpace c = false /\ space2 c d = false
  /\ asciiSpace e = false /\ space2 d e = false.
Proof. intros H. repeat split; bytes. Qed.

Lemma space2_newline (c d : ascii) : space2 c d = true -> d <> newline.
Proof. intros H ->. bytes. Qed.

Lemma space3_newline (c d e : ascii) :
  space3 c d e = true -> d <> newline /\ e <> newline.
Proof. intros H. split; intros ->; bytes. Qed.

Lemma space2r_newline (c d : ascii) : space2r c d = true -> d <> newline.
Proof. intros H ->. bytes. Qed.

Lemma space3r_newline (c d e : ascii) :
  space3r c d e = true -> d <> newline /\ e <> newline.
Proof. intros H. split; intros ->; bytes. Qed.

(** White space read forwards is white space read backwards. *)
Lemma spaces_rev_backward (a : list ascii) :
  spaces space2 space3 a -> spaces space2r space3r (rev a).
Proof.
  induction 1 as [| c r Hc _ IH | c d r Hc H2 _ IH | c d e r Hc H2 H3 _ IH].
  - constructor.
  - simpl. apply spaces_app; [assumption |].
    apply spaces_one; [assumption | constructor].
  - simpl. rewrite <- app_assoc. apply spaces_app; [assumption |].
    destruct (space2_lead c d H2) as [_ Hd].
    apply spaces_two; [assumption | exact H2 | constructor].
  - simpl. rewrite <- !app_assoc. apply spaces_app; [assumption |].
    destruct (space3_lead c d e H3) as (_ & _ & He & Hde).
    apply spaces_three; [assumption | exact Hde | exact H3 | constructor].
Qed.

Lemma spaces_rev_forward (q : list ascii) :
  spaces space2r space3r q -> spaces space2 space3 (rev q).
Proof.
  induction 1 as [| c r Hc _ IH | c d r Hc H2 _ IH | c d e r Hc H2 H3 _ IH].
  - constructor.
  - simpl. apply spaces_app; [assumption |].
    apply spaces_one; [assumption | constructor].
  - simpl. rewrite <- app_assoc. apply spaces_app; [assumption |].
    destruct (space2_lead d c H2) as [Hd _].
    apply spaces_two; [assumption | exact H2 | constructor].
  - simpl. rewrite <- !app_assoc. apply spaces_app; [assumption |].
    destruct (space3_lead e d c H3) as (He & Hed & _ & _).
    apply spaces_three; [assumption | exact Hed | exact H3 | constructor].
Qed.

Lemma trimRight_nil_spaces (z : list ascii) :
  trimRightBytes z = [] <-> spaces space2 space3 z.
Proof.
  unfold trimRightBytes. split.
  - intros Hz. apply (f_equal (@rev ascii)) in Hz.
    rewrite rev_involutive in Hz. simpl in Hz.
    apply trimHead_nil_spaces, spaces_rev_forward in Hz.
    rewrite rev_involutive in Hz. assumption.
  - intros Hz. apply spaces_rev_backward in Hz.
    rewrite (trimHead_spaces _ _ _ Hz). reflexivity.
Qed.

Lemma trimLeft_nil_spaces (z : list ascii) :
  trimLeftBytes z = [] <-> spaces space2 space3 z.
Proof.
  split; [apply trimHead_nil_spaces | apply trimHead_spaces].
Qed.

(** A line is white space only from the left, from the right, and from
    both ends alike. *)
Lemma trimBytes_nil (z : list ascii) :
  trimBytes z = [] <-> trimLeftBytes z = [].
Proof.
  unfold trimBytes. split.
  - intros Hz. apply trimRight_nil_spaces, trimLeft_nil_spaces in Hz.
    unfold trimLeftBytes in Hz |- *.
    rewrite trimHead_idempotent in Hz. assumption.
  - intros ->. reflexivity.
Qed.

Lemma trimRight_nil_trimBytes (z : list ascii) :
  trimRightBytes z = [] -> trimBytes z = [].
Proof.
  intros Hz. apply trimBytes_nil, trimLeft_nil_spaces, trimRight_nil_spaces.
  assumption.
Qed.

Lemma trimRight_idempotent (z : list ascii) :
  trimRightBytes (trimRightBytes z) = trimRightBytes z.
Proof.
  unfold trimRightBytes. rewrite rev_involutive, trimHead_idempotent.
  reflexivity.
Qed.

(** What [trimRightBytes] leaves is a prefix, followed by white space. *)
Lemma trimRight_split (y : list ascii) :
  exists b, y = trimRightBytes y ++ b /\ spaces space2r space3r (rev b).
Proof.
  unfold trimRightBytes.
  destruct (trimHead_split space2r space3r (rev y)) as (b' & Hb & Hsp).
  exists (rev b'). split.
  - apply (f_equal (@rev ascii)) in Hb.
    rewrite rev_involutive, rev_app_distr in Hb. assumption.
  - rewrite rev_involutive. assumption.
Qed.

(** White space that follows does not join the bytes before it to a rune. *)
Lemma trimHead_backward_sync (x q : list ascii) :
  Tb x = x -> x <> [] -> spaces space2r space3r q -> Tb (x ++ q) = x ++ q.
Proof.
  intros Hclean Hx Hq.
  assert (Hlen : forall r, (length (Tb r) <= length r)%nat)
    by apply trimHead_length.
  destruct x as [| c0 x]; [congruence |].
  assert (Ec : asciiSpace c0 = false).
  { destruct (asciiSpace c0) eqn:Ec; [| reflexivity].
    rewrite trimHead_one in Hclean by assumption.
    specialize (Hlen x). rewrite Hclean in Hlen. simpl in Hlen. lia. }
  destruct x as [| c1 x].
  { simpl. rewrite Ec.
    destruct Hq as [| c r Hc _ | c d r Hc H2 _ | c d e r Hc H2 H3 _];
      [reflexivity | | |].
    - assert (E2 : space2r c0 c = false) by bytes. rewrite E2.
      destruct r as [| e r]; [reflexivity |].
      assert (E3 : space3r c0 c e = false) by bytes. rewrite E3. reflexivity.
    - assert (E2 : space2r c0 c = false) by bytes. rewrite E2.
      assert (E3 : space3r c0 c d = false) by bytes. rewrite E3. reflexivity.
    - assert (E2 : space2r c0 c = false) by bytes. rewrite E2.
      assert (E3 : space3r c0 c d = false) by bytes. rewrite E3. reflexivity. }
  assert (E2 : space2r c0 c1 = false).
  { destruct (space2r c0 c1) eqn:E2; [| reflexivity].
    rewrite trimHead_two in Hclean by assumption.
    specialize (Hlen x). rewrite Hclean in Hlen. simpl in Hlen. lia. }
  destruct x as [| c2 x].
  { simpl. rewrite Ec, E2.
    destruct Hq as [| c r Hc _ | c d r Hc H2 _ | c d e r Hc H2 H3 _];
      [reflexivity | | |].
    - assert (E3 : space3r c0 c1 c = false) by bytes. rewrite E3. reflexivity.
    - assert (E3 : space3r c0 c1 c = false) by bytes. rewrite E3. reflexivity.
    - assert (E3 : space3r c0 c1 c = false) by bytes. rewrite E3. reflexivity. }
  simpl in Hclean |- *. rewrite Ec, E2 in Hclean |- *.
  destruct (space3r c0 c1 c2) eqn:E3; [| reflexivity].
  specialize (Hlen x). rewrite Hclean in Hlen. simpl in Hlen. lia.
Qed.

(** The same forwards. *)
Lemma trimHead_forward_sync (x q : list ascii) :
  Tf x = x -> x <> [] -> spaces space2 space3 q -> Tf (x ++ q) = x ++ q.
Proof.
  intros Hclean Hx Hq.
  assert (Hlen : forall r, (length (Tf r) <= length r)%nat)
    by apply trimHead_length.
  destruct x as [| c0 x]; [congruence |].
  assert (Ec : asciiSpace c0 = false).
  { destruct (asciiSpace c0) eqn:Ec; [| reflexivity].
    rewrite trimHead_one in Hclean by assumption.
    specialize (Hlen x). rewrite Hclean in Hlen. simpl in Hlen. lia. }
  destruct x as [| c1 x].
  { simpl. rewrite Ec.
    destruct Hq as [| c r Hc _ | c d r Hc H2 _ | c d e r Hc H2 H3 _];
      [reflexivity | | |].
    - assert (E2 : space2 c0 c = false) by bytes. rewrite E2.
      destruct r as [| e r]; [reflexivity |].
      assert (E3 : space3 c0 c e = false) by bytes. rewrite E3. reflexivity.
    - assert (E2 : space2 c0 c = false) by bytes. rewrite E2.
      assert (E3 : space3 c0 c d = false) by bytes. rewrite E3. reflexivity.
    - assert (E2 : space2 c0 c = false) by bytes. rewrite E2.
      assert (E3 : space3 c0 c d = false) by bytes. rewrite E3. reflexivity. }
  assert (E2 : space2 c0 c1 = false).
  { destruct (space2 c0 c1) eqn:E2; [| reflexivity].
    rewrite trimHead_two in Hclean by assumption.
    specialize (Hlen x). rewrite Hclean in Hlen. simpl in Hlen. lia. }
  destruct x as [| c2 x].
  { simpl. rewrite Ec, E2.
    destruct Hq as [| c r Hc _ | c d r Hc H2 _ | c d e r Hc H2 H3 _];
      [reflexivity | | |].
    - assert (E3 : space3 c0 c1 c = false) by bytes. rewrite E3. reflexivity.
    - assert (E3 : space3 c0 c1 c = false) by bytes. rewrite E3. reflexivity.
    - assert (E3 : space3 c0 c1 c = false) by bytes. rewrite E3. reflexivity. }
  simpl in Hclean |- *. rewrite Ec, E2 in Hclean |- *.
  destruct (space3 c0 c1 c2) eqn:E3; [| reflexivity].
  specialize (Hlen x). rewrite Hclean in Hlen. simpl in Hlen. lia.
Qed.

End WhiteSpace.

(** ** [TrimSpace] of the message and [TrimSpace] of its lines *)

Section TrimMessage.

Import Strings Spec.

Local Notation "'Tf'" := (trimHead space2 space3).
Local Notation "'Tb'" := (trimHead space2r space3r).

(** A sequence that starts with no white space and is not empty does not
    become empty under [trimRightBytes], and still starts with none. *)
Lemma trimRight_clean_not_nil (y : list ascii) :
  trimLeftBytes y = y -> y <> [] -> trimRightBytes y <> [].
Proof.
  intros Hclean Hy Hnil. apply trimRight_nil_spaces, trimLeft_nil_spaces in Hnil.
  congruence.
Qed.

Lemma trimRight_clean (y : list ascii) :
  trimLeftBytes y = y -> trimLeftBytes (trimRightBytes y) = trimRightBytes y.
Proof.
  intros Hclean. destruct (trimRightBytes y) as [| c x] eqn:Ex; [reflexivity |].
  destruct (trimRight_split y) as (b & Hb & _). rewrite Ex in Hb.
  apply (trimHead_clean_prefix space2 space3 (c :: x) b); [| discriminate].
  rewrite <- Hb. assumption.
Qed.

(** White space before it does not change what [trimRightBytes] removes. *)
Lemma trimRight_spaces_app (a y : list ascii) :
  spaces space2 space3 a -> trimLeftBytes y = y -> y <> [] ->
  trimRightBytes (a ++ y) = a ++ trimRightBytes y.
Proof.
  intros Ha Hclean Hy.
  pose proof (trimRight_clean_not_nil y Hclean Hy) as Hx.
  unfold trimRightBytes in *.
  destruct (trimHead_split space2r space3r (rev y)) as (b' & Hb & Hsp).
  rewrite rev_app_distr. rewrite Hb at 1. rewrite <- app_assoc.
  rewrite trimHead_spaces_app by assumption.
  rewrite trimHead_backward_sync.
  - rewrite rev_app_distr, rev_involutive. reflexivity.
  - apply trimHead_idempotent.
  - intros Hnil. apply Hx. rewrite Hnil. reflexivity.
  - apply spaces_rev_backward. assumption.
Qed.

Lemma trimBytes_trimRight (z : list ascii) :
  trimBytes (trimRightBytes z) = trimBytes z.
Proof.
  unfold trimBytes.
  destruct (trimHead_split space2 space3 z) as (a & Ha & Hsp).
  fold (trimLeftBytes z) in Ha.
  assert (Hclean : trimLeftBytes (trimLeftBytes z) = trimLeftBytes z)
    by apply trimHead_idempotent.
  destruct (trimLeftBytes z) as [| c y] eqn:Ey.
  - rewrite app_nil_r in Ha. subst a.
    apply trimRight_nil_spaces in Hsp. rewrite Hsp. reflexivity.
  - rewrite Ha at 1.
    rewrite trimRight_spaces_app by (try assumption; discriminate).
    unfold trimLeftBytes at 1. rewrite trimHead_spaces_app by assumption.
    fold (trimLeftBytes (trimRightBytes (c :: y))).
    rewrite trimRight_clean by assumption.
    apply trimRight_idempotent.
Qed.

Lemma trimBytes_trimLeft (z : list ascii) :
  trimBytes (trimLeftBytes z) = trimBytes z.
Proof.
  unfold trimBytes, trimLeftBytes. rewrite trimHead_idempotent. reflexivity.
Qed.

Lemma trimBytes_clean (s : list ascii) :
  trimLeftBytes (trimBytes s) = trimBytes s.
Proof. apply trimRight_clean, trimHead_idempotent. Qed.

(** Trimming the message keeps what its lines hold. *)
Lemma content_trimLeft (s : list ascii) :
  content (lines (trimLeftBytes s)) = content (lines s).
Proof.
  unfold content, trimLeftBytes.
  rewrite (trimHead_lines _ _ space2_newline space3_newline).
  apply trimHead_content.
  - intros l Hl. apply trimBytes_nil. assumption.
  - apply trimBytes_trimLeft.
Qed.

Lemma filter_rev (ls : list (list ascii)) :
  filter (fun l => l <> []) (rev ls) = rev (filter (fun l => l <> []) ls).
Proof.
  induction ls as [| l ls IH]; [reflexivity |].
  simpl rev. rewrite filter_app, IH.
  destruct (decide (l <> [])) as [Hl | Hl].
  - rewrite !filter_cons_True by assumption. reflexivity.
  - rewrite !filter_cons_False by assumption. rewrite filter_nil.
    apply app_nil_r.
Qed.

Lemma content_rev (ls : list (list ascii)) :
  content (rev (map (@rev ascii) ls))
  = rev (filter (fun l => l <> []) (map (fun l => trimBytes (rev l)) ls)).
Proof.
  unfold content. rewrite map_rev, map_map, filter_rev. reflexivity.
Qed.

Lemma content_trimRight (s : list ascii) :
  content (lines (trimRightBytes s)) = content (lines s).
Proof.
  unfold trimRightBytes.
  rewrite lines_rev, content_rev.
  rewrite (trimHead_lines _ _ space2r_newline space3r_newline).
  rewrite trimHead_content.
  - rewrite <- content_rev, <- lines_rev, rev_involutive. reflexivity.
  - intros l Hl. apply trimRight_nil_trimBytes.
    unfold trimRightBytes. rewrite rev_involutive, Hl. reflexivity.
  - intros l. rewrite <- (rev_involutive l) at 1.
    fold (trimRightBytes (rev l)). apply trimBytes_trimRight.
Qed.

Lemma content_trimBytes (s : list ascii) :
  content (lines (trimBytes s)) = content (lines s).
Proof.
  unfold trimBytes. rewrite content_trimRight. apply content_trimLeft.
Qed.

(** The first line of a sequence that starts with no white space. *)
Lemma clean_first_line (s : list ascii) :
  trimLeftBytes s = s -> s <> [] -> trimBytes (hd [] (lines s)) <> [].
Proof.
  intros Hclean Hs. destruct s as [| c r]; [congruence |].
  assert (Hc : c <> newline).
  { intros ->. unfold trimLeftBytes in Hclean.
    rewrite trimHead_one in Hclean by reflexivity.
    pose proof (trimHead_length space2 space3 r) as Hlen.
    rewrite Hclean in Hlen. simpl in Hlen. lia. }
  destruct (clean_head_line space2 space3 c r Hclean Hc) as (h & t & -> & Hh & Hne).
  simpl. unfold trimBytes. fold (trimLeftBytes h) in Hh. rewrite Hh.
  apply trimRight_clean_not_nil; assumption.
Qed.

End TrimMessage.

(** ** [parseCommitMessage] *)

Section ParseCommitMessage.

Import Strings Spec Git.

Local Notation "'S'" := string_of_list_ascii.
Local Notation "'B'" := list_ascii_of_string.

Lemma string_nil (l : list ascii) : S l = ""%string <-> l = [].
Proof. destruct l; simpl; split; congruence. Qed.

Lemma TrimSpace_bytes (l : list ascii) : TrimSpace (S l) = S (trimBytes l).
Proof. unfold TrimSpace. rewrite list_ascii_of_string_of_list_ascii. reflexivity. Qed.

Lemma Split_bytes (l : list ascii) : Split (S l) newline = map S (lines l).
Proof. unfold Split. rewrite list_ascii_of_string_of_list_ascii. reflexivity. Qed.

Lemma trimmedLines_bytes (ls : list (list ascii)) :
  filter (fun line => line <> ""%string) (map TrimSpace (map S ls))
  = map S (content ls).
Proof.
  unfold content. induction ls as [| l ls IH]; [reflexivity |].
  cbn [map]. rewrite TrimSpace_bytes.
  destruct (decide (trimBytes l = [])) as [Hl | Hl].
  - rewrite !filter_cons_False; [assumption | | ].
    + intros H. apply H. assumption.
    + intros H. apply H. apply string_nil. assumption.
  - rewrite !filter_cons_True; [| assumption |].
    + cbn [map]. rewrite IH. reflexivity.
    + intros H. apply Hl. apply string_nil. assumption.
Qed.

(** The result of the source, on bytes. *)
Lemma parseCommitMessage_bytes (fullMessage : string) :
  parseCommitMessage fullMessage
  = let ls := lines (trimBytes (B fullMessage)) in
    (S (trimBytes (hd [] ls)), Join (map S (content (tl ls))) " ").
Proof.
  unfold parseCommitMessage, TrimSpace at 1. rewrite Split_bytes.
  cbv zeta. rewrite (lines_hd_tl (trimBytes (B fullMessage))).
  cbn [map hd tl]. rewrite TrimSpace_bytes. f_equal.
  rewrite <- trimmedLines_bytes.
  destruct (tl (lines (trimBytes (B fullMessage)))); reflexivity.
Qed.

(** The first line that holds something, and what follows it. *)
Lemma dropWhile_content (ls : list (list ascii)) :
  match content ls with
  | [] => dropWhile (fun l => isNil (trimBytes l)) ls = []
  | t :: rest =>
      exists title others,
        dropWhile (fun l => isNil (trimBytes l)) ls = title :: others
        /\ trimBytes title = t /\ content others = rest
  end.
Proof.
  induction ls as [| l ls IH]; [reflexivity |].
  unfold content in *. cbn [map dropWhile].
  destruct (trimBytes l) as [| c x] eqn:El.
  - rewrite filter_cons_False by (intros H; apply H; reflexivity).
    exact IH.
  - rewrite filter_cons_True by discriminate.
    exists l, ls. rewrite El. repeat split.
Qed.

Lemma lines_content (s : list ascii) :
  let ls := lines (trimBytes s) in
  match content (lines s) with
  | [] => trimBytes (hd [] ls) = [] /\ content (tl ls) = []
  | t :: rest => trimBytes (hd [] ls) = t /\ content (tl ls) = rest
  end.
Proof.
  cbv zeta. rewrite <- (content_trimBytes s).
  pose proof (trimBytes_clean s) as Hclean.
  destruct (trimBytes s) as [| c r].
  - change (lines []) with [[]: list ascii]. unfold content. cbn [map hd tl].
    change (trimBytes []) with ([] : list ascii).
    rewrite filter_cons_False by (intros H; apply H; reflexivity).
    split; reflexivity.
  - pose proof (clean_first_line (c :: r) Hclean) as Hfirst.
    destruct (lines (c :: r)) as [| h t];
      [exfalso; apply Hfirst; [discriminate | reflexivity] |].
    cbn [hd tl] in *. unfold content at 1. cbn [map].
    rewrite filter_cons_True by (apply Hfirst; discriminate).
    split; reflexivity.
Qed.

(** The result of the source, from the lines of the message. *)
Lemma parseCommitMessage_lines (fullMessage : string) :
  parseCommitMessage fullMessage
  = match dropWhile (fun l => isNil (trimBytes l)) (lines (B fullMessage)) with
    | [] => (""%string, ""%string)
    | title :: others =>
        (S (trimBytes title), Join (map S (content others)) " ")
    end.
Proof.
  rewrite parseCommitMessage_bytes. cbv zeta.
  pose proof (lines_content (B fullMessage)) as Hcode.
  pose proof (dropWhile_content (lines (B fullMessage))) as Hspec.
  cbv zeta in Hcode.
  destruct (content (lines (B fullMessage))) as [| t rest].
  - destruct Hcode as [-> ->]. rewrite Hspec. reflexivity.
  - destruct Hcode as [-> ->].
    destruct Hspec as (title & others & -> & <- & <-). reflexivity.
Qed.

(** *** The white space of the specification and that of the source *)

Lemma byte_ascii (c : ascii) (n : N) : byte c = n -> c = ascii_of_N n.
Proof. intros <-. symmetry. apply ascii_N_embedding. Qed.

Ltac rune n r :=
  change (blank (encode n ++ r)); apply blank_rune;
  [apply list_elem_of_In; cbn; tauto | assumption].

(** White space as the source reads it is white space of the
    specification ... *)
Lemma spaces_blank (a : list ascii) : spaces space2 space3 a -> blank a.
Proof.
  induction 1 as [| c r Hc _ IH | c d r Hc Hd _ IH | c d e r Hc Hd He _ IH].
  - constructor.
  - unfold asciiSpace in Hc. cbv zeta in Hc.
    rewrite orb_true_iff, andb_true_iff, !N.leb_le, N.eqb_eq in Hc.
    assert (Hn : (byte c = 9 \/ byte c = 10 \/ byte c = 11 \/ byte c = 12
                  \/ byte c = 13 \/ byte c = 32)%N) by lia.
    destruct Hn as [Hn | [Hn | [Hn | [Hn | [Hn | Hn]]]]];
      apply byte_ascii in Hn; subst c;
      [rune (9%N) r | rune (10%N) r | rune (11%N) r | rune (12%N) r | rune (13%N) r | rune (32%N) r].
  - unfold space2 in Hd.
    rewrite andb_true_iff, orb_true_iff, !N.eqb_eq in Hd.
    destruct Hd as [H1 [H2 | H2]];
      apply byte_ascii in H1, H2; subst c d; [rune (133%N) r | rune (160%N) r].
  - unfold space3 in He.
    rewrite !orb_true_iff, !andb_true_iff, !orb_true_iff, !andb_true_iff,
      !N.eqb_eq, !N.leb_le in He.
    destruct He as [[[((H1 & H2) & H3) | ((H1 & H2) & H3)]
                     | ((H1 & H2) & H3)] | ((H1 & H2) & H3)].
    + apply byte_ascii in H1, H2, H3. subst c d e. rune (5760%N) r.
    + apply byte_ascii in H1, H2. subst c d.
      assert (Hn : (byte e = 128 \/ byte e = 129 \/ byte e = 130
                    \/ byte e = 131 \/ byte e = 132 \/ byte e = 133
                    \/ byte e = 134 \/ byte e = 135 \/ byte e = 136
                    \/ byte e = 137 \/ byte e = 138 \/ byte e = 168
                    \/ byte e = 169 \/ byte e = 175)%N) by lia.
      clear H3.
      destruct Hn as [Hn | [Hn | [Hn | [Hn | [Hn | [Hn | [Hn | [Hn | [Hn
                       | [Hn | [Hn | [Hn | [Hn | Hn]]]]]]]]]]]]];
        apply byte_ascii in Hn; subst e;
        [rune (8192%N) r | rune (8193%N) r | rune (8194%N) r | rune (8195%N) r | rune (8196%N) r
        | rune (8197%N) r | rune (8198%N) r | rune (8199%N) r | rune (8200%N) r | rune (8201%N) r
        | rune (8202%N) r | rune (8232%N) r | rune (8233%N) r | rune (8239%N) r].
    + apply byte_ascii in H1, H2, H3. subst c d e. rune (8287%N) r.
    + apply byte_ascii in H1, H2, H3. subst c d e. rune (12288%N) r.
Qed.

(** ... and the other way round. *)
Lemma blank_spaces (a : list ascii) : blank a -> spaces space2 space3 a.
Proof.
  induction 1 as [| r s Hr _ IH]; [constructor |].
  apply list_elem_of_In in Hr. cbn in Hr.
  repeat (destruct Hr as [<- | Hr];
          [first [ apply spaces_one; [reflexivity | exact IH]
                 | apply spaces_two; [reflexivity | reflexivity | exact IH]
                 | apply spaces_three;
                   [reflexivity | reflexivity | reflexivity | exact IH] ] |]).
  contradiction.
Qed.

Lemma encode_length (r : N) : (1 <= length (encode r))%nat.
Proof.
  unfold encode. destruct (r <? 128)%N; [cbn; lia |].
  destruct (r <? 2048)%N; cbn; lia.
Qed.

Lemma rune_spaces (r : N) : r ∈ whiteSpace -> spaces space2 space3 (encode r).
Proof.
  intros Hr. rewrite <- (app_nil_r (encode r)).
  apply blank_spaces. constructor; [assumption | constructor].
Qed.

(** What [TrimSpace] returns is the string trimmed. *)
Lemma trimBytes_trimmedTo (s : list ascii) : trimmedTo s (trimBytes s).
Proof.
  split; [| split].
  - unfold trimBytes.
    destruct (trimHead_split space2 space3 s) as (a & Ha & Hsa).
    destruct (trimRight_split (trimLeftBytes s)) as (b & Hb & Hsb).
    exists a, b. split; [rewrite <- Hb; exact Ha |].
    split; [apply spaces_blank; assumption |].
    apply spaces_blank. rewrite <- (rev_involutive b).
    apply spaces_rev_forward. assumption.
  - intros (r & x & Hr & Hx).
    pose proof (trimBytes_clean s) as Hclean. rewrite Hx in Hclean.
    unfold trimLeftBytes in Hclean.
    rewrite trimHead_spaces_app in Hclean by (apply rune_spaces; assumption).
    pose proof (trimHead_length space2 space3 x) as Hlen.
    rewrite Hclean, length_app in Hlen.
    pose proof (encode_length r). lia.
  - intros (r & x & Hr & Hx).
    assert (Hclean : trimRightBytes (trimBytes s) = trimBytes s)
      by (unfold trimBytes; apply trimRight_idempotent).
    rewrite Hx in Hclean. unfold trimRightBytes in Hclean.
    rewrite rev_app_distr in Hclean.
    rewrite trimHead_spaces_app in Hclean
      by (apply spaces_rev_backward, rune_spaces; assumption).
    pose proof (trimHead_length space2r space3r (rev x)) as Hlen.
    apply (f_equal (@length ascii)) in Hclean.
    rewrite length_rev, length_app in Hclean. rewrite length_rev in Hlen.
    pose proof (encode_length r). lia.
Qed.

Lemma trimBytes_blank (l : list ascii) : trimBytes l = [] <-> blank l.
Proof.
  rewrite trimBytes_nil, trimLeft_nil_spaces. split.
  - apply spaces_blank.
  - apply blank_spaces.
Qed.

Lemma dropWhile_split {A : Type} (p : A -> bool) (l : list A) :
  exists before, l = before ++ dropWhile p l
                 /\ Forall (fun x => p x = true) before.
Proof.
  induction l as [| x l (before & Hl & Hbefore)].
  - exists []. split; [reflexivity | constructor].
  - cbn [dropWhile]. destruct (p x) eqn:Hx.
    + exists (x :: before). split; [cbn; congruence |].
      constructor; assumption.
    + exists []. split; [reflexivity | constructor].
Qed.

Lemma isNil_blank (l : list ascii) : isNil (trimBytes l) = true <-> blank l.
Proof.
  rewrite <- trimBytes_blank. destruct (trimBytes l); cbn; split; congruence.
Qed.

Lemma bytes_app (s t : string) : B (s ++ t)%string = B s ++ B t.
Proof. induction s as [| c s IH]; simpl; [reflexivity | rewrite IH; reflexivity]. Qed.

Lemma Join_bytes (ls : list (list ascii)) : B (Join (map S ls) " ") = spaced ls.
Proof.
  induction ls as [| l ls IH]; [reflexivity |].
  destruct ls as [| l' ls].
  - simpl. apply list_ascii_of_string_of_list_ascii.
  - change (Join (map S (l :: l' :: ls)) " ")
      with (S l ++ " " ++ Join (map S (l' :: ls)) " ")%string.
    rewrite !bytes_app, IH, list_ascii_of_string_of_list_ascii. reflexivity.
Qed.

Lemma lines_isLines (s : list ascii) : isLines s (lines s).
Proof.
  split; [apply unlines_lines |].
  split; [apply lines_not_nil | apply lines_no_newline].
Qed.

(** The source splits a message as the amended specification says. *)
Lemma parseCommitMessage_splitting (fullMessage : string) :
  splitting (B fullMessage)
    (B (fst (parseCommitMessage fullMessage)))
    (B (snd (parseCommitMessage fullMessage))).
Proof.
  exists (lines (B fullMessage)). split; [apply lines_isLines |].
  rewrite parseCommitMessage_lines.
  destruct (dropWhile_split (fun l => isNil (trimBytes l))
              (lines (B fullMessage))) as (before & Hlines & Hbefore).
  assert (Hblank : Forall blank before).
  { eapply Forall_impl; [exact Hbefore |]. intros l. apply isNil_blank. }
  destruct (dropWhile _ (lines (B fullMessage))) as [| title others] eqn:Hdrop.
  - left. rewrite app_nil_r in Hlines. rewrite Hlines.
    repeat split. assumption.
  - right. exists before, title, others, (map trimBytes others).
    split; [exact Hlines |]. split; [exact Hblank |].
    assert (Htitle : isNil (trimBytes title) = false).
    { clear - Hdrop. induction (lines (B fullMessage)) as [| l ls IH];
        [discriminate |].
      cbn [dropWhile] in Hdrop.
      destruct (isNil (trimBytes l)) eqn:Hl; [exact (IH Hdrop) |].
      injection Hdrop as -> _. exact Hl. }
    split.
    { intros Hb. apply isNil_blank in Hb. congruence. }
    cbn [fst snd]. rewrite list_ascii_of_string_of_list_ascii, Join_bytes.
    split; [apply trimBytes_trimmedTo |].
    split; [| reflexivity].
    clear. induction others as [| l ls IH]; constructor;
      [apply trimBytes_trimmedTo | exact IH].
Qed.

(** The amended specification determines the result. *)
Lemma blank_app (a b : list ascii) : blank a -> blank b -> blank (a ++ b).
Proof.
  induction 1 as [| r s Hr _ IH]; intros Hb; [exact Hb |].
  rewrite <- app_assoc. constructor; [assumption | apply IH; assumption].
Qed.

Lemma blank_first (a x : list ascii) :
  blank a -> a <> [] -> startsWithSpace (a ++ x).
Proof.
  intros [| r s Hr _] Ha; [congruence |].
  exists r, (s ++ x). split; [assumption | apply eq_sym, app_assoc].
Qed.

Lemma blank_last (a x : list ascii) :
  blank a -> a <> [] -> endsWithSpace (x ++ a).
Proof.
  intros Hblank. revert x. induction Hblank as [| r s Hr Hs IH]; intros x Ha;
    [congruence |].
  destruct s as [| c s].
  - exists r, x. rewrite app_nil_r. split; [assumption | reflexivity].
  - destruct (IH (x ++ encode r)) as (r' & y & Hr' & Hy); [discriminate |].
    exists r', y. split; [assumption |]. rewrite <- Hy, <- app_assoc.
    reflexivity.
Qed.

Lemma trimmedTo_trimBytes (s t : list ascii) :
  trimmedTo s t -> t = trimBytes s.
Proof.
  intros [(a & b & -> & Ha & Hb) [Hstart Hend]].
  destruct t as [| c t].
  { symmetry. apply trimBytes_blank. apply blank_app; assumption. }
  assert (Hleft : trimHead space2 space3 (c :: t) = c :: t).
  { destruct (trimHead_split space2 space3 (c :: t)) as (p & Hp & Hsp).
    destruct p as [| p0 p]; [symmetry; exact Hp |].
    exfalso. apply Hstart. rewrite Hp.
    apply blank_first; [apply spaces_blank; assumption | discriminate]. }
  assert (Hright : trimHead space2r space3r (rev (c :: t)) = rev (c :: t)).
  { destruct (trimHead_split space2r space3r (rev (c :: t))) as (q & Hq & Hsq).
    destruct q as [| q0 q]; [symmetry; exact Hq |].
    exfalso. apply Hend.
    rewrite <- (rev_involutive (c :: t)), Hq, rev_app_distr.
    apply blank_last.
    - apply spaces_blank, spaces_rev_forward. assumption.
    - intros Hnil. apply (f_equal (@rev ascii)) in Hnil.
      rewrite rev_involutive in Hnil. discriminate. }
  unfold trimBytes, trimLeftBytes.
  rewrite trimHead_spaces_app by (apply blank_spaces; assumption).
  rewrite trimHead_forward_sync;
    [| assumption | discriminate | apply blank_spaces; assumption].
  unfold trimRightBytes. rewrite rev_app_distr.
  rewrite trimHead_spaces_app
    by (apply spaces_rev_backward, blank_spaces; assumption).
  rewrite Hright. apply eq_sym, rev_involutive.
Qed.

Lemma dropWhile_app {A : Type} (p : A -> bool) (before : list A) (x : A)
    (after : list A) :
  Forall (fun y => p y = true) before -> p x = false ->
  dropWhile p (before ++ x :: after) = x :: after.
Proof.
  induction 1 as [| y before Hy _ IH]; intros Hx; cbn [app dropWhile].
  - rewrite Hx. reflexivity.
  - rewrite Hy. apply IH. assumption.
Qed.

Lemma dropWhile_all {A : Type} (p : A -> bool) (l : list A) :
  Forall (fun y => p y = true) l -> dropWhile p l = [].
Proof.
  induction 1 as [| y l Hy _ IH]; [reflexivity |].
  cbn [dropWhile]. rewrite Hy. exact IH.
Qed.

Lemma splitting_result (fullMessage : string) (title description : list ascii) :
  splitting (B fullMessage) title description ->
  title = B (fst (parseCommitMessage fullMessage))
  /\ description = B (snd (parseCommitMessage fullMessage)).
Proof.
  intros (ls & (Hjoin & Hne & Hfeed) & Hcases).
  assert (Hlines : lines (B fullMessage) = ls)
    by (rewrite <- Hjoin; apply lines_unlines; assumption).
  rewrite parseCommitMessage_lines, Hlines.
  destruct Hcases as [(Hblank & -> & ->)
                     | (before & line & after & trims & -> & Hbefore & Hline
                        & Htitle & Htrims & ->)].
  - rewrite dropWhile_all; [split; reflexivity |].
    eapply Forall_impl; [exact Hblank |]. intros l. apply isNil_blank.
  - rewrite dropWhile_app.
    + cbn [fst snd]. rewrite list_ascii_of_string_of_list_ascii, Join_bytes.
      split; [apply trimmedTo_trimBytes; assumption |].
      unfold content. f_equal. f_equal. clear - Htrims.
      induction Htrims as [| l t after trims Hl _ IH]; [reflexivity |].
      cbn [map]. rewrite <- IH, (trimmedTo_trimBytes l t Hl). reflexivity.
    + eapply Forall_impl; [exact Hbefore |]. intros l. apply isNil_blank.
    + destruct (isNil (trimBytes line)) eqn:Hnil; [| reflexivity].
      exfalso. apply Hline, isNil_blank. assumption.
Qed.

(** A message of white space only. *)
Lemma parseCommitMessage_blank (fullMessage : string) :
  blank (B fullMessage) -> parseCommitMessage fullMessage = (""%string, ""%string).
Proof.
  intros Hblank. apply trimBytes_blank in Hblank.
  unfold parseCommitMessage, TrimSpace at 1. rewrite Hblank. reflexivity.
Qed.

End ParseCommitMessage.

(** ** [GetCommits] *)

Section GetCommitsTheorems.

Import Strings Time Git Spec.

Variable hasUnicode : string -> string -> bool.

(** The date test of the callback keeps the instants from [fromDate] to
    24 hours after [toDate], both ends included. *)
Lemma inDateRange_bounds (fromDate toDate : Time) (c : ObjectCommit) :
  inDateRange fromDate toDate c = true
  <-> unixNano fromDate <= unixNano (When (AuthorSig c))
      /\ unixNano (When (AuthorSig c)) <= unixNano toDate + 24 * Hour.
Proof.
  unfold inDateRange, Before, After, Add. cbn [unixNano].
  rewrite negb_true_iff, orb_false_iff, !Z.ltb_ge. reflexivity.
Qed.

(** The commits that the callback appends are those of the walk that pass
    both tests. *)
Lemma forEach_elements (fromDate toDate : Time) (authorEmail : string)
    (walk : list ObjectCommit) (commits : list Commit) :
  forEach hasUnicode fromDate toDate authorEmail walk commits
  = commits ++ map toCommit
      (List.filter (fun c => inDateRange fromDate toDate c
                             && byAuthor hasUnicode authorEmail c) walk).
Proof.
  revert commits. induction walk as [| c walk IH]; intros commits.
  - simpl. rewrite app_nil_r. reflexivity.
  - simpl. destruct (inDateRange fromDate toDate c); simpl; [| apply IH].
    destruct (byAuthor hasUnicode authorEmail c); simpl; [| apply IH].
    rewrite IH, <- app_assoc. reflexivity.
Qed.

(** C1, on the code: with [fromDate] 2024-01-01 and [toDate] 2024-01-31,
    [GetCommits] keeps the commit of the matching author that is timestamped
    2024-02-01 00:00:00, midnight of the day after [toDate], next to the one
    of 2024-01-31 23:59:00; the commit of 2024-02-01 00:00:01 and the commit
    of another author are left out. *)
Theorem GetCommits_keeps_next_midnight :
  GetCommits hasUnicode Example.service Example.fromDate Example.toDate
    "dev@example.com" "main"
  = Ok Example.kept.
Proof. vm_compute. reflexivity. Qed.

(** C2: the list that [GetCommits] returns is ordered newest first: no
    element is before the element that follows it, whatever the order of
    the walk. *)
Theorem GetCommits_newest_first (s : Service) (fromDate toDate : Time)
    (authorEmail branchName : string) (commits : list Commit) :
  GetCommits hasUnicode s fromDate toDate authorEmail branchName = Ok commits ->
  newestFirst commits.
Proof.
  unfold GetCommits. intros Hget.
  destruct (Reference (repo s) _) as [branchRef | err]; [| discriminate].
  destruct (Log (repo s) branchRef) as [commitIter | err]; [| discriminate].
  destruct (failure commitIter); [discriminate |].
  injection Hget as <-.
  apply sorted_newestFirst, sortNewestFirst_sorted.
Qed.

(** The list that [GetCommits] returns holds the commits of the walk that
    pass both tests of the callback, each once. *)
Lemma GetCommits_elements (s : Service) (fromDate toDate : Time)
    (authorEmail branchName branchRef : string) (commitIter : CommitIter)
    (commits : list Commit) :
  Reference (repo s) ("refs/heads/" ++ branchName)%string = Ok branchRef ->
  Log (repo s) branchRef = Ok commitIter ->
  GetCommits hasUnicode s fromDate toDate authorEmail branchName = Ok commits ->
  commits ≡ₚ map toCommit
    (List.filter (fun c => inDateRange fromDate toDate c
                           && byAuthor hasUnicode authorEmail c)
       (yielded commitIter)).
Proof.
  intros Href Hlog. unfold GetCommits. rewrite Href, Hlog.
  destruct (failure commitIter); [discriminate |].
  intros Hget. injection Hget as <-.
  rewrite sortNewestFirst_permutation, forEach_elements. reflexivity.
Qed.

(** [GetCommits] returns a list whenever the reference resolves and the
    walk ends without an error. *)
Lemma GetCommits_returns (s : Service) (fromDate toDate : Time)
    (authorEmail branchName branchRef : string) (commitIter : CommitIter) :
  Reference (repo s) ("refs/heads/" ++ branchName)%string = Ok branchRef ->
  Log (repo s) branchRef = Ok commitIter ->
  failure commitIter = None ->
  exists commits,
    GetCommits hasUnicode s fromDate toDate authorEmail branchName = Ok commits.
Proof.
  intros Href Hlog Hfail. unfold GetCommits. rewrite Href, Hlog, Hfail.
  eexists. reflexivity.
Qed.

End GetCommitsTheorems.

Lemma GetCommits_newest_first_witness :
  Git.GetCommits Example.asciiOnly Example.service Example.fromDate
    Example.toDate "dev@example.com" "main" = Ok Example.kept
  /\ Spec.newestFirst Example.kept.
Proof.
  split; [vm_compute; reflexivity |].
  apply (GetCommits_newest_first Example.asciiOnly Example.service
           Example.fromDate Example.toDate "dev@example.com" "main").
  vm_compute. reflexivity.
Defined.

(** C3, as amended: the lines of a commit message being the strings
    between its line feeds, [parseCommitMessage] returns as title the first
    line that is not white space only, without the white space at its two
    ends, and as description the lines after it, each without the white
    space at its ends, those that are then empty left out, joined with
    single spaces, and nothing else is a title and a description of the
    message in this sense; a message of white space only gives an empty
    title and an empty description; the two examples of the specification,
    and one with white space of several kinds around its lines. *)
Theorem parseCommitMessage_splits :
  (forall fullMessage : string,
     Spec.splitting (list_ascii_of_string fullMessage)
       (list_ascii_of_string (fst (Git.parseCommitMessage fullMessage)))
       (list_ascii_of_string (snd (Git.parseCommitMessage fullMessage))))
  /\ (forall (fullMessage : string) (title description : list ascii),
        Spec.splitting (list_ascii_of_string fullMessage) title description ->
        title = list_ascii_of_string (fst (Git.parseCommitMessage fullMessage))
        /\ description
           = list_ascii_of_string (snd (Git.parseCommitMessage fullMessage)))
  /\ (forall fullMessage : string,
        Spec.blank (list_ascii_of_string fullMessage) ->
        Git.parseCommitMessage fullMessage = (""%string, ""%string))
  /\ Git.parseCommitMessage Example.titleBody
     = ("Title"%string, "Body line 1 Body line 2"%string)
  /\ Git.parseCommitMessage "Solo title" = ("Solo title"%string, ""%string)
  /\ Git.parseCommitMessage Example.untidy
     = ("Title"%string, "Body line 1 Body line 2"%string).
Proof.
  split; [exact parseCommitMessage_splitting |].
  split; [exact splitting_result |].
  split; [exact parseCommitMessage_blank |].
  repeat split; vm_compute; reflexivity.
Qed.

Lemma parseCommitMessage_splits_witness :
  Spec.blank (list_ascii_of_string (" " ++ Config.lf ++ "  "))
  /\ Git.parseCommitMessage (" " ++ Config.lf ++ "  ")%string
     = (""%string, ""%string).
Proof.
  assert (Hblank : Spec.blank (list_ascii_of_string (" " ++ Config.lf ++ "  "))).
  { change (Spec.blank (Spec.encode 32 ++ Spec.encode 10 ++ Spec.encode 32
                          ++ Spec.encode 32 ++ [])).
    repeat (constructor; [apply list_elem_of_In; cbn; tauto |]).
    constructor. }
  split; [exact Hblank |].
  apply (proj1 (proj2 (proj2 parseCommitMessage_splits))). exact Hblank.
Defined.

(** C3 as stated fails: the first line of [Example.trailing] that is not
    empty is ["Title  "], with two spaces at its end, and the title that
    [parseCommitMessage] returns is ["Title"]. *)
Lemma parseCommitMessage_title_not_the_line : ~ Spec.splitClaim Example.trailing.
Proof.
  intros Hclaim.
  destruct (Hclaim [list_ascii_of_string "Title  "; list_ascii_of_string "Body"]
              [] [list_ascii_of_string "Body"] (list_ascii_of_string "Title  "))
    as [Htitle _].
  - split; [reflexivity |]. split; [discriminate |].
    repeat constructor; intros Hin; apply list_elem_of_In in Hin; cbn in Hin;
      repeat (destruct Hin as [Hin | Hin]; [discriminate Hin |]); exact Hin.
  - reflexivity.
  - constructor.
  - intros Hblank. apply blank_spaces in Hblank.
    inversion Hblank as [| c r Hc | c d r Hc Hd | c d e r Hc Hd He];
      subst; vm_compute in *; discriminate.
  - vm_compute in Htitle. discriminate Htitle.
Qed.

(** ** [Validate] *)

(** C9, as amended: [Validate] reports the first rule that the
    configuration violates, in the order template, font size, margins, and
    nothing of the rules after it; it returns no error when no rule is
    violated. *)
Theorem Validate_first_violation (c : Config.Config) :
  Config.Validate c = head (Spec.violations c).
Proof.
  unfold Config.Validate, Spec.violations.
  destruct (String.eqb _ _); [reflexivity |].
  destruct (PrimFloat.leb _ _); [reflexivity |].
  destruct (_ || _)%bool; reflexivity.
Qed.

(** C9 as stated fails: of the three violations of [Example.manyViolations]
    the error names the empty template only. *)
Lemma Validate_not_aggregated : ~ Spec.coversAll Example.manyViolations.
Proof.
  intros Hall.
  destruct (Hall "font size must be positive"%string) as (err & Herr & Hin).
  - vm_compute. apply list_elem_of_In. right. left. reflexivity.
  - vm_compute in Herr. injection Herr as <-. vm_compute in Hin. discriminate.
Qed.

(** ** [Load] and [Save] *)

Section ConfigTheorems.

Import Config Spec.

Variable hasUnicode : string -> string -> bool.
Variable Number : Type.
Variable ParseFloat : Number -> option float.
Variable ParseInt : Number -> option Z.
Variable FormatFloat : float -> Number.
Variable FormatInt : Z -> Number.

Local Notation "'load'" := (Load hasUnicode Number ParseFloat ParseInt).
Local Notation "'save'" := (Save Number FormatFloat FormatInt).
Local Notation "'unmarshal'" := (Unmarshal hasUnicode Number ParseFloat ParseInt).
Local Notation "'marshal'" := (Marshal Number FormatFloat FormatInt).

(** A file that sets the header only is rejected, whatever the header. *)
Lemma Load_header_only (fs : FileSystem Number) (configPath : string)
    (header : JSON Number) :
  configPath <> ""%string ->
  files Number fs !! configPath
    = Some (Some (JObject Number [("header"%string, header)])) ->
  exists err, load fs configPath = Err err.
Proof.
  intros Hpath Hfile. unfold Load.
  destruct (String.eqb_spec configPath "") as [-> | _]; [congruence |].
  rewrite Hfile.
  destruct (readFileError Number fs configPath); [eexists; reflexivity |].
  unfold Unmarshal, unmarshalStruct at 1.
  cbn [unmarshalMembers lookupField find configFields fst snd String.eqb
       Ascii.eqb Bool.eqb setConfigField Header PDF zeroConfig].
  destruct (unmarshalStruct _ _ _ _ header _) as [h | err];
    [| eexists; reflexivity].
  unfold Validate. cbn [Header PDF FontSize zeroPDF].
  destruct (String.eqb (Template h) ""); [eexists; reflexivity |].
  change (0 <=? 0)%float with true. eexists; reflexivity.
Qed.

(** C7, on the code: the configuration file of the README, which sets the
    header only, does not load with the default PDF styling: the fields
    that it leaves out are zero, and [Load] rejects it for its font size. *)
Theorem Load_readme_config_rejected :
  load (Example.fileSystem Number) "my-config.json"
  = Err "invalid configuration: font size must be positive".
Proof. vm_compute. reflexivity. Qed.

(** The strings, numbers and colors of a configuration come back from the
    document as they went in. *)
Hypothesis ParseFloat_FormatFloat :
  forall f : float, is_finite f = true -> ParseFloat (FormatFloat f) = Some f.
Hypothesis ParseInt_FormatInt :
  forall z : Z, isInt64 z -> ParseInt (FormatInt z) = Some z.

Lemma marshalFloat64_finite (f : float) :
  is_finite f = true ->
  marshalFloat64 Number FormatFloat f = Ok (JNumber Number (FormatFloat f)).
Proof.
  unfold is_finite, marshalFloat64. rewrite negb_true_iff, orb_false_iff.
  intros [-> ->]. reflexivity.
Qed.

Lemma unmarshalString_marshalString (s old : string) :
  Utf8.ValidString s = true ->
  unmarshalString Number (marshalString Number s) old = Ok s.
Proof.
  unfold Utf8.ValidString. intros Hs. apply String.eqb_eq in Hs.
  unfold marshalString, unmarshalString. rewrite Hs. reflexivity.
Qed.

Lemma unmarshalFloat64_FormatFloat (f old : float) :
  is_finite f = true ->
  unmarshalFloat64 Number ParseFloat (JNumber Number (FormatFloat f)) old = Ok f.
Proof.
  intros Hf. unfold unmarshalFloat64. rewrite ParseFloat_FormatFloat by assumption.
  reflexivity.
Qed.

Lemma unmarshalColor_marshalColor (c old : Z * Z * Z) :
  colorInt64 c ->
  unmarshalColor Number ParseInt (marshalColor Number FormatInt c) old = Ok c.
Proof.
  destruct c as [[r g] b], old as [[r' g'] b']. intros (Hr & Hg & Hb).
  unfold marshalColor, unmarshalColor, unmarshalElem, unmarshalInt. cbn.
  rewrite !ParseInt_FormatInt by assumption. reflexivity.
Qed.

Lemma Unmarshal_Marshal (c : Config.Config) :
  representable c ->
  exists doc, marshal c = Ok doc /\ unmarshal (Some doc) zeroConfig = Ok c.
Proof.
  intros [Ht Hen Hee Hrn Hloc Hff Hmt Hmb Hml Hmr Hfs Hhc Hcc].
  destruct c as [[t en ee rn loc] [mt mb ml mr ff fsz hc cc]].
  cbn [Header PDF Template ExecutorName ExecutorEmail RecipientName Location
       MarginTop MarginBottom MarginLeft MarginRight FontFamily FontSize
       HeaderColor ContentColor] in *.
  unfold Marshal, marshalPDF, marshalHeader.
  cbn [Header PDF Template ExecutorName ExecutorEmail RecipientName Location
       MarginTop MarginBottom MarginLeft MarginRight FontFamily FontSize
       HeaderColor ContentColor].
  rewrite !marshalFloat64_finite by assumption.
  eexists. split; [reflexivity |].
  pose proof (unmarshalString_marshalString t "" Ht) as Et.
  pose proof (unmarshalString_marshalString en "" Hen) as Een.
  pose proof (unmarshalString_marshalString ee "" Hee) as Eee.
  pose proof (unmarshalString_marshalString rn "" Hrn) as Ern.
  pose proof (unmarshalString_marshalString loc "" Hloc) as Eloc.
  pose proof (unmarshalString_marshalString ff "" Hff) as Eff.
  pose proof (unmarshalFloat64_FormatFloat mt 0 Hmt) as Emt.
  pose proof (unmarshalFloat64_FormatFloat mb 0 Hmb) as Emb.
  pose proof (unmarshalFloat64_FormatFloat ml 0 Hml) as Eml.
  pose proof (unmarshalFloat64_FormatFloat mr 0 Hmr) as Emr.
  pose proof (unmarshalFloat64_FormatFloat fsz 0 Hfs) as Efs.
  pose proof (unmarshalColor_marshalColor hc (0, 0, 0) Hhc) as Ehc.
  pose proof (unmarshalColor_marshalColor cc (0, 0, 0) Hcc) as Ecc.
  remember (marshalString Number t) as jt.
  remember (marshalString Number en) as jen.
  remember (marshalString Number ee) as jee.
  remember (marshalString Number rn) as jrn.
  remember (marshalString Number loc) as jloc.
  remember (marshalString Number ff) as jff.
  remember (JNumber Number (FormatFloat mt)) as jmt.
  remember (JNumber Number (FormatFloat mb)) as jmb.
  remember (JNumber Number (FormatFloat ml)) as jml.
  remember (JNumber Number (FormatFloat mr)) as jmr.
  remember (JNumber Number (FormatFloat fsz)) as jfs.
  remember (marshalColor Number FormatInt hc) as jhc.
  remember (marshalColor Number FormatInt cc) as jcc.
  cbn. rewrite Et. cbn. rewrite Een. cbn. rewrite Eee. cbn. rewrite Ern. cbn.
  rewrite Eloc. cbn. rewrite Emt. cbn. rewrite Emb. cbn. rewrite Eml. cbn.
  rewrite Emr. cbn. rewrite Eff. cbn. rewrite Efs. cbn. rewrite Ehc. cbn.
  rewrite Ecc. reflexivity.
Qed.

(** C8, as amended: a configuration that passes [Validate], whose margins
    and font size are finite, whose strings are valid UTF-8 and whose
    colors are 64-bit integers, saved under a path that is not empty on a
    file system that lets the directory be made, the file be written and
    the file be read, is saved without error and loads from that path as
    it was, field for field. *)
Theorem Save_Load_round_trip (c : Config.Config) (configPath : string)
    (fs : FileSystem Number) :
  Validate c = None ->
  representable c ->
  configPath <> ""%string ->
  mkdirAllError Number fs configPath = None ->
  writeFileError Number fs configPath = None ->
  readFileError Number fs configPath = None ->
  fst (save c configPath fs) = None
  /\ load (snd (save c configPath fs)) configPath = Ok c.
Proof.
  intros Hvalid Hrep Hpath Hmkdir Hwrite Hread.
  destruct (Unmarshal_Marshal c Hrep) as (doc & Hdoc & Hback).
  unfold Save. rewrite Hmkdir, Hdoc, Hwrite. cbn [fst snd].
  split; [reflexivity |].
  unfold Load. destruct (String.eqb_spec configPath "") as [-> | _]; [congruence |].
  cbn [files readFileError].
  rewrite lookup_insert_eq, Hread, Hback, Hvalid. reflexivity.
Qed.

(** When the file that [Save] wrote cannot be read, [Load] returns the
    error of the read, whatever the configuration. *)
Lemma Save_Load_unreadable (c : Config.Config) (configPath err : string)
    (fs : FileSystem Number) :
  configPath <> ""%string ->
  fst (save c configPath fs) = None ->
  readFileError Number fs configPath = Some err ->
  load (snd (save c configPath fs)) configPath
  = Err ("failed to read configuration file: " ++ err).
Proof.
  intros Hpath Hsave Hread. unfold Save in *.
  destruct (mkdirAllError Number fs configPath); [discriminate |].
  destruct (marshal c) as [doc | e]; [| discriminate].
  destruct (writeFileError Number fs configPath); [discriminate |].
  cbn [snd]. unfold Load.
  destruct (String.eqb_spec configPath "") as [-> | _]; [congruence |].
  cbn [files readFileError]. rewrite lookup_insert_eq, Hread. reflexivity.
Qed.

End ConfigTheorems.

Lemma Save_Load_round_trip_witness :
  Config.Validate Config.DefaultConfig = None
  /\ fst (Config.Save Example.Number Example.FormatFloat Example.FormatInt
            Config.DefaultConfig "config.json"
            (Example.fileSystem Example.Number)) = None
  /\ Config.Load Example.asciiOnly Example.Number Example.ParseFloat
       Example.ParseInt
       (snd (Config.Save Example.Number Example.FormatFloat Example.FormatInt
               Config.DefaultConfig "config.json"
               (Example.fileSystem Example.Number)))
       "config.json"
     = Ok Config.DefaultConfig.
Proof.
  split; [vm_compute; reflexivity |].
  apply (Save_Load_round_trip Example.asciiOnly Example.Number
           Example.ParseFloat Example.ParseInt Example.FormatFloat
           Example.FormatInt).
  - intros f _. reflexivity.
  - intros z [Hlo Hhi]. unfold Example.ParseInt, Example.FormatInt.
    apply Z.leb_le in Hlo. apply Z.ltb_lt in Hhi. rewrite Hlo, Hhi. reflexivity.
  - vm_compute. reflexivity.
  - constructor; try (vm_compute; reflexivity);
      vm_compute; repeat split; discriminate.
  - discriminate.
  - reflexivity.
  - reflexivity.
  - reflexivity.
Defined.

(** C8 as stated fails: [Example.infiniteFont] passes [Validate], and
    [Save] cannot marshal it. *)
Lemma Save_infinite_font_fails :
  ~ Spec.roundTripClaim Example.asciiOnly Example.Number Example.ParseFloat
      Example.ParseInt Example.FormatFloat Example.FormatInt
      Example.infiniteFont "config.json" (Example.fileSystem Example.Number).
Proof.
  intros Hclaim. destruct Hclaim as [Hsave _]; [vm_compute; reflexivity |].
  vm_compute in Hsave. discriminate.
Qed.

(** ** The renderer *)

Section GeneratorTheorems.

Import Time Generator Spec.

Variable Executable : result string.
Variable Dir : string -> string.
Variable Join : string -> string -> string.
Variable Abs : string -> result string.
Variable Now : Time.
Variable outputError : list PdfCall -> string -> option string.

(** On an empty commit list [generateCommits] makes two calls and returns. *)
Lemma generateCommits_no_commits (data : ReportData) (w : World) :
  Commits data = [] ->
  generateCommits Now data w
  = (Nil, {| pdf := pdf w ++ [SetFont fontName "I" 11; placeholder];
             stdout := stdout w |}).
Proof.
  intros Hempty. unfold generateCommits. rewrite Hempty.
  unfold bind, call, ret. cbn. rewrite <- app_assoc. reflexivity.
Qed.

(** C4, as amended: given an empty commit list, the renderer of the
    commits section emits the italic placeholder line and nothing after
    it, no summary block, and returns no error. *)
Theorem generateCommits_empty_list (data : ReportData) (w : World) :
  Commits data = [] ->
  fst (generateCommits Now data w) = Nil
  /\ pdf (snd (generateCommits Now data w))
     = pdf w ++ [SetFont fontName "I" 11; placeholder]
  /\ stdout (snd (generateCommits Now data w)) = stdout w.
Proof.
  intros Hempty. rewrite generateCommits_no_commits by assumption.
  repeat split.
Qed.

(** C5, as amended: the first line of the header template and its
    remainder are expanded against the placeholder set; the second line,
    the title, is placed on the page as it stands in the template, its
    placeholders not substituted. *)
Theorem generateHeader_title_verbatim (data : ReportData) (w : World)
    (dateLocLine titleLine : string) (rest : list string)
    (dateTmpl restTmpl : list Template.Node) :
  Strings.Split (Config.Template (Config.Header (Config data))) Strings.newline
    = dateLocLine :: titleLine :: rest ->
  Template.Parse dateLocLine = Template.Tree dateTmpl ->
  Template.Parse (Strings.Join rest Config.lf) = Template.Tree restTmpl ->
  fst (generateHeader data w) = Nil
  /\ pdf (snd (generateHeader data w))
     = pdf w
       ++ [SetFont fontName "" 11;
           Cell 0 10 (Template.Execute dateTmpl (templateData data));
           Ln 12;
           SetFont fontName "B" 16;
           Cell 0 8 titleLine;
           Ln 15;
           SetFont fontName "" 11;
           MultiCell 0 7 (Template.Execute restTmpl (templateData data))
             "" "L" false;
           Ln 5].
Proof.
  intros Hsplit Hdate Hrest. unfold generateHeader.
  rewrite Hsplit. unfold bind, println, call, ret. cbn.
  rewrite Hdate. cbn. rewrite Hrest. cbn.
  split; [reflexivity |]. rewrite <- !app_assoc. reflexivity.
Qed.

(** A key outside the fixed set evaluates to ["<no value>"]. *)
Lemma evalField_missing_key (data : ReportData) (name : string) :
  name ∉ fixedKeys ->
  Template.evalField (templateData data) name = "<no value>"%string.
Proof.
  unfold fixedKeys. rewrite !not_elem_of_cons.
  intros (H1 & H2 & H3 & H4 & H5 & H6 & H7 & H8 & _).
  unfold Template.evalField, templateData.
  rewrite !lookup_insert_ne by congruence. rewrite lookup_empty. reflexivity.
Qed.

(** C6, on the code: in a header whose first line is
    ["Warsaw, {{.current_date}}"] and whose remainder ends with
    ["{{.nickname}}"], neither key in the fixed set, the two placeholders
    are rendered as ["<no value>"], not as the empty string; no error is
    returned. *)
Theorem generateHeader_missing_key :
  fst (generateHeader Example.missingKeyReport emptyWorld) = Nil
  /\ pdf (snd (generateHeader Example.missingKeyReport emptyWorld))
     = [SetFont fontName "" 11;
        Cell 0 10 "Warsaw, <no value>";
        Ln 12;
        SetFont fontName "B" 16;
        Cell 0 8 "Development Report";
        Ln 15;
        SetFont fontName "" 11;
        MultiCell 0 7 "Developer: Dev <no value>" "" "L" false;
        Ln 5].
Proof. split; vm_compute; reflexivity. Qed.

Lemma generateHeader_same (a b : ReportData) :
  sameButStyle a b -> generateHeader a = generateHeader b.
Proof.
  intros (Ht & Hen & Hee & Hrn & Hname & Hpath & Hbranch & _ & Hfrom & Hto & _).
  unfold generateHeader, templateData.
  rewrite Ht, Hen, Hee, Hrn, Hname, Hpath, Hbranch, Hfrom, Hto. reflexivity.
Qed.

Lemma generateCommits_same (a b : ReportData) :
  sameButStyle a b -> generateCommits Now a = generateCommits Now b.
Proof.
  intros (_ & _ & _ & _ & _ & _ & _ & Hauthor & Hfrom & Hto & Hcommits).
  unfold generateCommits. rewrite Hauthor, Hfrom, Hto, Hcommits. reflexivity.
Qed.

(** C10: two report inputs that differ only in the PDF styling of the
    configuration and in the location of the header give the same run of
    [Generate]: the same outcome, the same calls on the document and the
    same lines printed. *)
Theorem Generate_ignores_style (a b : ReportData) (outputPath : string)
    (w : World) :
  sameButStyle a b ->
  Generate Executable Dir Join Abs Now outputError a outputPath w
  = Generate Executable Dir Join Abs Now outputError b outputPath w.
Proof.
  intros Hsame. unfold Generate.
  rewrite (generateHeader_same a b Hsame), (generateCommits_same a b Hsame).
  reflexivity.
Qed.

End GeneratorTheorems.

Lemma generateCommits_empty_list_witness :
  Generator.Commits Example.emptyReport = []
  /\ fst (Generator.generateCommits Example.now Example.emptyReport
            Generator.emptyWorld) = Generator.Nil
  /\ Generator.pdf
       (snd (Generator.generateCommits Example.now Example.emptyReport
               Generator.emptyWorld))
     = [Generator.SetFont Generator.fontName "I" 11; Spec.placeholder].
Proof.
  split; [reflexivity |].
  destruct (generateCommits_empty_list Example.now Example.emptyReport
              Generator.emptyWorld) as (Hnil & Hpdf & _); [reflexivity |].
  split; [exact Hnil | exact Hpdf].
Defined.

(** C4 as stated fails: on the empty commit list of [Example.emptyReport]
    no line with the total commit count is emitted. *)
Lemma generateCommits_empty_no_summary :
  ~ Spec.emptyListClaim Example.now Example.emptyReport Generator.emptyWorld.
Proof.
  intros Hclaim. destruct Hclaim as (_ & _ & Hsummary); [reflexivity |].
  vm_compute in Hsummary.
  apply list_elem_of_In in Hsummary.
  destruct Hsummary as [H | [H | []]]; discriminate H.
Qed.

Lemma generateHeader_title_verbatim_witness :
  fst (Generator.generateHeader Example.titleReport Generator.emptyWorld)
  = Generator.Nil
  /\ Generator.pdf
       (snd (Generator.generateHeader Example.titleReport Generator.emptyWorld))
     = [Generator.SetFont Generator.fontName "" 11;
        Generator.Cell 0 10 "Report 2024-01-01 - 2024-01-31";
        Generator.Ln 12;
        Generator.SetFont Generator.fontName "B" 16;
        Generator.Cell 0 8 "Branch {{.branch_name}}";
        Generator.Ln 15;
        Generator.SetFont Generator.fontName "" 11;
        Generator.MultiCell 0 7 "By Dev" "" "L" false;
        Generator.Ln 5].
Proof.
  apply (generateHeader_title_verbatim Example.titleReport Generator.emptyWorld
           "Report {{.date_from}} - {{.date_to}}" "Branch {{.branch_name}}"
           ["By {{.executor_name}}"%string]
           [Template.TextNode "Report "; Template.FieldNode "date_from";
            Template.TextNode " - "; Template.FieldNode "date_to";
            Template.TextNode ""]
           [Template.TextNode "By "; Template.FieldNode "executor_name";
            Template.TextNode ""]);
    vm_compute; reflexivity.
Defined.

(** C5 as stated fails: the title line of [Example.titleReport],
    ["Branch {{.branch_name}}"], expands to ["Branch main"], and that text
    is not placed on the page. *)
Lemma generateHeader_title_not_expanded :
  ~ Spec.titleExpandedClaim Example.titleReport Generator.emptyWorld.
Proof.
  intros Hclaim.
  specialize (Hclaim "Report {{.date_from}} - {{.date_to}}"%string
                "Branch {{.branch_name}}"%string
                ["By {{.executor_name}}"%string]
                [Template.TextNode "Branch "; Template.FieldNode "branch_name";
                 Template.TextNode ""]).
  assert (Hin := Hclaim ltac:(vm_compute; reflexivity)
                   ltac:(vm_compute; reflexivity)
                   ltac:(vm_compute; reflexivity)).
  vm_compute in Hin. apply list_elem_of_In in Hin. simpl in Hin.
  repeat (destruct Hin as [Hin | Hin]; [discriminate Hin |]).
  exact Hin.
Qed.

Lemma Generate_ignores_style_witness :
  Spec.sameButStyle Example.titleReport Example.restyledReport
  /\ Generator.Generate Example.executable Example.dir Example.join
       Example.abs Example.now Example.noOutputError Example.titleReport
       "report.pdf" Generator.emptyWorld
     = Generator.Generate Example.executable Example.dir Example.join
         Example.abs Example.now Example.noOutputError Example.restyledReport
         "report.pdf" Generator.emptyWorld.
Proof.
  assert (Hsame : Spec.sameButStyle Example.titleReport Example.restyledReport)
    by (repeat split; reflexivity).
  split; [exact Hsame |].
  apply (Generate_ignores_style Example.executable Example.dir Example.join
           Example.abs Example.now Example.noOutputError Example.titleReport
           Example.restyledReport "report.pdf" Generator.emptyWorld Hsame).
Defined.

(** * Further properties of the code *)

(** ** The sort, and what [GetCommits] returns *)

Section SortMore.

Import Time Git Spec.

Lemma innerLoop_in_place (todo pre done : list Commit) (x : Commit) :
  Forall (notNewer x) todo ->
  innerLoop (length todo) (length pre) (length pre + 1 + length done)
    (pre ++ x :: done ++ todo) = pre ++ x :: done ++ todo.
Proof.
  revert done. induction todo as [| y todo IH]; intros done Hall; [reflexivity |].
  inversion Hall as [| ? ? Hy Htodo]; subst.
  simpl innerLoop. rewrite exchange_at.
  assert (Hxy : Before (Date x) (Date y) = false)
    by (unfold Before; apply Z.ltb_ge; exact Hy).
  rewrite Hxy.
  replace (S (length pre + 1 + length done))
    with (length pre + 1 + length (done ++ [y]))%nat
    by (rewrite length_app; simpl; lia).
  replace (pre ++ x :: done ++ y :: todo)
    with (pre ++ x :: (done ++ [y]) ++ todo)
    by (rewrite <- app_assoc; reflexivity).
  apply IH. assumption.
Qed.

Lemma outerLoop_in_place (n : nat) (pre rest : list Commit) :
  n = (length rest - 1)%nat ->
  StronglySorted notNewer rest ->
  outerLoop n (length pre) (pre ++ rest) = pre ++ rest.
Proof.
  revert pre rest. induction n as [| n IH]; intros pre rest Hn Hsorted;
    [reflexivity |].
  destruct rest as [| x rest]; [simpl in Hn; lia |].
  inversion Hsorted as [| ? ? Hrest Hx]; subst.
  simpl outerLoop.
  replace (length (pre ++ x :: rest) - S (length pre))%nat with (length rest)
    by (rewrite length_app; simpl; lia).
  pose proof (innerLoop_in_place rest pre [] x Hx) as Hrun.
  simpl in Hrun.
  replace (length pre + 1 + 0)%nat with (S (length pre)) in Hrun by lia.
  rewrite Hrun.
  replace (S (length pre)) with (length (pre ++ [x]))
    by (rewrite length_app; simpl; lia).
  replace (pre ++ x :: rest) with ((pre ++ [x]) ++ rest)
    by (rewrite <- app_assoc; reflexivity).
  apply IH; [simpl in Hn; lia | assumption].
Qed.

(** Adjacent order is order all along: timestamps are compared as numbers. *)
Lemma newestFirst_sorted (l : list Commit) :
  newestFirst l -> StronglySorted notNewer l.
Proof.
  induction l as [| a l IH]; intros Hl; [constructor |].
  assert (Htail : newestFirst l).
  { intros i x y Hx Hy. exact (Hl (S i) x y Hx Hy). }
  specialize (IH Htail). constructor; [assumption |].
  destruct l as [| b l]; [constructor |].
  assert (Hab : notNewer a b).
  { specialize (Hl 0%nat a b eq_refl eq_refl). unfold Before in Hl.
    apply Z.ltb_ge in Hl. exact Hl. }
  inversion IH as [| ? ? _ Hb]; subst.
  constructor; [assumption |].
  eapply Forall_impl; [exact Hb |]. unfold notNewer in *. intros c Hc. lia.
Qed.

(** X1: a list of commits that is already ordered newest first comes out
    of the sort of [GetCommits] as it went in: no element changes its
    place, commits with equal timestamps included. *)
Theorem sortNewestFirst_ordered_unchanged (commits : list Commit) :
  newestFirst commits -> sortNewestFirst commits = commits.
Proof.
  intros Hordered. unfold sortNewestFirst.
  apply (outerLoop_in_place (length commits - 1) [] commits); [reflexivity |].
  apply newestFirst_sorted. assumption.
Qed.

End SortMore.

Lemma sortNewestFirst_ordered_unchanged_witness :
  Spec.newestFirst Example.kept /\ Git.sortNewestFirst Example.kept = Example.kept.
Proof.
  assert (Hordered : Spec.newestFirst Example.kept).
  { intros [| [| i]] a b Ha Hb; simpl in Ha, Hb; try discriminate.
    injection Ha as <-. injection Hb as <-. vm_compute. reflexivity. }
  split; [exact Hordered |].
  apply (sortNewestFirst_ordered_unchanged Example.kept Hordered).
Defined.

Section GetCommitsMore.

Import Strings Time Git Spec.

Variable hasUnicode : string -> string -> bool.

(** X2: when the branch resolves and the walk ends without error,
    [GetCommits] returns a list that holds exactly the commits of the walk
    whose author timestamp lies between [fromDate] and 24 hours after
    [toDate], both included, and whose author address equals [authorEmail]
    under [EqualFold], each converted by the callback; no commit is lost
    or added by the sort. *)
Theorem GetCommits_exactly_the_matching (s : Service) (fromDate toDate : Time)
    (authorEmail branchName branchRef : string) (commitIter : CommitIter) :
  Reference (repo s) ("refs/heads/" ++ branchName)%string = Ok branchRef ->
  Log (repo s) branchRef = Ok commitIter ->
  failure commitIter = None ->
  exists commits,
    GetCommits hasUnicode s fromDate toDate authorEmail branchName = Ok commits
    /\ length commits
       = length (List.filter
                   (fun c => inDateRange fromDate toDate c
                             && byAuthor hasUnicode authorEmail c)
                   (yielded commitIter))
    /\ forall commit : Commit,
         commit ∈ commits <->
         exists c : ObjectCommit,
           c ∈ yielded commitIter
           /\ unixNano fromDate <= unixNano (When (AuthorSig c))
              <= unixNano toDate + 24 * Hour
           /\ EqualFold hasUnicode (Email (AuthorSig c)) authorEmail = true
           /\ commit = toCommit c.
Proof.
  intros Href Hlog Hfail.
  destruct (GetCommits_returns hasUnicode s fromDate toDate authorEmail
              branchName branchRef commitIter Href Hlog Hfail) as (commits & Hget).
  exists commits. split; [exact Hget |].
  pose proof (GetCommits_elements hasUnicode s fromDate toDate authorEmail
                branchName branchRef commitIter commits Href Hlog Hget) as Hperm.
  split.
  - rewrite Hperm, length_map. reflexivity.
  - intros commit. rewrite Hperm, list_elem_of_In, in_map_iff. split.
    + intros (c & <- & Hc). apply filter_In in Hc. destruct Hc as [Hin Htests].
      apply andb_true_iff in Htests. destruct Htests as [Hdate Hauthor].
      apply inDateRange_bounds in Hdate.
      exists c. split; [apply list_elem_of_In; assumption |].
      split; [exact Hdate |]. split; [exact Hauthor | reflexivity].
    + intros (c & Hin & Hdate & Hauthor & ->).
      exists c. split; [reflexivity |]. apply filter_In.
      split; [apply list_elem_of_In; assumption |].
      apply andb_true_iff. split; [apply inDateRange_bounds; exact Hdate |].
      exact Hauthor.
Qed.

End GetCommitsMore.

Lemma GetCommits_exactly_the_matching_witness :
  exists commits,
    Git.GetCommits Example.asciiOnly Example.service Example.fromDate
      Example.toDate "dev@example.com" "main" = Ok commits
    /\ length commits = 2%nat.
Proof.
  destruct (GetCommits_exactly_the_matching Example.asciiOnly Example.service
              Example.fromDate Example.toDate "dev@example.com" "main"
              "1f0e3dad99908345f7439f8ffabdffc4a53d1c2b"
              {| Git.yielded := Example.walk; Git.failure := None |})
    as (commits & Hget & Hlen & _); try reflexivity.
  exists commits. split; [exact Hget |]. rewrite Hlen. vm_compute. reflexivity.
Defined.

(** ** The title and the description of a commit *)

Section ParseMore.

Import Strings Spec Git.

Local Notation "'S'" := string_of_list_ascii.
Local Notation "'B'" := list_ascii_of_string.

Ltac bytes :=
  cbv beta iota zeta delta [space2 space3 space2r space3r asciiSpace] in *;
  change (byte " "%char) with 32%N in *;
  repeat (progress rewrite ?andb_true_iff, ?orb_true_iff, ?andb_false_iff,
            ?orb_false_iff, ?N.eqb_eq, ?N.eqb_neq, ?N.leb_le, ?N.leb_gt in * );
  try lia.

(** What [trimBytes] returns is a piece of the sequence. *)
Lemma trimBytes_piece (x : list ascii) : exists a b, x = a ++ trimBytes x ++ b.
Proof.
  unfold trimBytes.
  destruct (trimHead_split space2 space3 x) as (a & Ha & _).
  destruct (trimRight_split (trimLeftBytes x)) as (b & Hb & _).
  exists a, b. rewrite <- Hb. exact Ha.
Qed.

Lemma trimBytes_elem (c : ascii) (x : list ascii) : c ∈ trimBytes x -> c ∈ x.
Proof.
  intros Hc. destruct (trimBytes_piece x) as (a & b & Hx). rewrite Hx.
  rewrite !elem_of_app. right. left. assumption.
Qed.

Lemma trimBytes_idempotent (x : list ascii) :
  trimBytes (trimBytes x) = trimBytes x.
Proof.
  unfold trimBytes at 1. rewrite trimBytes_clean.
  unfold trimBytes. apply trimRight_idempotent.
Qed.

Lemma spaced_snoc (ls : list (list ascii)) (l : list ascii) :
  ls <> [] -> spaced (ls ++ [l]) = spaced ls ++ " "%char :: l.
Proof.
  induction ls as [| l0 ls IH]; intros Hne; [congruence |].
  destruct ls as [| l1 ls]; [reflexivity |].
  change (spaced ((l0 :: l1 :: ls) ++ [l]))
    with (l0 ++ " "%char :: spaced ((l1 :: ls) ++ [l])).
  rewrite IH by discriminate.
  change (spaced (l0 :: l1 :: ls)) with (l0 ++ " "%char :: spaced (l1 :: ls)).
  rewrite <- app_assoc. reflexivity.
Qed.

Lemma spaced_no_newline (ls : list (list ascii)) :
  Forall (fun l => newline ∉ l) ls -> newline ∉ spaced ls.
Proof.
  induction 1 as [| l ls Hl _ IH]; [apply not_elem_of_nil |].
  destruct ls as [| l' ls]; [exact Hl |].
  change (spaced (l :: l' :: ls)) with (l ++ " "%char :: spaced (l' :: ls)).
  rewrite elem_of_app, elem_of_cons. intros [H | [H | H]];
    [contradiction | discriminate | contradiction].
Qed.

Lemma content_no_newline (ls : list (list ascii)) :
  Forall (fun l => newline ∉ l) ls -> Forall (fun l => newline ∉ l) (content ls).
Proof.
  unfold content. intros Hall. apply Forall_forall. intros l Hl.
  apply list_elem_of_filter in Hl. destruct Hl as [_ Hl].
  apply list_elem_of_fmap in Hl. destruct Hl as (l' & -> & Hl').
  rewrite Forall_forall in Hall. intros Hin. apply (Hall l' Hl').
  apply trimBytes_elem. assumption.
Qed.

Lemma content_trimmed (ls : list (list ascii)) :
  Forall (fun l => trimBytes l = l /\ l <> []) (content ls).
Proof.
  unfold content. apply Forall_forall. intros l Hl.
  apply list_elem_of_filter in Hl. destruct Hl as [Hne Hl].
  apply list_elem_of_fmap in Hl. destruct Hl as (l' & -> & _).
  split; [apply trimBytes_idempotent | assumption].
Qed.

(** A space after a sequence that ends with no white space, or before one
    that starts with none, is not taken for a part of a rune. *)
Lemma trimLeft_before_space (x r : list ascii) :
  trimLeftBytes x = x -> x <> [] ->
  trimLeftBytes (x ++ " "%char :: r) = x ++ " "%char :: r.
Proof.
  unfold trimLeftBytes. intros Hclean Hx.
  assert (Hlen : forall r, (length (trimHead space2 space3 r) <= length r)%nat)
    by apply trimHead_length.
  destruct x as [| c0 x]; [congruence |].
  assert (Ec : asciiSpace c0 = false).
  { destruct (asciiSpace c0) eqn:Ec; [| reflexivity].
    rewrite trimHead_one in Hclean by assumption.
    specialize (Hlen x). rewrite Hclean in Hlen. simpl in Hlen. lia. }
  destruct x as [| c1 x].
  { simpl. rewrite Ec.
    assert (E2 : space2 c0 " "%char = false) by bytes. rewrite E2.
    destruct r as [| e r]; [reflexivity |].
    assert (E3 : space3 c0 " "%char e = false) by bytes. rewrite E3. reflexivity. }
  assert (E2 : space2 c0 c1 = false).
  { destruct (space2 c0 c1) eqn:E2; [| reflexivity].
    rewrite trimHead_two in Hclean by assumption.
    specialize (Hlen x). rewrite Hclean in Hlen. simpl in Hlen. lia. }
  destruct x as [| c2 x].
  { simpl. rewrite Ec, E2.
    assert (E3 : space3 c0 c1 " "%char = false) by bytes. rewrite E3. reflexivity. }
  simpl in Hclean |- *. rewrite Ec, E2 in Hclean |- *.
  destruct (space3 c0 c1 c2) eqn:E3; [| reflexivity].
  specialize (Hlen x). rewrite Hclean in Hlen. simpl in Hlen. lia.
Qed.

Lemma trimRight_after_space (p x : list ascii) :
  trimRightBytes x = x -> x <> [] ->
  trimRightBytes (p ++ " "%char :: x) = p ++ " "%char :: x.
Proof.
  unfold trimRightBytes. intros Hclean Hx.
  assert (Hrev : trimHead space2r space3r (rev x) = rev x).
  { apply (f_equal (@rev ascii)) in Hclean. rewrite rev_involutive in Hclean.
    exact Hclean. }
  assert (Hne : rev x <> []).
  { intros Hnil. apply Hx. rewrite <- (rev_involutive x), Hnil. reflexivity. }
  replace (rev (p ++ " "%char :: x)) with (rev x ++ " "%char :: rev p)
    by (rewrite rev_app_distr; simpl; rewrite <- app_assoc; reflexivity).
  assert (Hkeep : trimHead space2r space3r (rev x ++ " "%char :: rev p)
                  = rev x ++ " "%char :: rev p).
  { assert (Hlen : forall r, (length (trimHead space2r space3r r) <= length r)%nat)
      by apply trimHead_length.
    remember (rev x) as y eqn:Hy. clear Hy Hclean Hx x.
    remember (rev p) as r eqn:Hr. clear Hr p.
    destruct y as [| c0 y]; [congruence |].
    assert (Ec : asciiSpace c0 = false).
    { destruct (asciiSpace c0) eqn:Ec; [| reflexivity].
      rewrite trimHead_one in Hrev by assumption.
      specialize (Hlen y). rewrite Hrev in Hlen. simpl in Hlen. lia. }
    destruct y as [| c1 y].
    { cbn [app trimHead]. rewrite Ec.
      assert (E2 : space2r c0 " "%char = false) by bytes. rewrite E2.
      destruct r as [| e r]; [reflexivity |].
      assert (E3 : space3r c0 " "%char e = false) by bytes. rewrite E3.
      reflexivity. }
    assert (E2 : space2r c0 c1 = false).
    { destruct (space2r c0 c1) eqn:E2; [| reflexivity].
      rewrite trimHead_two in Hrev by assumption.
      specialize (Hlen y). rewrite Hrev in Hlen. simpl in Hlen. lia. }
    destruct y as [| c2 y].
    { cbn [app trimHead]. rewrite Ec, E2.
      assert (E3 : space3r c0 c1 " "%char = false) by bytes. rewrite E3.
      reflexivity. }
    cbn [app trimHead] in Hrev |- *. rewrite Ec, E2 in Hrev |- *.
    destruct (space3r c0 c1 c2) eqn:E3; [| reflexivity].
    specialize (Hlen y). rewrite Hrev in Hlen. simpl in Hlen. lia. }
  rewrite Hkeep, rev_app_distr. simpl. rewrite !rev_involutive, <- app_assoc.
  reflexivity.
Qed.

Lemma trimmed_both (l : list ascii) :
  trimBytes l = l -> trimLeftBytes l = l /\ trimRightBytes l = l.
Proof.
  intros Hl. split.
  - rewrite <- Hl. apply trimBytes_clean.
  - rewrite <- Hl at 1. unfold trimBytes. rewrite trimRight_idempotent. exact Hl.
Qed.

Lemma spaced_trimmed (ls : list (list ascii)) :
  Forall (fun l => trimBytes l = l /\ l <> []) ls ->
  trimBytes (spaced ls) = spaced ls.
Proof.
  intros Hall.
  assert (Hleft : trimLeftBytes (spaced ls) = spaced ls).
  { destruct Hall as [| l ls [Hl Hne] Hrest]; [reflexivity |].
    destruct (trimmed_both l Hl) as [Hclean _].
    destruct ls as [| l' ls]; [exact Hclean |].
    change (spaced (l :: l' :: ls)) with (l ++ " "%char :: spaced (l' :: ls)).
    apply trimLeft_before_space; assumption. }
  unfold trimBytes. rewrite Hleft.
  assert (Hcase : ls = [] \/ exists init l, ls = init ++ [l])
    by (destruct ls using rev_ind; eauto).
  destruct Hcase as [-> | (init & l & ->)]; [reflexivity |].
  apply Forall_app in Hall. destruct Hall as [_ Hlast].
  inversion Hlast as [| ? ? [Hl Hne] _]; subst.
  destruct (trimmed_both l Hl) as [_ Hclean].
  destruct init as [| l0 init]; [exact Hclean |].
  rewrite spaced_snoc by discriminate.
  apply trimRight_after_space; assumption.
Qed.

Lemma title_no_newline (fullMessage : string) :
  newline ∉ B (fst (parseCommitMessage fullMessage)).
Proof.
  rewrite parseCommitMessage_bytes. cbv zeta. cbn [fst].
  pose proof (lines_no_newline (trimBytes (B fullMessage))) as Hlines.
  rewrite (lines_hd_tl (trimBytes (B fullMessage))) in Hlines.
  inversion Hlines as [| ? ? Hhd Htl]; subst.
  rewrite list_ascii_of_string_of_list_ascii.
  intros Hin. apply Hhd, trimBytes_elem. assumption.
Qed.

Lemma title_trimmed (fullMessage : string) :
  TrimSpace (fst (parseCommitMessage fullMessage))
  = fst (parseCommitMessage fullMessage).
Proof.
  rewrite parseCommitMessage_bytes. cbv zeta. cbn [fst].
  rewrite TrimSpace_bytes, trimBytes_idempotent. reflexivity.
Qed.

(** X3: the title and the description that [parseCommitMessage] returns
    hold no line feed. *)
Theorem parseCommitMessage_single_line (fullMessage : string) :
  (newline ∉ B (fst (parseCommitMessage fullMessage)))
  /\ (newline ∉ B (snd (parseCommitMessage fullMessage))).
Proof.
  split; [apply title_no_newline |].
  rewrite parseCommitMessage_bytes. cbv zeta. cbn [snd].
  pose proof (lines_no_newline (trimBytes (B fullMessage))) as Hlines.
  rewrite (lines_hd_tl (trimBytes (B fullMessage))) in Hlines.
  inversion Hlines as [| ? ? Hhd Htl]; subst.
  rewrite Join_bytes. apply spaced_no_newline, content_no_newline. assumption.
Qed.

(** X4: the title and the description that [parseCommitMessage] returns
    have no white space at their ends: [TrimSpace] leaves each of them as
    it is. *)
Theorem parseCommitMessage_trimmed (fullMessage : string) :
  TrimSpace (fst (parseCommitMessage fullMessage))
  = fst (parseCommitMessage fullMessage)
  /\ TrimSpace (snd (parseCommitMessage fullMessage))
     = snd (parseCommitMessage fullMessage).
Proof.
  split; [apply title_trimmed |].
  rewrite parseCommitMessage_bytes. cbv zeta. cbn [snd].
  unfold TrimSpace. rewrite Join_bytes.
  rewrite spaced_trimmed by apply content_trimmed.
  rewrite <- Join_bytes. apply string_of_list_ascii_of_string.
Qed.

(** X5: a commit without a title has no description either: when the
    title that [parseCommitMessage] returns is empty, so is the
    description. *)
Theorem parseCommitMessage_no_title_no_description (fullMessage : string) :
  fst (parseCommitMessage fullMessage) = ""%string ->
  snd (parseCommitMessage fullMessage) = ""%string.
Proof.
  rewrite parseCommitMessage_bytes. cbv zeta. cbn [fst snd].
  pose proof (lines_content (B fullMessage)) as Hcode. cbv zeta in Hcode.
  pose proof (content_trimmed (lines (B fullMessage))) as Hall.
  destruct (content (lines (B fullMessage))) as [| t rest].
  - destruct Hcode as [_ ->]. reflexivity.
  - destruct Hcode as [-> _]. inversion Hall as [| ? ? [_ Hne] _]; subst.
    intros Htitle. apply string_nil in Htitle. contradiction.
Qed.

(** X6: the title is a message of its own: [parseCommitMessage] applied to
    the title that it returned gives that title again, with an empty
    description. *)
Theorem parseCommitMessage_title_again (fullMessage : string) :
  parseCommitMessage (fst (parseCommitMessage fullMessage))
  = (fst (parseCommitMessage fullMessage), ""%string).
Proof.
  pose proof (title_no_newline fullMessage) as Hline.
  pose proof (title_trimmed fullMessage) as Htrim.
  remember (fst (parseCommitMessage fullMessage)) as title eqn:Htitle.
  clear Htitle. unfold parseCommitMessage. rewrite Htrim.
  unfold Split. fold (lines (B title)). rewrite lines_single by assumption.
  cbn [map]. rewrite string_of_list_ascii_of_string, Htrim. reflexivity.
Qed.

End ParseMore.

Lemma parseCommitMessage_no_title_no_description_witness :
  fst (Git.parseCommitMessage (" " ++ Config.lf ++ "  ")) = ""%string
  /\ snd (Git.parseCommitMessage (" " ++ Config.lf ++ "  ")) = ""%string.
Proof.
  split; [vm_compute; reflexivity |].
  apply (parseCommitMessage_no_title_no_description (" " ++ Config.lf ++ "  ")).
  vm_compute. reflexivity.
Defined.

(** ** What [Load] accepts and what [Save] writes *)

Section LoadMore.

Import Config.

Variable hasUnicode : string -> string -> bool.
Variable Number : Type.
Variable ParseFloat : Number -> option float.
Variable ParseInt : Number -> option Z.
Variable FormatFloat : float -> Number.
Variable FormatInt : Z -> Number.

Local Notation "'load'" := (Load hasUnicode Number ParseFloat ParseInt).
Local Notation "'save'" := (Save Number FormatFloat FormatInt).

(** A part of a structure that no field but [f0] writes is as it was after
    the members of an object are decoded, unless a key names [f0]. *)
Lemma unmarshalMembers_untouched {F S A : Type} (fields : list (string * F))
    (setField : F -> JSON Number -> S -> result S) (proj : S -> A) (f0 : F) :
  (forall f, f = f0 \/ f <> f0) ->
  (forall f v s s', f <> f0 -> setField f v s = Ok s' -> proj s' = proj s) ->
  forall members s s',
    unmarshalMembers hasUnicode Number fields setField members s = Ok s' ->
    (exists key v, (key, v) ∈ members
                   /\ lookupField hasUnicode fields key = Some f0)
    \/ proj s' = proj s.
Proof.
  intros Hdec Hother members.
  induction members as [| [key v] rest IH]; intros s s' Hrun.
  - injection Hrun as <-. right. reflexivity.
  - cbn [unmarshalMembers] in Hrun.
    destruct (lookupField hasUnicode fields key) as [f |] eqn:Hkey.
    + destruct (Hdec f) as [-> | Hf].
      * left. exists key, v. split; [apply list_elem_of_here | assumption].
      * destruct (setField f v s) as [s1 | err] eqn:Hset; [| discriminate].
        destruct (IH s1 s' Hrun) as [(key' & v' & Hin & Hname) | Hkeep].
        -- left. exists key', v'. split; [apply list_elem_of_further |]; assumption.
        -- right. rewrite Hkeep. apply (Hother f v); assumption.
    + destruct (IH s s' Hrun) as [(key' & v' & Hin & Hname) | Hkeep].
      * left. exists key', v'. split; [apply list_elem_of_further |]; assumption.
      * right. assumption.
Qed.

(** X7: every configuration that [Load] returns passes [Validate], the
    default one included. *)
Theorem Load_validated (fs : FileSystem Number) (configPath : string)
    (config : Config.Config) :
  load fs configPath = Ok config -> Validate config = None.
Proof.
  unfold Load. destruct (String.eqb configPath "").
  - intros Hload. injection Hload as <-. vm_compute. reflexivity.
  - destruct (files Number fs !! configPath) as [data |]; [| discriminate].
    destruct (readFileError Number fs configPath); [discriminate |].
    destruct (Unmarshal _ _ _ _ data zeroConfig) as [c | err]; [| discriminate].
    destruct (Validate c) eqn:Hvalid; [discriminate |].
    intros Hload. injection Hload as <-. exact Hvalid.
Qed.

(** X8: a configuration file that [Load] accepts is a JSON object with a
    member that names the [header] field and a member that names the [pdf]
    field: the fields that a file leaves out are zero, not the defaults,
    and [Validate] rejects an empty template as well as a font size of
    zero. *)
Theorem Load_needs_header_and_pdf (fs : FileSystem Number) (configPath : string)
    (config : Config.Config) :
  configPath <> ""%string ->
  load fs configPath = Ok config ->
  exists members,
    files Number fs !! configPath = Some (Some (JObject Number members))
    /\ (exists key v, (key, v) ∈ members
          /\ lookupField hasUnicode configFields key = Some FHeader)
    /\ (exists key v, (key, v) ∈ members
          /\ lookupField hasUnicode configFields key = Some FPDF).
Proof.
  intros Hpath. unfold Load.
  destruct (String.eqb_spec configPath "") as [-> | _]; [congruence |].
  destruct (files Number fs !! configPath) as [data |]; [| discriminate].
  destruct (readFileError Number fs configPath); [discriminate |].
  destruct (Unmarshal _ _ _ _ data zeroConfig) as [c | err] eqn:Hdoc;
    [| discriminate].
  destruct (Validate c) eqn:Hvalid; [discriminate |].
  intros Hload. injection Hload as <-.
  assert (Htemplate : Template (Header c) <> ""%string).
  { intros Hempty. unfold Validate in Hvalid. rewrite Hempty in Hvalid.
    discriminate. }
  assert (Hsize : FontSize (PDF c) <> 0%float).
  { intros Hzero. unfold Validate in Hvalid. rewrite Hzero in Hvalid.
    destruct (String.eqb _ _); discriminate. }
  destruct data as [doc |]; [| discriminate].
  destruct doc as [| b | n | s | elems | members]; try discriminate.
  { injection Hdoc as <-. contradiction Htemplate. reflexivity. }
  exists members. split; [reflexivity |].
  cbn [Unmarshal unmarshalStruct] in Hdoc. split.
  - destruct (unmarshalMembers_untouched configFields
                (setConfigField hasUnicode Number ParseFloat ParseInt)
                Header FHeader) with (members := members) (s := zeroConfig)
                                     (s' := c) as [Hmember | Hkeep].
    + intros [|]; [left; reflexivity | right; discriminate].
    + intros [|] v s s' Hf Hset; [congruence |].
      cbn [setConfigField] in Hset.
      destruct (unmarshalStruct _ _ _ _ v (PDF s)); [| discriminate].
      injection Hset as <-. reflexivity.
    + exact Hdoc.
    + exact Hmember.
    + rewrite Hkeep in Htemplate. contradiction Htemplate. reflexivity.
  - destruct (unmarshalMembers_untouched configFields
                (setConfigField hasUnicode Number ParseFloat ParseInt)
                PDF FPDF) with (members := members) (s := zeroConfig)
                               (s' := c) as [Hmember | Hkeep].
    + intros [|]; [right; discriminate | left; reflexivity].
    + intros [|] v s s' Hf Hset; [| congruence].
      cbn [setConfigField] in Hset.
      destruct (unmarshalStruct _ _ _ _ v (Header s)); [| discriminate].
      injection Hset as <-. reflexivity.
    + exact Hdoc.
    + exact Hmember.
    + rewrite Hkeep in Hsize. contradiction Hsize. reflexivity.
Qed.

Lemma marshalFloat64_cases (f : float) :
  (is_finite f = true
   /\ marshalFloat64 Number FormatFloat f = Ok (JNumber Number (FormatFloat f)))
  \/ (is_finite f = false
      /\ exists err, marshalFloat64 Number FormatFloat f = Err err).
Proof.
  unfold is_finite, marshalFloat64.
  destruct (is_nan f); [right; split; [reflexivity | eexists; reflexivity] |].
  destruct (is_infinity f); [right; split; [reflexivity | eexists; reflexivity] |].
  left. split; reflexivity.
Qed.

(** X9: [Save] returns no error exactly when the directory can be made,
    the four margins and the font size are finite numbers, and the file can
    be written; the file then holds the document of the configuration. *)
Theorem Save_succeeds_iff (c : Config.Config) (configPath : string)
    (fs : FileSystem Number) :
  (fst (save c configPath fs) = None
   <-> mkdirAllError Number fs configPath = None
       /\ is_finite (MarginTop (PDF c)) = true
       /\ is_finite (MarginBottom (PDF c)) = true
       /\ is_finite (MarginLeft (PDF c)) = true
       /\ is_finite (MarginRight (PDF c)) = true
       /\ is_finite (FontSize (PDF c)) = true
       /\ writeFileError Number fs configPath = None)
  /\ (fst (save c configPath fs) = None ->
      exists doc, Marshal Number FormatFloat FormatInt c = Ok doc
        /\ files Number (snd (save c configPath fs)) !! configPath
           = Some (Some doc)).
Proof.
  unfold Save, Marshal, marshalPDF.
  destruct (mkdirAllError Number fs configPath) as [err |];
    [split; [split; [discriminate | intros [H _]; discriminate H]
            | discriminate] |].
  destruct (marshalFloat64_cases (MarginTop (PDF c))) as [[-> ->] | [-> [e ->]]];
    [| split; [split; [discriminate | intros (_ & H & _); discriminate H]
              | discriminate]].
  destruct (marshalFloat64_cases (MarginBottom (PDF c))) as [[-> ->] | [-> [e ->]]];
    [| split; [split; [discriminate | intros (_ & _ & H & _); discriminate H]
              | discriminate]].
  destruct (marshalFloat64_cases (MarginLeft (PDF c))) as [[-> ->] | [-> [e ->]]];
    [| split; [split; [discriminate | intros (_ & _ & _ & H & _); discriminate H]
              | discriminate]].
  destruct (marshalFloat64_cases (MarginRight (PDF c))) as [[-> ->] | [-> [e ->]]];
    [| split; [split; [discriminate
                      | intros (_ & _ & _ & _ & H & _); discriminate H]
              | discriminate]].
  destruct (marshalFloat64_cases (FontSize (PDF c))) as [[-> ->] | [-> [e ->]]];
    [| split; [split; [discriminate
                      | intros (_ & _ & _ & _ & _ & H & _); discriminate H]
              | discriminate]].
  destruct (writeFileError Number fs configPath) as [err |];
    [split; [split; [discriminate
                    | intros (_ & _ & _ & _ & _ & _ & H); discriminate H]
            | discriminate] |].
  cbn [fst snd files]. split.
  - split; [intros _; repeat split | reflexivity].
  - intros _. eexists. split; [reflexivity |]. apply lookup_insert_eq.
Qed.

End LoadMore.

(** ** The sections of the report *)

Section GeneratorMore.

Import Strings Time Generator Spec Page.

Variable Executable : result string.
Variable Dir : string -> string.
Variable Join : string -> string -> string.
Variable Abs : string -> result string.
Variable Now : Time.
Variable outputError : list PdfCall -> string -> option string.

Local Notation "'S'" := string_of_list_ascii.
Local Notation "'B'" := list_ascii_of_string.

(** The fill color of the row with index [i]. *)
Local Notation "'shade' i" :=
  (if (i mod 2 =? 1)%nat then (245, 245, 245) else (255, 255, 255))
  (at level 10, i at level 9).

(** Running a computation step by step. *)
Lemma bind_call {T : Type} (c : PdfCall) (f : unit -> M T)
    (p : list PdfCall) (o : list string) :
  bind (call c) f {| pdf := p; stdout := o |}
  = f tt {| pdf := p ++ [c]; stdout := o |}.
Proof. reflexivity. Qed.

Lemma bind_println {T : Type} (line : string) (f : unit -> M T)
    (p : list PdfCall) (o : list string) :
  bind (println line) f {| pdf := p; stdout := o |}
  = f tt {| pdf := p; stdout := o ++ [line] |}.
Proof. reflexivity. Qed.

Lemma bind_ret {T U : Type} (a : T) (f : T -> M U) (w : World) :
  bind (ret a) f w = f a w.
Proof. reflexivity. Qed.

Lemma bind_bind {T U V : Type} (m : M T) (f : T -> M U) (g : U -> M V)
    (w : World) :
  bind (bind m f) g w = bind m (fun a => bind (f a) g) w.
Proof. unfold bind. destruct (m w). reflexivity. Qed.

Lemma bind_run {T U : Type} (m : M T) (f : T -> M U) (w w' : World) (a : T) :
  m w = (a, w') -> bind m f w = f a w'.
Proof. intros Hrun. unfold bind. rewrite Hrun. reflexivity. Qed.

Ltac run :=
  repeat (first [rewrite bind_bind | rewrite bind_call | rewrite bind_println
                | rewrite bind_ret];
          cbv beta).

(** The rows: the calls that [commitRows] adds, and what they show. *)
Lemma commitRows_calls (commits : list Git.Commit) (i : nat) :
  exists calls,
    (forall w, commitRows i commits w
               = (tt, {| pdf := pdf w ++ calls; stdout := stdout w |}))
    /\ cellTexts 30 7 calls = map (fun c => FormatDate (Git.Date c)) commits
    /\ cellTexts 25 7 calls = map Git.SHA commits
    /\ multiCellTexts calls
       = map (fun c => (Git.Message c ++ Config.lf ++ Git.Description c)%string)
           commits
    /\ fillColors calls = map (fun k => shade k) (seq i (length commits))
    /\ Forall (fun c => match c with
                        | SetFillColor _ _ _ | CellFormat _ _ _ _ _ _ _ _ _
                        | MultiCell _ _ _ _ _ _ => True
                        | _ => False
                        end) calls.
Proof.
  revert i. induction commits as [| commit rest IH]; intros i.
  - exists []. split; [| repeat split; constructor].
    intros [p o]. cbn. rewrite app_nil_r. reflexivity.
  - destruct (IH (Datatypes.S i))
      as (calls & Hrun & Hdate & Hsha & Htext & Hfill & Hkind).
    assert (Hshade : exists r g b,
               (r, g, b) = shade i
               /\ (if (i mod 2 =? 1)%nat then call (SetFillColor 245 245 245)
                   else call (SetFillColor 255 255 255))
                  = call (SetFillColor r g b)).
    { destruct (i mod 2 =? 1)%nat;
        [exists 245, 245, 245 | exists 255, 255, 255]; split; reflexivity. }
    destruct Hshade as (r & g & b & Hshade & Hcall).
    exists ([SetFillColor r g b;
             CellFormat 30 7 (FormatDate (Git.Date commit)) "1" 0 "C" true 0 "";
             CellFormat 25 7 (Git.SHA commit) "1" 0 "C" true 0 "";
             MultiCell 0 7
               (Git.Message commit ++ Config.lf ++ Git.Description commit)
               "1" "L" false] ++ calls).
    split.
    { intros [p o]. cbn [commitRows]. rewrite Hcall. run.
      rewrite Hrun. cbn [pdf stdout]. rewrite <- !app_assoc. reflexivity. }
    unfold cellTexts, multiCellTexts, fillColors in *.
    rewrite !omap_app, Hdate, Hsha, Htext, Hfill.
    cbn [omap list_omap app map seq length Z.eqb Pos.eqb andb String.eqb
         Ascii.eqb Bool.eqb].
    rewrite <- Hshade.
    repeat split. repeat constructor. exact Hkind.
Qed.

(** What [generateCommits] adds to the document. *)
Lemma generateCommits_calls (data : ReportData) :
  exists calls,
    (forall w, generateCommits Now data w
               = (Nil, {| pdf := pdf w ++ calls; stdout := stdout w |}))
    /\ cellTexts 30 7 calls
       = map (fun c => FormatDate (Git.Date c)) (Commits data)
    /\ cellTexts 25 7 calls = map Git.SHA (Commits data)
    /\ multiCellTexts calls
       = map (fun c => (Git.Message c ++ Config.lf ++ Git.Description c)%string)
           (Commits data)
    /\ fillColors calls
       = match Commits data with
         | [] => []
         | _ => (220, 220, 220)
                :: map (fun k => shade k) (seq 0 (length (Commits data)))
         end
    /\ outputFiles calls = []
    /\ (Commits data <> [] ->
        summaryCount (Z.of_nat (length (Commits data))) ∈ calls
        /\ (placeholder ∉ calls)
        /\ last calls
           = Some (Cell 0 4 ("Raport wygenerowany: " ++ FormatDateTime Now))).
Proof.
  unfold generateCommits. destruct (Commits data) as [| commit rest] eqn:Hcommits.
  - exists [SetFont fontName "I" 11; placeholder].
    split; [| repeat (split; [reflexivity |]); intros Hne; congruence].
    intros [p o]. run. unfold ret. cbn [pdf stdout].
    rewrite <- !app_assoc. reflexivity.
  - set (commits := commit :: rest).
    destruct (commitRows_calls commits 0)
      as (rows & Hrows & Hdate & Hsha & Htext & Hfill & Hkind).
    exists
      ([SetFont fontName "B" 10; SetFillColor 220 220 220;
        CellFormat 30 8 "Data" "1" 0 "C" true 0 "";
        CellFormat 25 8 "SHA" "1" 0 "C" true 0 "";
        CellFormat 0 8 "Opis" "1" 1 "C" true 0 "";
        SetFont fontName "" 10]
       ++ rows
       ++ [Ln 8; SetFont fontName "B" 11; Cell 0 8 "Podsumowanie:"; Ln 8;
           SetFont fontName "" 10;
           summaryCount (Z.of_nat (length commits));
           Ln 6; Cell 0 6 ("Autor: " ++ AuthorEmail data); Ln 6;
           Cell 0 6 ("Okres: " ++ FormatDate (DateFrom data) ++ " - "
                       ++ FormatDate (DateTo data));
           Ln 10; SetFont fontName "I" 8; SetTextColor 120 120 120;
           Cell 0 4 ("Raport wygenerowany: " ++ FormatDateTime Now)]).
    split.
    { intros [p o]. run. rewrite (bind_run _ _ _ _ _ (Hrows _)). run.
      unfold ret, summaryCount. cbn [pdf stdout]. rewrite <- !app_assoc.
      reflexivity. }
    assert (Hout : outputFiles rows = []).
    { unfold outputFiles. clear -Hkind.
      induction Hkind as [| c l Hc _ IH]; [reflexivity |].
      cbn [omap]. destruct c; try contradiction; exact IH. }
    split; [unfold cellTexts in *; rewrite !omap_app, Hdate; apply app_nil_r |].
    split; [unfold cellTexts in *; rewrite !omap_app, Hsha; apply app_nil_r |].
    split; [unfold multiCellTexts in *; rewrite !omap_app, Htext; apply app_nil_r |].
    split; [unfold fillColors in *; rewrite !omap_app, Hfill;
            cbn [omap list_omap app]; rewrite app_nil_r; reflexivity |].
    split; [unfold outputFiles in *; rewrite !omap_app, Hout; reflexivity |].
    intros _. split; [| split].
    + rewrite !elem_of_app. right. right.
      do 5 apply list_elem_of_further. apply list_elem_of_here.
    + rewrite !elem_of_app. intros [Hin | [Hin | Hin]].
      * apply list_elem_of_In in Hin. cbn in Hin.
        repeat (destruct Hin as [Hin | Hin]; [discriminate Hin |]). exact Hin.
      * rewrite Forall_forall in Hkind. apply (Hkind _ Hin).
      * apply list_elem_of_In in Hin. unfold summaryCount, placeholder in Hin.
        cbn in Hin.
        repeat (destruct Hin as [Hin | Hin]; [discriminate Hin |]). exact Hin.
    + rewrite app_assoc. rewrite last_app. reflexivity.
Qed.

(** X10: [generateCommits] returns no error and prints nothing, whatever the
    commits; it draws one row for each commit, in the order of the list:
    the date cells show the dates of the commits, the SHA cells their
    hashes, and the framed text cells the title of each, a line feed and
    its description. *)
Theorem generateCommits_rows (data : ReportData) (w : World) :
  fst (generateCommits Now data w) = Nil
  /\ stdout (snd (generateCommits Now data w)) = stdout w
  /\ exists calls,
       pdf (snd (generateCommits Now data w)) = pdf w ++ calls
       /\ cellTexts 30 7 calls
          = map (fun c => FormatDate (Git.Date c)) (Commits data)
       /\ cellTexts 25 7 calls = map Git.SHA (Commits data)
       /\ multiCellTexts calls
          = map (fun c => (Git.Message c ++ Config.lf ++ Git.Description c)%string)
              (Commits data).
Proof.
  destruct (generateCommits_calls data)
    as (calls & Hrun & Hdate & Hsha & Htext & _).
  rewrite Hrun. cbn [fst snd pdf stdout].
  split; [reflexivity |]. split; [reflexivity |].
  exists calls. repeat split; assumption.
Qed.

(** X11: the shading of the table: the fill colors that [generateCommits]
    sets are the grey of the table header, then for each row white when
    its index is even and light grey when it is odd; for an empty list no
    fill color is set. *)
Theorem generateCommits_shading (data : ReportData) (w : World) :
  exists calls,
    pdf (snd (generateCommits Now data w)) = pdf w ++ calls
    /\ fillColors calls
       = match Commits data with
         | [] => []
         | _ => (220, 220, 220)
                :: map (fun i => if (i mod 2 =? 1)%nat then (245, 245, 245)
                                 else (255, 255, 255))
                     (seq 0 (length (Commits data)))
         end.
Proof.
  destruct (generateCommits_calls data)
    as (calls & Hrun & _ & _ & _ & Hfill & _).
  exists calls. rewrite Hrun. split; [reflexivity | exact Hfill].
Qed.

(** X12: for a list of commits that is not empty, [generateCommits] draws
    the summary line with the number of the commits and not the line that
    stands for an empty table, and the last thing that it draws is the
    time of the run. *)
Theorem generateCommits_summary (data : ReportData) (w : World) :
  Commits data <> [] ->
  exists calls,
    pdf (snd (generateCommits Now data w)) = pdf w ++ calls
    /\ summaryCount (Z.of_nat (length (Commits data))) ∈ calls
    /\ (placeholder ∉ calls)
    /\ last calls
       = Some (Cell 0 4 ("Raport wygenerowany: " ++ FormatDateTime Now)).
Proof.
  intros Hcommits.
  destruct (generateCommits_calls data)
    as (calls & Hrun & _ & _ & _ & _ & _ & Hsummary).
  exists calls. rewrite Hrun. split; [reflexivity | exact (Hsummary Hcommits)].
Qed.


(** The header: its outcome and what it adds do not depend on the world. *)
Lemma generateHeader_calls (data : ReportData) :
  exists outcome calls printed,
    (forall w, generateHeader data w
               = (outcome, {| pdf := pdf w ++ calls;
                              stdout := stdout w ++ printed |}))
    /\ (outcome <> Nil -> calls = [])
    /\ outputFiles calls = [] /\ multiCellTexts calls = []
    /\ cellTexts 25 7 calls = [].
Proof.
  unfold generateHeader.
  destruct (Split _ _) as [| dateLocLine [| titleLine rest]].
  - exists (Error "invalid template format: not enough lines"), [], [].
    split; [| repeat split].
    intros [p o]. unfold ret. cbn [pdf stdout]. rewrite !app_nil_r. reflexivity.
  - exists (Error "invalid template format: not enough lines"), [], [].
    split; [| repeat split].
    intros [p o]. unfold ret. cbn [pdf stdout]. rewrite !app_nil_r. reflexivity.
  - set (debug := ["DEBUG: Date line: " ++ dateLocLine;
                   "DEBUG: Title line: " ++ titleLine;
                   "DEBUG: Rest of template: " ++ Strings.Join rest Config.lf]%string).
    destruct (Template.Parse dateLocLine) as [dateTmpl | err |];
      [destruct (Template.Parse (Strings.Join rest Config.lf))
         as [restTmpl | err |] | |].
    + exists Nil,
        [SetFont fontName "" 11;
         Cell 0 10 (Template.Execute dateTmpl (templateData data)); Ln 12;
         SetFont fontName "B" 16; Cell 0 8 titleLine; Ln 15;
         SetFont fontName "" 11;
         MultiCell 0 7 (Template.Execute restTmpl (templateData data))
           "" "L" false;
         Ln 5],
        (debug
         ++ ["DEBUG: Rendered date: "
               ++ Template.Execute dateTmpl (templateData data);
             "DEBUG: Title (not rendered): " ++ titleLine;
             "DEBUG: Rendered rest: "
               ++ Template.Execute restTmpl (templateData data)]%string).
      split; [| split; [intros Hne; contradiction Hne; reflexivity
                       | repeat split]].
      intros [p o]. run. unfold ret, debug. cbn [pdf stdout].
      rewrite <- !app_assoc. reflexivity.
    + exists (Error ("failed to parse rest of template: " ++ err)), [], debug.
      split; [| repeat split].
      intros [p o]. run. unfold ret, debug. cbn [pdf stdout].
      rewrite app_nil_r, <- !app_assoc. reflexivity.
    + exists Beyond, [], debug.
      split; [| repeat split].
      intros [p o]. run. unfold ret, debug. cbn [pdf stdout].
      rewrite app_nil_r, <- !app_assoc. reflexivity.
    + exists (Error ("failed to parse date template: " ++ err)), [], debug.
      split; [| repeat split].
      intros [p o]. run. unfold ret, debug. cbn [pdf stdout].
      rewrite app_nil_r, <- !app_assoc. reflexivity.
    + exists Beyond, [], debug.
      split; [| repeat split].
      intros [p o]. run. unfold ret, debug. cbn [pdf stdout].
      rewrite app_nil_r, <- !app_assoc. reflexivity.
Qed.

(** X13: a header that fails draws nothing: whenever [generateHeader] does
    not return nil, it has made no call on the document. *)
Theorem generateHeader_failure_draws_nothing (data : ReportData) (w : World) :
  fst (generateHeader data w) <> Nil ->
  pdf (snd (generateHeader data w)) = pdf w.
Proof.
  destruct (generateHeader_calls data)
    as (outcome & calls & printed & Hrun & Hfail & _).
  rewrite Hrun. cbn [fst snd pdf]. intros Hne.
  rewrite (Hfail Hne). apply app_nil_r.
Qed.

Lemma lines_two (s : list ascii) :
  newline ∈ s -> exists a b rest, lines s = a :: b :: rest.
Proof.
  induction s as [| c r IH]; intros Hin; [inversion Hin |].
  destruct (ascii_dec c newline) as [-> | Hc].
  - rewrite lines_newline, (lines_hd_tl r). eauto.
  - rewrite lines_cons by assumption.
    apply elem_of_cons in Hin. destruct Hin as [Heq | Hin]; [congruence |].
    destruct (IH Hin) as (a & b & rest & ->). cbn [hd tl]. eauto.
Qed.

(** X14: [generateHeader] returns the error ["invalid template format: not
    enough lines"] exactly when the template holds no line feed. *)
Theorem generateHeader_not_enough_lines (data : ReportData) (w : World) :
  fst (generateHeader data w)
  = Error "invalid template format: not enough lines"
  <-> (newline ∉ B (Config.Template (Config.Header (Config data)))).
Proof.
  unfold generateHeader, Split. fold (lines (B (Config.Template
                                              (Config.Header (Config data))))).
  split.
  - intros Hrun Hin. destruct (lines_two _ Hin) as (a & b & rest & Hlines).
    rewrite Hlines in Hrun. cbn [map] in Hrun. destruct w as [p o].
    revert Hrun. run.
    destruct (Template.Parse (S a)); [| unfold ret; discriminate ..].
    destruct (Template.Parse _); run; unfold ret; discriminate.
  - intros Hnone. rewrite lines_single by assumption. reflexivity.
Qed.

Lemma append_nil_r (s : string) : (s ++ "")%string = s.
Proof.
  induction s as [| c s IH]; [reflexivity |].
  change (String c (s ++ "")%string = String c s). rewrite IH. reflexivity.
Qed.

Lemma append_assoc (s t u : string) :
  ((s ++ t) ++ u)%string = (s ++ t ++ u)%string.
Proof.
  induction s as [| c s IH]; [reflexivity |].
  change (String c ((s ++ t) ++ u)%string = String c (s ++ t ++ u)%string).
  rewrite IH. reflexivity.
Qed.

Lemma isChar_false (c : ascii) (n : N) :
  c <> ascii_of_N n -> Template.isChar c n = false.
Proof.
  intros Hc. unfold Template.isChar, byte. apply N.eqb_neq. intros Hn.
  apply Hc. rewrite <- Hn. symmetry. apply ascii_N_embedding.
Qed.

(** A text without an opening brace is one text node. *)
Lemma lex_plain (s cur : string) :
  "{"%char ∉ B s ->
  Template.lex false cur s = Some [Template.ItemText (cur ++ s)%string].
Proof.
  revert cur. induction s as [| c r IH]; intros cur Hnone.
  - cbn. rewrite append_nil_r. reflexivity.
  - cbn [list_ascii_of_string] in Hnone. apply not_elem_of_cons in Hnone. destruct Hnone as [Hc Hr].
    cbn [Template.lex]. rewrite (isChar_false c 123) by (intros ->; apply Hc; reflexivity).
    cbn [negb andb]. rewrite (IH _ Hr), append_assoc.
    destruct r; reflexivity.
Qed.

Lemma Parse_plain (text : string) :
  "{"%char ∉ B text -> Template.Parse text = Template.Tree [Template.TextNode text].
Proof.
  intros Hnone. unfold Template.Parse. rewrite lex_plain by assumption.
  reflexivity.
Qed.

Lemma Join_unlines (ls : list (list ascii)) :
  B (Strings.Join (map S ls) Config.lf) = unlines ls.
Proof.
  induction ls as [| l ls IH]; [reflexivity |].
  destruct ls as [| l' ls].
  - cbn. apply list_ascii_of_string_of_list_ascii.
  - change (Strings.Join (map S (l :: l' :: ls)) Config.lf)
      with (S l ++ Config.lf ++ Strings.Join (map S (l' :: ls)) Config.lf)%string.
    rewrite !bytes_app, IH, list_ascii_of_string_of_list_ascii. reflexivity.
Qed.

(** The run of a header whose two templates parse. *)
Lemma generateHeader_rendered (data : ReportData) (w : World)
    (dateLocLine titleLine : string) (rest : list string)
    (dateTmpl restTmpl : list Template.Node) :
  Split (Config.Template (Config.Header (Config data))) newline
  = dateLocLine :: titleLine :: rest ->
  Template.Parse dateLocLine = Template.Tree dateTmpl ->
  Template.Parse (Strings.Join rest Config.lf) = Template.Tree restTmpl ->
  fst (generateHeader data w) = Nil
  /\ pdf (snd (generateHeader data w))
     = pdf w
       ++ [SetFont fontName "" 11;
           Cell 0 10 (Template.Execute dateTmpl (templateData data)); Ln 12;
           SetFont fontName "B" 16; Cell 0 8 titleLine; Ln 15;
           SetFont fontName "" 11;
           MultiCell 0 7 (Template.Execute restTmpl (templateData data))
             "" "L" false;
           Ln 5].
Proof.
  intros Hsplit Hdate Hrest. unfold generateHeader.
  rewrite Hsplit. destruct w as [p o]. run. rewrite Hdate, Hrest. run.
  unfold ret. cbn [fst snd pdf]. split; [reflexivity |].
  rewrite <- !app_assoc. reflexivity.
Qed.

(** The fields that the header of the default template uses. *)
Lemma evalField_fixed (data : ReportData) :
  Template.evalField (templateData data) "executor_name"
  = Config.ExecutorName (Config.Header (Config data))
  /\ Template.evalField (templateData data) "executor_email"
     = Config.ExecutorEmail (Config.Header (Config data))
  /\ Template.evalField (templateData data) "recipient_name"
     = Config.RecipientName (Config.Header (Config data))
  /\ Template.evalField (templateData data) "repository_name"
     = RepositoryName data
  /\ Template.evalField (templateData data) "branch_name" = BranchName data
  /\ Template.evalField (templateData data) "date_from"
     = FormatDate (DateFrom data)
  /\ Template.evalField (templateData data) "date_to"
     = FormatDate (DateTo data).
Proof.
  unfold Template.evalField, templateData.
  repeat split;
    repeat (rewrite lookup_insert_ne by discriminate);
    rewrite lookup_insert_eq; reflexivity.
Qed.

(** X15: a template with a line feed and without an opening brace is put
    on the page as it stands: the first line as the date line, the second
    as the title, and the remainder, joined again, as the text below. *)
Theorem generateHeader_plain_template (data : ReportData) (w : World) :
  newline ∈ B (Config.Template (Config.Header (Config data))) ->
  "{"%char ∉ B (Config.Template (Config.Header (Config data))) ->
  exists dateLocLine titleLine rest,
    Split (Config.Template (Config.Header (Config data))) newline
    = dateLocLine :: titleLine :: rest
    /\ fst (generateHeader data w) = Nil
    /\ pdf (snd (generateHeader data w))
       = pdf w
         ++ [SetFont fontName "" 11; Cell 0 10 dateLocLine; Ln 12;
             SetFont fontName "B" 16; Cell 0 8 titleLine; Ln 15;
             SetFont fontName "" 11;
             MultiCell 0 7 (Strings.Join rest Config.lf) "" "L" false; Ln 5].
Proof.
  intros Hfeed Hplain.
  destruct (lines_two _ Hfeed) as (a & b & rest & Hlines).
  exists (S a), (S b), (map S rest).
  assert (Hsplit : Split (Config.Template (Config.Header (Config data))) newline
                   = S a :: S b :: map S rest).
  { unfold Split. fold (lines (B (Config.Template (Config.Header (Config data))))).
    rewrite Hlines. reflexivity. }
  split; [exact Hsplit |].
  pose proof (unlines_lines (B (Config.Template (Config.Header (Config data)))))
    as Hback.
  rewrite Hlines in Hback. rewrite <- Hback in Hplain.
  rewrite unlines_cons in Hplain by discriminate.
  assert (Ha : "{"%char ∉ B (S a)).
  { rewrite list_ascii_of_string_of_list_ascii. intros Hin. apply Hplain.
    apply elem_of_app. left. exact Hin. }
  assert (Hrest : "{"%char ∉ B (Strings.Join (map S rest) Config.lf)).
  { rewrite Join_unlines. intros Hin. apply Hplain.
    apply elem_of_app. right. apply list_elem_of_further.
    destruct rest as [| r0 rest]; [inversion Hin |].
    rewrite unlines_cons by discriminate.
    apply elem_of_app. right. apply list_elem_of_further. exact Hin. }
  destruct (generateHeader_rendered data w _ _ _ _ _ Hsplit
              (Parse_plain _ Ha) (Parse_plain _ Hrest)) as [Hnil Hpdf].
  split; [exact Hnil |]. rewrite Hpdf. cbn [Template.Execute].
  rewrite !append_nil_r. reflexivity.
Qed.

(** X16: the header of the default template: the date line shows the two
    dates of the report after the fixed text ["Some City, "], the title is
    the second line of the template, and the text below names the
    executor, the recipient, the repository and the branch of the report. *)
Theorem generateHeader_default_template (data : ReportData) (w : World) :
  Config.Template (Config.Header (Config data))
  = Config.Template (Config.Header Config.DefaultConfig) ->
  fst (generateHeader data w) = Nil
  /\ pdf (snd (generateHeader data w))
     = pdf w
       ++ [SetFont fontName "" 11;
           Cell 0 10 ("Some City, " ++ FormatDate (DateFrom data) ++ " - "
                        ++ FormatDate (DateTo data));
           Ln 12;
           SetFont fontName "B" 16;
           Cell 0 8 "Protokół odbioru prac programistycznych";
           Ln 15;
           SetFont fontName "" 11;
           MultiCell 0 7
             (Config.lf
              ++ "Wykonawca: "
              ++ Config.ExecutorName (Config.Header (Config data))
              ++ " (" ++ Config.ExecutorEmail (Config.Header (Config data))
              ++ ")" ++ Config.lf
              ++ "Odbiorca: "
              ++ Config.RecipientName (Config.Header (Config data))
              ++ Config.lf ++ Config.lf
              ++ "Repozytorium: " ++ RepositoryName data ++ Config.lf
              ++ "- Branch " ++ BranchName data ++ Config.lf ++ Config.lf
              ++ "Lista commitów:")
             "" "L" false;
           Ln 5].
Proof.
  intros Htemplate.
  assert (Hsplit :
    Split (Config.Template (Config.Header (Config data))) newline
    = ["Some City, {{.date_from}} - {{.date_to}}";
       "Protokół odbioru prac programistycznych";
       "";
       "Wykonawca: {{.executor_name}} ({{.executor_email}})";
       "Odbiorca: {{.recipient_name}}";
       "";
       "Repozytorium: {{.repository_name}}";
       "- Branch {{.branch_name}}";
       "";
       "Lista commitów:"]%string).
  { rewrite Htemplate. vm_compute. reflexivity. }
  destruct (generateHeader_rendered data w _ _ _
              [Template.TextNode "Some City, "; Template.FieldNode "date_from";
               Template.TextNode " - "; Template.FieldNode "date_to";
               Template.TextNode ""]
              [Template.TextNode (Config.lf ++ "Wykonawca: ");
               Template.FieldNode "executor_name";
               Template.TextNode " ("; Template.FieldNode "executor_email";
               Template.TextNode (")" ++ Config.lf ++ "Odbiorca: ");
               Template.FieldNode "recipient_name";
               Template.TextNode (Config.lf ++ Config.lf ++ "Repozytorium: ");
               Template.FieldNode "repository_name";
               Template.TextNode (Config.lf ++ "- Branch ");
               Template.FieldNode "branch_name";
               Template.TextNode (Config.lf ++ Config.lf ++ "Lista commitów:")]
              Hsplit) as [Hnil Hpdf];
    [vm_compute; reflexivity | vm_compute; reflexivity |].
  split; [exact Hnil |]. rewrite Hpdf.
  destruct (evalField_fixed data) as (Hen & Hee & Hrn & Hname & Hbranch & Hfrom & Hto).
  cbn [Template.Execute]. rewrite Hen, Hee, Hrn, Hname, Hbranch, Hfrom, Hto.
  rewrite !append_nil_r. reflexivity.
Qed.

Local Notation "'generate'" :=
  (Generate Executable Dir Join Abs Now outputError).

(** The calls of [Generate] before the header. *)
Local Notation "'prelude' executablePath" :=
  [New "P" "mm" "A4" (Join (Dir executablePath) fontDir);
   AddUTF8Font fontName "" fontFile;
   AddUTF8Font fontName "B" fontBold;
   AddUTF8Font fontName "I" "DejaVuSans-Oblique.ttf";
   SetFont fontName "" 11; AddPage; SetMargins 20 20 20;
   SetAutoPageBreak true 20]
  (at level 10, executablePath at level 9).

(** X17: a header that fails ends the report: when [generateHeader] does
    not return nil, [Generate] does not return nil either, draws no row of
    the commit table and does not write the file. *)
Theorem Generate_header_failure (data : ReportData) (outputPath : string)
    (w : World) :
  fst (generateHeader data w) <> Nil ->
  fst (generate data outputPath w) <> Nil
  /\ exists calls,
       pdf (snd (generate data outputPath w)) = pdf w ++ calls
       /\ cellTexts 25 7 calls = []
       /\ outputFiles calls = [].
Proof.
  intros Hfail.
  destruct (generateHeader_calls data)
    as (outcome & hcalls & printed & Hrun & Hnone & _).
  rewrite Hrun in Hfail. cbn [fst] in Hfail. rewrite (Hnone Hfail) in Hrun.
  unfold Generate, getAbsFontPath. destruct w as [p o].
  destruct Executable as [executablePath | err].
  2: { run. unfold ret. cbn [fst snd pdf]. split; [discriminate |].
       exists []. rewrite app_nil_r. repeat split. }
  run. destruct (Abs (Join (Dir executablePath) (Join fontDir fontFile))).
  2: { run. unfold ret. cbn [fst snd pdf]. split; [discriminate |].
       exists []. rewrite app_nil_r. repeat split. }
  run. destruct (Abs (Join (Dir executablePath) (Join fontDir fontBold))).
  2: { run. unfold ret. cbn [fst snd pdf]. split; [discriminate |].
       exists []. rewrite app_nil_r. repeat split. }
  run. destruct (Abs (Join (Dir executablePath)
                        (Join fontDir "DejaVuSans-Oblique.ttf"))).
  2: { run. unfold ret. cbn [fst snd pdf]. split; [discriminate |].
       eexists. rewrite <- !app_assoc. split; [reflexivity |]. repeat split. }
  run. rewrite (bind_run _ _ _ _ _ (Hrun _)).
  destruct outcome as [| err |]; [contradiction Hfail; reflexivity | |];
    unfold ret; cbn [fst snd pdf]; (split; [discriminate |]); eexists;
    rewrite app_nil_r, <- !app_assoc; (split; [reflexivity |]); repeat split.
Qed.

(** X18: the document of a run that succeeds: when [Generate] returns nil,
    the executable was found, and the calls on the document are those that
    set it up, then those of [generateHeader], then those of
    [generateCommits], and last the one that writes the file, which
    reported no error. *)
Theorem Generate_document (data : ReportData) (outputPath : string)
    (w : World) :
  fst (generate data outputPath w) = Nil ->
  exists executablePath,
    Executable = Ok executablePath
    /\ pdf (snd (generate data outputPath w))
       = pdf w ++ prelude executablePath
         ++ pdf (snd (generateHeader data emptyWorld))
         ++ pdf (snd (generateCommits Now data emptyWorld))
         ++ [OutputFileAndClose outputPath]
    /\ outputError (pdf (snd (generate data outputPath w))) outputPath = None.
Proof.
  destruct (generateHeader_calls data)
    as (outcome & hcalls & printed & Hheader & _).
  destruct (generateCommits_calls data) as (ccalls & Hcommits & _).
  rewrite (Hheader emptyWorld), (Hcommits emptyWorld). cbn [snd pdf app].
  unfold Generate, getAbsFontPath. destruct w as [p o].
  destruct Executable as [executablePath | err];
    [| run; unfold ret; cbn [fst]; discriminate].
  run. destruct (Abs (Join (Dir executablePath) (Join fontDir fontFile)));
    [| run; unfold ret; cbn [fst]; discriminate].
  run. destruct (Abs (Join (Dir executablePath) (Join fontDir fontBold)));
    [| run; unfold ret; cbn [fst]; discriminate].
  run. destruct (Abs (Join (Dir executablePath)
                        (Join fontDir "DejaVuSans-Oblique.ttf")));
    [| run; unfold ret; cbn [fst]; discriminate].
  run. rewrite (bind_run _ _ _ _ _ (Hheader _)).
  destruct outcome as [| err |]; [| unfold ret; cbn [fst]; discriminate ..].
  rewrite (bind_run _ _ _ _ _ (Hcommits _)). run. cbn [pdf stdout].
  match goal with
  | |- context [outputError ?calls outputPath] =>
      destruct (outputError calls outputPath) eqn:Hsave
  end; [cbn [fst]; discriminate |].
  intros _. exists executablePath. split; [reflexivity |].
  cbn [snd pdf]. split.
  - rewrite <- !app_assoc. reflexivity.
  - exact Hsave.
Qed.

End GeneratorMore.

Lemma Load_validated_witness :
  Config.Load Example.asciiOnly Example.Number Example.ParseFloat
    Example.ParseInt Example.savedFileSystem "config.json"
  = Ok Config.DefaultConfig
  /\ Config.Validate Config.DefaultConfig = None.
Proof.
  split; [vm_compute; reflexivity |].
  apply (Load_validated Example.asciiOnly Example.Number Example.ParseFloat
           Example.ParseInt Example.savedFileSystem "config.json").
  vm_compute. reflexivity.
Defined.

Lemma Load_needs_header_and_pdf_witness :
  exists members,
    Config.files Example.Number Example.savedFileSystem !! "config.json"%string
    = Some (Some (Config.JObject Example.Number members))
    /\ (exists key v, (key, v) ∈ members
          /\ Config.lookupField Example.asciiOnly Config.configFields key
             = Some Config.FHeader)
    /\ (exists key v, (key, v) ∈ members
          /\ Config.lookupField Example.asciiOnly Config.configFields key
             = Some Config.FPDF).
Proof.
  apply (Load_needs_header_and_pdf Example.asciiOnly Example.Number
           Example.ParseFloat Example.ParseInt Example.savedFileSystem
           "config.json" Config.DefaultConfig).
  - discriminate.
  - vm_compute. reflexivity.
Defined.

Lemma generateCommits_summary_witness :
  exists calls,
    Generator.pdf (snd (Generator.generateCommits Example.now Example.titleReport
                          Generator.emptyWorld))
    = Generator.pdf Generator.emptyWorld ++ calls
    /\ Spec.summaryCount 2 ∈ calls
    /\ (Spec.placeholder ∉ calls)
    /\ last calls
       = Some (Generator.Cell 0 4 "Raport wygenerowany: 2024-02-05 09:30:00").
Proof.
  apply (generateCommits_summary Example.now Example.titleReport
           Generator.emptyWorld).
  discriminate.
Defined.

Lemma generateHeader_failure_draws_nothing_witness :
  fst (Generator.generateHeader Example.oneLineReport Generator.emptyWorld)
  <> Generator.Nil
  /\ Generator.pdf
       (snd (Generator.generateHeader Example.oneLineReport
               Generator.emptyWorld)) = [].
Proof.
  split; [vm_compute; discriminate |].
  apply (generateHeader_failure_draws_nothing Example.oneLineReport
           Generator.emptyWorld).
  vm_compute. discriminate.
Defined.

Lemma generateHeader_plain_template_witness :
  exists dateLocLine titleLine rest,
    Strings.Split
      (Config.Template (Config.Header (Generator.Config Example.plainReport)))
      Strings.newline
    = dateLocLine :: titleLine :: rest
    /\ fst (Generator.generateHeader Example.plainReport Generator.emptyWorld)
       = Generator.Nil
    /\ Generator.pdf
         (snd (Generator.generateHeader Example.plainReport
                 Generator.emptyWorld))
       = Generator.pdf Generator.emptyWorld
         ++ [Generator.SetFont Generator.fontName "" 11;
             Generator.Cell 0 10 dateLocLine; Generator.Ln 12;
             Generator.SetFont Generator.fontName "B" 16;
             Generator.Cell 0 8 titleLine; Generator.Ln 15;
             Generator.SetFont Generator.fontName "" 11;
             Generator.MultiCell 0 7 (Strings.Join rest Config.lf) "" "L" false;
             Generator.Ln 5].
Proof.
  apply (generateHeader_plain_template Example.plainReport Generator.emptyWorld).
  - vm_compute. apply list_elem_of_In. do 20 right. left. reflexivity.
  - vm_compute. intros Hin. apply list_elem_of_In in Hin. cbn in Hin.
    repeat (destruct Hin as [Hin | Hin]; [discriminate Hin |]). exact Hin.
Defined.

Lemma generateHeader_default_template_witness :
  fst (Generator.generateHeader Example.emptyReport Generator.emptyWorld)
  = Generator.Nil
  /\ Generator.pdf
       (snd (Generator.generateHeader Example.emptyReport Generator.emptyWorld))
     = [Generator.SetFont Generator.fontName "" 11;
        Generator.Cell 0 10 "Some City, 2024-01-01 - 2024-01-31";
        Generator.Ln 12;
        Generator.SetFont Generator.fontName "B" 16;
        Generator.Cell 0 8 "Protokół odbioru prac programistycznych";
        Generator.Ln 15;
        Generator.SetFont Generator.fontName "" 11;
        Generator.MultiCell 0 7
          (Config.lf ++ "Wykonawca: Some Programmer (jan.kowalski@comany.com)"
           ++ Config.lf ++ "Odbiorca: CIA" ++ Config.lf ++ Config.lf
           ++ "Repozytorium: project" ++ Config.lf ++ "- Branch main"
           ++ Config.lf ++ Config.lf ++ "Lista commitów:")
          "" "L" false;
        Generator.Ln 5].
Proof.
  apply (generateHeader_default_template Example.emptyReport
           Generator.emptyWorld).
  reflexivity.
Defined.

Lemma Generate_header_failure_witness :
  fst (Generator.generateHeader Example.oneLineReport Generator.emptyWorld)
  <> Generator.Nil
  /\ fst (Generator.Generate Example.executable Example.dir Example.join
            Example.abs Example.now Example.noOutputError
            Example.oneLineReport "report.pdf" Generator.emptyWorld)
     <> Generator.Nil.
Proof.
  split; [vm_compute; discriminate |].
  apply (Generate_header_failure Example.executable Example.dir Example.join
           Example.abs Example.now Example.noOutputError
           Example.oneLineReport "report.pdf" Generator.emptyWorld).
  vm_compute. discriminate.
Defined.

Lemma Generate_document_witness :
  exists executablePath,
    Example.executable = Ok executablePath
    /\ Generator.pdf
         (snd (Generator.Generate Example.executable Example.dir Example.join
                 Example.abs Example.now Example.noOutputError
                 Example.titleReport "report.pdf" Generator.emptyWorld))
       = Generator.pdf Generator.emptyWorld
         ++ [Generator.New "P" "mm" "A4"
               (Example.join (Example.dir executablePath) Generator.fontDir);
             Generator.AddUTF8Font Generator.fontName "" Generator.fontFile;
             Generator.AddUTF8Font Generator.fontName "B" Generator.fontBold;
             Generator.AddUTF8Font Generator.fontName "I"
               "DejaVuSans-Oblique.ttf";
             Generator.SetFont Generator.fontName "" 11; Generator.AddPage;
             Generator.SetMargins 20 20 20;
             Generator.SetAutoPageBreak true 20]
         ++ Generator.pdf
              (snd (Generator.generateHeader Example.titleReport
                      Generator.emptyWorld))
         ++ Generator.pdf
              (snd (Generator.generateCommits Example.now Example.titleReport
                      Generator.emptyWorld))
         ++ [Generator.OutputFileAndClose "report.pdf"]
    /\ Example.noOutputError
         (Generator.pdf
            (snd (Generator.Generate Example.executable Example.dir
                    Example.join Example.abs Example.now Example.noOutputError
                    Example.titleReport "report.pdf" Generator.emptyWorld)))
         "report.pdf" = None.
Proof.
  apply (Generate_document Example.executable Example.dir Example.join
           Example.abs Example.now Example.noOutputError Example.titleReport
           "report.pdf" Generator.emptyWorld).
  vm_compute. reflexivity.
Defined.
